(** * RESONANCE-NETWORK: the quantum-graph consciousness substrate

    A shallow embedding of [core.py], [features.py], [network.py],
    [consciousness.py], [engine.py], [adjustable.py] and [api.py], and the
    properties of the specification proved (or refuted) on it.

    Conventions of the embedding.
    - Python [int] is [Z]; Python and torch floats are idealised as the real
      numbers [R] (no rounding, no NaN, no infinities).
    - A Python exception is the [Raise] branch of [result].
    - A Python [dict] keyed by strings is an insertion-ordered association
      list with unique keys ([dict_get], [dict_set]).
    - A Python [set] of gates is a duplicate-free list.  The order in which
      Python enumerates a set is an implementation matter; the lists below
      keep the order of the source text, and every theorem about fields is
      stated for an arbitrary enumeration.
    - The torch and torch_geometric library (random number generator, layer
      modules, [topk], float formatting) is the interface [Runtime]. *)

From Stdlib Require Import Reals Lra Lia ZArith Ascii String List Sorting.Sorted.
From stdpp Require Import gmap strings list pretty.

Local Open Scope string_scope.
Local Open Scope list_scope.
Local Open Scope R_scope.

(** ** Exceptions *)

Inductive PyError : Type :=
  | KeyError
  | IndexError
  | RuntimeError.

Inductive result (A : Type) : Type :=
  | Ok (a : A)
  | Raise (e : PyError).
Arguments Ok {A} a.
Arguments Raise {A} e.

#[global] Instance result_ret : MRet result := fun A a => Ok a.

#[global] Instance result_bind : MBind result := fun A B k m =>
  match m with
  | Ok a => k a
  | Raise e => Raise e
  end.

(** A loop threading a state through a monadic body ([mapM], the loop that
    collects one result per element, is stdpp's). *)
Fixpoint foldM `{MBind M, MRet M} {A S : Type}
    (f : S -> A -> M S) (s : S) (xs : list A) : M S :=
  match xs with
  | [] => mret s
  | x :: xs' => s' ← f s x; foldM f s' xs'
  end.

(** ** Python containers *)

(** [d[k]] and [k in d] on a string-keyed dict. *)
Fixpoint dict_get {V : Type} (k : string) (d : list (string * V)) : option V :=
  match d with
  | [] => None
  | (k', v) :: d' => if bool_decide (k = k') then Some v else dict_get k d'
  end.

(** [d[k] = v]: overwrite in place, or append a new key at the end. *)
Fixpoint dict_set {V : Type} (k : string) (v : V) (d : list (string * V))
  : list (string * V) :=
  match d with
  | [] => [(k, v)]
  | (k', v') :: d' =>
      if bool_decide (k = k') then (k, v) :: d' else (k', v') :: dict_set k v d'
  end.

Definition dict_keys {V : Type} (d : list (string * V)) : list string := map fst d.
Definition dict_values {V : Type} (d : list (string * V)) : list V := map snd d.

(** [d[k]] raising [KeyError]. *)
Definition dict_item {V : Type} (k : string) (d : list (string * V)) : result V :=
  match dict_get k d with
  | Some v => Ok v
  | None => Raise KeyError
  end.

(** [s.update(xs)] on a set kept as a duplicate-free list. *)
Definition set_update (s xs : list Z) : list Z :=
  foldl (fun acc x => if bool_decide (x ∈ acc) then acc else acc ++ [x]) s xs.

(** Indexing a sequence or tensor of length [n] with a Python int: negative
    indices count from the end, anything else out of range raises. *)
Definition py_index (n : nat) (i : Z) : result nat :=
  if bool_decide (0 <= i < Z.of_nat n)%Z then Ok (Z.to_nat i)
  else if bool_decide (- Z.of_nat n <= i < 0)%Z then Ok (Z.to_nat (Z.of_nat n + i))
  else Raise IndexError.

(** [t[i]] *)
Definition tensor_get {A : Type} (t : list A) (i : Z) : result A :=
  j ← py_index (length t) i;
  match t !! j with
  | Some v => Ok v
  | None => Raise IndexError
  end.

(** [t[i] = v] *)
Definition tensor_set (t : list R) (i : Z) (v : R) : result (list R) :=
  j ← py_index (length t) i; Ok (<[j := v]> t).

(** [torch.zeros(n)] *)
Definition zeros (n : nat) : list R := replicate n 0.

(** [t.sum()] *)
Definition tsum (t : list R) : R := foldr Rplus 0 t.

(** [t.mean()] *)
Definition tmean (t : list R) : R := tsum t / INR (length t).

(** [t.std()]: torch's default is the unbiased estimator. *)
Definition tstd (t : list R) : R :=
  sqrt (tsum (map (fun x => (x - tmean t) * (x - tmean t)) t) / (INR (length t) - 1)).

(** Python's [min(a, b)] and [max(a, b)] on floats: the first argument
    unless the second is strictly smaller (larger). *)
Definition py_min (a b : R) : R := if Rlt_dec b a then b else a.
Definition py_max (a b : R) : R := if Rlt_dec a b then b else a.

(** [sep.join(parts)] *)
Fixpoint join (sep : string) (parts : list string) : string :=
  match parts with
  | [] => ""
  | [x] => x
  | x :: rest => x +:+ sep +:+ join sep rest
  end.

(** [sorted(xs, key=key, reverse=True)].  Python's sort is stable, also
    under [reverse=True]: elements with equal keys keep the order they had
    in [xs].  The result of a stable sort does not depend on the algorithm;
    it is computed here by insertion. *)
Fixpoint insert_reverse {A : Type} (key : A -> R) (x : A) (l : list A) : list A :=
  match l with
  | [] => [x]
  | y :: l' =>
      if Rle_dec (key y) (key x) then x :: y :: l' else y :: insert_reverse key x l'
  end.

Definition sorted_reverse {A : Type} (key : A -> R) (xs : list A) : list A :=
  foldr (insert_reverse key) [] xs.

(** [max(xs, key=key)]: the first of the elements with the largest key;
    [None] stands for the [ValueError] raised on an empty sequence. *)
Definition max_by {A : Type} (key : A -> R) (xs : list A) : option A :=
  match xs with
  | [] => None
  | x :: xs' =>
      Some (foldl (fun best y => if Rlt_dec (key best) (key y) then y else best) x xs')
  end.

(** [s.split(sep)] for a one-character separator: the parts between the
    occurrences of [sep], one more than there are occurrences. *)
Fixpoint split (sep : ascii) (s : string) : list string :=
  match s with
  | EmptyString => [EmptyString]
  | String c s' =>
      if Ascii.eqb c sep then EmptyString :: split sep s'
      else match split sep s' with
           | part :: parts => String c part :: parts
           | [] => [String c EmptyString]
           end
  end.

(** The value of a decimal digit. *)
Definition digit_value (c : ascii) : option Z :=
  let n := Z.of_nat (nat_of_ascii c) in
  if bool_decide (48 <= n <= 57)%Z then Some (n - 48)%Z else None.

Fixpoint digits_value (acc : Z) (s : string) : option Z :=
  match s with
  | EmptyString => Some acc
  | String c s' => d ← digit_value c; digits_value (10 * acc + d) s'
  end.

(** [int(s)] on a string of decimal digits; [None] stands for
    [ValueError].  Python's [int] also accepts surrounding whitespace, a
    sign and single underscores between digits: a string of that kind is
    rejected here, so that a value returned here is the value that Python
    returns. *)
Definition int_of_string (s : string) : option Z :=
  match s with
  | EmptyString => None
  | _ => digits_value 0 s
  end.

(** [sum(xs)] over floats: from 0, left to right. *)
Definition py_sum (xs : list R) : R := foldl Rplus 0 xs.

(** ** core.py *)

Module Core.

Inductive Stream : Type := BODY | DESIGN.

Inductive ChartSystem : Type := SIDEREAL | TROPICAL | DRACONIC.

Definition ChartSystem_value (c : ChartSystem) : string :=
  match c with
  | SIDEREAL => "sidereal"
  | TROPICAL => "tropical"
  | DRACONIC => "draconic"
  end.

Record Placement : Type := mkPlacement {
  planet : string;
  stream : Stream;
  gate : Z;
  line : Z;
  degree : option R;
  timestamp : option R;
  chart_system : ChartSystem
}.

Definition is_body (s : Stream) : bool :=
  match s with BODY => true | DESIGN => false end.

Definition CENTERS : list (string * list Z) := [
  ("Head", [64; 61; 63]);
  ("Ajna", [47; 24; 4; 17; 11; 43]);
  ("Throat", [62; 23; 56; 35; 12; 45; 33; 8; 31; 20; 16]);
  ("G", [7; 1; 13; 10; 15; 2; 46; 25]);
  ("Ego", [21; 51; 26; 40]);
  ("Spleen", [57; 44; 50; 32; 28; 18; 48]);
  ("Solar", [55; 49; 37; 22; 30; 36; 6]);
  ("Sacral", [5; 14; 29; 59; 9; 3; 42; 27; 34]);
  ("Root", [52; 19; 39; 41; 38; 54; 53; 60; 58])
]%Z.

Definition AWARENESS_SYSTEMS : list (string * list Z) := [
  ("spleen", [57; 44; 50; 32; 28; 18]);
  ("ajna", [47; 24; 4; 17; 11; 43]);
  ("solar", [55; 49; 37; 22; 30; 36; 6])
]%Z.

Definition HEART_GATES : list Z := [21; 51; 26; 40]%Z.

Definition CHANNELS : list (Z * Z * string) := [
  (* Head-Ajna *)
  (64, 47, "Abstract/Reason");
  (61, 24, "Awareness/The Thinker");
  (63, 4, "Logic/Formulas");
  (* Ajna-Throat *)
  (47, 64, "Abstract/Reason");
  (24, 61, "Awareness/The Thinker");
  (4, 63, "Logic/Formulas");
  (17, 62, "Acceptance/Organization");
  (43, 23, "Insight/Structuring");
  (11, 56, "Curiosity/Stimulation");
  (* Throat-G *)
  (31, 7, "Alpha/The Sphinx");
  (8, 1, "Inspiration/The Creative");
  (33, 13, "Prodigal/The Witness");
  (20, 10, "Awakening/Commitment");
  (16, 48, "Wavelength/The Talent");
  (62, 17, "Acceptance/Organization");
  (23, 43, "Insight/Structuring");
  (56, 11, "Curiosity/Stimulation");
  (* G-Sacral *)
  (7, 31, "Alpha/The Sphinx");
  (1, 8, "Inspiration/The Creative");
  (13, 33, "Prodigal/The Witness");
  (10, 20, "Awakening/Commitment");
  (25, 51, "Initiation/The Shaman");
  (46, 29, "Discovery/Succeeding");
  (2, 14, "The Beat/Keeper of Keys");
  (15, 5, "Rhythm/Flow");
  (10, 34, "Exploration/Power");
  (25, 51, "Initiation");
  (* G-Spleen *)
  (7, 31, "Alpha");
  (1, 8, "Inspiration");
  (13, 33, "Prodigal");
  (10, 20, "Awakening");
  (25, 51, "Initiation");
  (46, 29, "Discovery");
  (* G-Emotional *)
  (10, 34, "Exploration");
  (* Sacral-Root *)
  (5, 15, "Rhythm/Flow");
  (14, 2, "The Beat/Keeper");
  (29, 46, "Discovery/Succeeding");
  (34, 10, "Exploration/Power");
  (27, 50, "Preservation/Cauldron");
  (59, 6, "Intimacy/Mating");
  (9, 52, "Concentration/Focus");
  (3, 60, "Mutation/Energy");
  (42, 53, "Maturation/Cycles");
  (* Spleen-Root *)
  (48, 16, "Wavelength/The Talent");
  (57, 10, "Intuitive Insight/Perfected Form");
  (44, 26, "Surrender/Transmitter");
  (50, 27, "Preservation/Cauldron");
  (32, 54, "Transformation/Ambition");
  (28, 38, "The Game Player/Struggle");
  (18, 58, "Correction/Judgment");
  (* Emotional-Root *)
  (41, 30, "Recognition/Format");
  (39, 55, "Emoting/Spirit");
  (22, 12, "Openness/Grace");
  (37, 40, "Bargain/Community");
  (36, 35, "Transitoriness/Crisis");
  (6, 59, "Intimacy/Mating");
  (* Ego-Spleen *)
  (21, 45, "Money/The Gatherer");
  (26, 44, "Surrender/Transmitter");
  (40, 37, "Bargain/Community");
  (51, 25, "Initiation/Shaman");
  (* Ego-G *)
  (21, 45, "Money");
  (26, 44, "Surrender");
  (51, 25, "Initiation")
]%Z.

(** One iteration of the loop of [get_channel_edges]: the state is the pair
    ([edges], [seen]). *)
Definition channel_step (acc : list (Z * Z) * gset (Z * Z)) (c : Z * Z * string)
  : list (Z * Z) * gset (Z * Z) :=
  let '(edges, seen) := acc in
  let '(g1, g2, _) := c in
  if bool_decide ((g1, g2) ∉ seen) && bool_decide ((g2, g1) ∉ seen)
  then (edges ++ [(g1, g2); (g2, g1)], {[ (g1, g2) ]} ∪ seen)
  else (edges, seen).

(** The loop of [get_channel_edges] over an arbitrary channel table. *)
Definition channel_edges_of (channels : list (Z * Z * string)) : list (Z * Z) :=
  fst (foldl channel_step ([], ∅) channels).

Definition get_channel_edges : list (Z * Z) := channel_edges_of CHANNELS.

(** Number of times a directed edge occurs in an edge list. *)
Definition occurrences (e : Z * Z) (edges : list (Z * Z)) : nat :=
  length (filter (fun e' => e' = e) edges).

Definition gate_to_center (g : Z) : option string :=
  fst <$> List.find (fun c => bool_decide (g ∈ snd c)) CENTERS.

Record FieldConfig : Type := mkFieldConfig {
  chart : ChartSystem;
  centers : list string;
  awareness : option string;
  modulation : option string
}.

Definition CONSCIOUSNESS_FIELDS : list (string * FieldConfig) := [
  ("Mind", mkFieldConfig SIDEREAL ["Head"; "Ajna"] (Some "ajna") (Some "sun_film"));
  ("Heart", mkFieldConfig TROPICAL ["Ego"; "Solar"] (Some "solar") (Some "sun_film"));
  ("Body", mkFieldConfig DRACONIC ["Spleen"; "Sacral"; "Root"] (Some "spleen") None);
  ("Soul", mkFieldConfig SIDEREAL ["G"] None (Some "harmonic"));
  ("Spirit", mkFieldConfig TROPICAL ["Throat"] None (Some "harmonic"));
  ("Shadow", mkFieldConfig DRACONIC ["Root"] (Some "spleen") (Some "inverse"));
  ("Higher", mkFieldConfig SIDEREAL ["Head"] (Some "ajna") (Some "transcendent"));
  ("Lower", mkFieldConfig TROPICAL ["Sacral"; "Root"] (Some "spleen") (Some "embodied"));
  ("Core", mkFieldConfig DRACONIC ["G"; "Ego"] None (Some "central"))
].

Definition get_field_gates (field_name : string) : result (list Z) :=
  field_config ← dict_item field_name CONSCIOUSNESS_FIELDS;
  foldM (fun gates center => cg ← dict_item center CENTERS; Ok (set_update gates cg))
        [] (centers field_config).

End Core.

(** ** The Python and torch runtime *)

(** Parameters of a [torch.nn.Linear]. *)
Record LinearParams : Type := mkLinear {
  weight : list (list R);
  bias : list R
}.

(** What the embedding takes from the libraries: torch's global random
    number generator, the layer modules of torch and torch_geometric whose
    arithmetic is the library's own, [torch.topk], and Python's percent
    formatting of floats. *)
Class Runtime : Type := {
  (** state of torch's global random number generator *)
  RngState : Type;
  (** [torch.randn(n)] *)
  randn : nat -> RngState -> list R * RngState;
  (** weights of a fresh [torch.nn.Embedding(num, dim)] *)
  Embedding_init : nat -> nat -> RngState -> list (list R) * RngState;
  (** parameters of a fresh [torch.nn.Linear(n_in, n_out)] *)
  Linear_init : nat -> nat -> RngState -> LinearParams * RngState;
  (** [torch_geometric.nn.SAGEConv]: the new row of a node is computed from
      its own row and the rows of the sources of its incoming edges *)
  SAGEConvParams : Type;
  SAGEConv_init : nat -> nat -> RngState -> SAGEConvParams * RngState;
  SAGEConv_node : SAGEConvParams -> list R -> list (list R) -> list R;
  (** [torch.nn.LayerNorm], applied to one row *)
  LayerNormParams : Type;
  LayerNorm_init : nat -> LayerNormParams;
  LayerNorm_row : LayerNormParams -> list R -> list R;
  (** [torch.nn.Dropout(p)] on a module in training mode *)
  Dropout_train : R -> list R -> RngState -> list R * RngState;
  (** [torch.topk(t, k)]: the indices of the [k] largest entries *)
  topk : nat -> list R -> list nat;
  (** ["{:.d%}".format(x)] *)
  format_percent : nat -> R -> string
}.

(** Computations that may draw from the random number generator and may
    raise. *)
Definition Torch `{rt : Runtime} (A : Type) : Type :=
  RngState -> result (A * RngState).

#[global] Instance Torch_ret `{rt : Runtime} : MRet Torch :=
  fun A a rng => Ok (a, rng).

#[global] Instance Torch_bind `{rt : Runtime} : MBind Torch :=
  fun A B k m rng =>
    match m rng with
    | Ok (a, rng') => k a rng'
    | Raise e => Raise e
    end.

(** A computation that does not touch the generator. *)
Definition lift `{rt : Runtime} {A : Type} (m : result A) : Torch A :=
  fun rng =>
    match m with
    | Ok a => Ok (a, rng)
    | Raise e => Raise e
    end.

(** A draw from the generator. *)
Definition draw `{rt : Runtime} {A : Type} (f : RngState -> A * RngState) : Torch A :=
  fun rng => Ok (f rng).

(** What [torch.topk] promises for [k] at most the length of [xs]: [k]
    distinct valid indices, by non-increasing value, and no entry left out
    is larger than an entry taken.  Nothing is promised about the order of
    equal entries. *)
Definition topk_contract `{rt : Runtime} : Prop :=
  forall (k : nat) (xs : list R),
    (k <= length xs)%nat ->
    length (topk k xs) = k /\
    NoDup (topk k xs) /\
    (forall i, i ∈ topk k xs -> (i < length xs)%nat) /\
    (forall a b i j v w,
        (a < b)%nat -> topk k xs !! a = Some i -> topk k xs !! b = Some j ->
        xs !! i = Some v -> xs !! j = Some w -> w <= v) /\
    (forall i j v w,
        i ∈ topk k xs -> j ∉ topk k xs ->
        xs !! i = Some v -> xs !! j = Some w -> w <= v).

(** ** features.py *)

Module QuantumFieldEncoder.
Import Core.

Definition PLANETS : list string :=
  ["Sun"; "Earth"; "Moon"; "Mercury"; "Venus"; "Mars";
   "Jupiter"; "Saturn"; "Uranus"; "Neptune"; "Pluto";
   "North Node"; "South Node"].

Definition num_planets : nat := length PLANETS.

(** [{p: i for i, p in enumerate(PLANETS)}] *)
Definition planet_to_idx : list (string * Z) :=
  imap (fun i p => (p, Z.of_nat i)) PLANETS.

Record t : Type := mk {
  embedding_dim : nat;
  planet_embedding : list (list R);
  line_embedding : list (list R)
}.

(** One iteration of the loop over the placements of a gate; the state is
    ([planet_vec], [line_vec]). *)
Definition placement_step (acc : list R * list R) (p : Placement)
  : result (list R * list R) :=
  let '(planet_vec, line_vec) := acc in
  match dict_get (planet p) planet_to_idx with
  | Some planet_idx =>
      planet_vec' ← tensor_set planet_vec planet_idx 1;
      old ← tensor_get line_vec (line p - 1);
      line_vec' ← tensor_set line_vec (line p - 1) (old + 1);
      Ok (planet_vec', line_vec')
  | None => Ok (planet_vec, line_vec)
  end.

Definition _encode_gate_placements (self : t) (placements : list Placement)
  : result (list R) :=
  let half := (embedding_dim self / 2)%nat in
  match placements with
  | [] => Ok (zeros half)
  | _ =>
      '(planet_vec, line_vec) ← foldM placement_step (zeros num_planets, zeros 6) placements;
      let line_vec :=
        if Rlt_dec 0 (tsum line_vec)
        then map (fun x => x / tsum line_vec) line_vec
        else line_vec in
      let gate_features := planet_vec ++ line_vec in
      let pad_size := (Z.of_nat half - Z.of_nat (length gate_features))%Z in
      let gate_features :=
        if bool_decide (0 < pad_size)%Z
        then gate_features ++ zeros (Z.to_nat pad_size)
        else gate_features in
      Ok (take half gate_features)
  end.

(** The two parts of the feature of a gate and stream: the presence flags
    of the known planets, then the line histogram. *)
Definition presence_vector (gate_features : list R) : list R :=
  take num_planets gate_features.

Definition line_histogram (gate_features : list R) : list R :=
  take 6 (drop num_planets gate_features).

(** The line histogram as the specification words it: for each line 1..6,
    the number of placements on that line over the number of all the
    placements at the gate, unknown planets included (all zero if there are
    none). *)
Definition spec_line_histogram (placements : list Placement) : list R :=
  match placements with
  | [] => zeros 6
  | _ =>
      map (fun l : Z =>
             INR (length (filter (fun p => line p = l) placements))
             / INR (length placements))
          (seqZ 1 6)
  end.

(** [{i: [] for i in range(1, 65)}] *)
Definition empty_buckets : gmap Z (list Placement) :=
  list_to_map (map (fun i => (i, [])) (seqZ 1 64)).

(** One iteration of the loop that organises the placements by gate. *)
Definition bucket_step (acc : gmap Z (list Placement) * gmap Z (list Placement))
    (p : Placement) : result (gmap Z (list Placement) * gmap Z (list Placement)) :=
  let '(body_placements, design_placements) := acc in
  if is_body (stream p) then
    match body_placements !! gate p with
    | Some l => Ok (<[gate p := l ++ [p]]> body_placements, design_placements)
    | None => Raise KeyError
    end
  else
    match design_placements !! gate p with
    | Some l => Ok (body_placements, <[gate p := l ++ [p]]> design_placements)
    | None => Raise KeyError
    end.

(** The row of one gate.  Storing the row into [node_features] needs it to
    have [embedding_dim] entries; it has twice [embedding_dim // 2]. *)
Definition encode_gate (self : t)
    (body_placements design_placements : gmap Z (list Placement)) (g : Z)
  : result (list R) :=
  body ← from_option Ok (Raise KeyError) (body_placements !! g);
  body_feat ← _encode_gate_placements self body;
  design ← from_option Ok (Raise KeyError) (design_placements !! g);
  design_feat ← _encode_gate_placements self design;
  if Nat.even (embedding_dim self)
  then Ok (body_feat ++ design_feat)
  else Raise RuntimeError.

Definition encode_placements (self : t) (placements : list Placement)
  : result (list (list R)) :=
  '(body_placements, design_placements) ←
      foldM bucket_step (empty_buckets, empty_buckets) placements;
  mapM (encode_gate self body_placements design_placements) (seqZ 1 64).

Definition encode_sun_context (self : t) (sun_placement : Placement) : result (list R) :=
  gate_vec ← tensor_set (zeros 64) (gate sun_placement - 1) 1;
  line_vec ← tensor_set (zeros 6) (line sun_placement - 1) 1;
  let degree_val :=
    match degree sun_placement with
    | Some d => if Req_EM_T d 0 then 0 else d / 360
    | None => 0
    end in
  Ok (gate_vec ++ line_vec ++ [degree_val] ++ zeros 9).

(** [mask = zeros(64, bool); for gate in gates: mask[gate - 1] = True] *)
Definition gate_mask (gates : list Z) : result (list bool) :=
  foldM (fun mask g => j ← py_index (length mask) (g - 1); Ok (<[j := true]> mask))
        (replicate 64 false) gates.

Definition get_awareness_masks (self : t) : result (gmap string (list bool)) :=
  masks ← foldM (fun masks '(name, gates) =>
                   mask ← gate_mask gates; Ok (<[name := mask]> masks))
                (∅ : gmap string (list bool)) AWARENESS_SYSTEMS;
  let heart_gates := [21; 51; 26; 40]%Z in
  mind_gates ← dict_item "ajna" AWARENESS_SYSTEMS;
  heart_mask ← gate_mask heart_gates;
  let masks := <["heart" := heart_mask]> masks in
  mind_mask ← gate_mask mind_gates;
  Ok (<["mind" := mind_mask]> masks).

(** The edge list with 0-based endpoints (the transposed [2, num_edges]
    tensor of the source holds the same pairs column by column). *)
Definition get_edge_index (self : t) : list (Z * Z) :=
  map (fun '(g1, g2) => (g1 - 1, g2 - 1)%Z) get_channel_edges.

(** What [compute_definition] returns: the tensors stored under the keys
    ['gate_defined'] and ['channel_defined']. *)
Record DefinitionFlags : Type := mkFlags {
  gate_defined : list R;
  channel_defined : list R
}.

(** One iteration of the loop over the channel edges. *)
Definition channel_flag_step (activated_gates : list Z) (channel_defined : list R)
    (e : Z * Z) : result (list R) :=
  let '(g1, g2) := e in
  if bool_decide (g1 ∈ activated_gates) && bool_decide (g2 ∈ activated_gates)
  then channel_defined ← tensor_set channel_defined (g1 - 1) 1;
       tensor_set channel_defined (g2 - 1) 1
  else Ok channel_defined.

(** The set [activated_gates] is built by adding the gate of each
    placement; the flags written are the same in whatever order Python
    enumerates it. *)
Definition compute_definition (self : t) (placements : list Placement)
  : result DefinitionFlags :=
  let activated_gates := set_update [] (map gate placements) in
  gate_defined ← foldM (fun gate_defined g => tensor_set gate_defined (g - 1) 1)
                   (zeros 64) activated_gates;
  channel_defined ← foldM (channel_flag_step activated_gates) (zeros 64) get_channel_edges;
  Ok (mkFlags gate_defined channel_defined).

Section WithRuntime.
Context `{rt : Runtime}.

(** [QuantumFieldEncoder(embedding_dim)] *)
Definition __init__ (embedding_dim : nat) : Torch t :=
  planet_embedding ← draw (Embedding_init num_planets (embedding_dim / 4));
  line_embedding ← draw (Embedding_init 6 (embedding_dim / 4));
  mret (mk embedding_dim planet_embedding line_embedding).

Definition create_intention_perturbation (question : string)
    (base_placements : list Placement) : Torch (list R) :=
  noise ← draw (randn 64);
  let perturbation := map (fun x => x * 0.1) noise in
  encoder ← __init__ 64;
  base_features ← lift (encode_placements encoder base_placements);
  let activation_boost :=
    map (fun row => (if Rlt_dec 0 (tsum row) then 1 else 0) * 0.3) base_features in
  mret (zip_with Rplus perturbation activation_boost).

End WithRuntime.

End QuantumFieldEncoder.

(** ** network.py *)

(** [torch.relu], [torch.sigmoid], [torch.softmax] over a vector. *)
Definition relu (v : list R) : list R := map (Rmax 0) v.

Definition sigmoid (x : R) : R := 1 / (1 + exp (- x)).

Definition softmax (v : list R) : list R :=
  map (fun x => exp x / tsum (map exp v)) v.

Definition dot (u v : list R) : R := tsum (zip_with Rmult u v).

(** [torch.nn.Linear] on one row: [x W^T + b]. *)
Definition Linear (p : LinearParams) (x : list R) : list R :=
  zip_with Rplus (map (fun w => dot w x) (weight p)) (bias p).

(** The single entry of a one-element tensor ([squeeze(-1)], [item()]). *)
Definition item (v : list R) : R := default 0 (head v).

Module SunFiLM.

Record t : Type := mk {
  mlp_0 : LinearParams;   (* Linear(sun_dim, hidden) *)
  mlp_3 : LinearParams    (* Linear(hidden, feature_dim * 2) *)
}.

Section WithRuntime.
Context `{rt : Runtime}.

Definition __init__ (feature_dim sun_dim hidden : nat) : Torch t :=
  l0 ← draw (Linear_init sun_dim hidden);
  l3 ← draw (Linear_init hidden (feature_dim * 2));
  mret (mk l0 l3).

(** [training] is the mode flag of the enclosing module: the dropout
    layer of the MLP is the identity unless the module is training. *)
Definition forward (self : t) (training : bool)
    (x : list (list R)) (sun_vec : list R) : Torch (list (list R)) :=
  let h := relu (Linear (mlp_0 self) sun_vec) in
  h ← (if training then draw (Dropout_train 0.1 h) else mret h);
  let params := Linear (mlp_3 self) h in
  let c := ((length params + 1) / 2)%nat in
  let gamma := take c params in
  let beta := drop c params in
  mret (map (fun row => zip_with Rplus (zip_with Rmult gamma row) beta) x).

End WithRuntime.

End SunFiLM.

Module AwarenessPooling.

Record t : Type := mk {
  attention : LinearParams   (* Linear(hidden_dim, 1) *)
}.

Definition forward (self : t) (node_features : list (list R)) (mask : list bool)
  : list R :=
  let masked_features :=
    map fst (filter (fun rm => snd rm = true) (zip node_features mask)) in
  match masked_features with
  | [] => zeros (length (default [] (head node_features)))
  | _ =>
      let attn_logits := map (fun row => item (Linear (attention self) row)) masked_features in
      let attn_weights := softmax attn_logits in
      foldr (zip_with Rplus)
            (zeros (length (default [] (head masked_features))))
            (zip_with (fun row w => map (fun x => x * w) row) masked_features attn_weights)
  end.

End AwarenessPooling.

Module QuantumHDNet.

Section WithRuntime.
Context `{rt : Runtime}.

Record t : Type := mk {
  input_dim : nat;
  hidden_dim : nat;
  input_proj : LinearParams;
  convs : list SAGEConvParams;
  norms : list LayerNormParams;
  film : SunFiLM.t;
  codon_head_0 : LinearParams;
  codon_head_2 : LinearParams;
  spleen_pool : AwarenessPooling.t;
  ajna_pool : AwarenessPooling.t;
  solar_pool : AwarenessPooling.t;
  heart_pool : AwarenessPooling.t;
  mind_pool : AwarenessPooling.t;
  (** the five entries of the [awareness_heads] module dict, which is
      built with and read under literal keys only *)
  head_spleen : LinearParams;
  head_ajna : LinearParams;
  head_solar : LinearParams;
  head_heart : LinearParams;
  head_mind : LinearParams;
  (** the mode flag of [torch.nn.Module]: [True] after construction,
      cleared by [eval()] *)
  training : bool
}.

(** What [forward] returns. *)
Record Output : Type := mkOutput {
  codon_scores : list R;
  awareness : gmap string R;
  awareness_vectors : gmap string (list R);
  node_embeddings : list (list R)
}.

Definition __init__ (input_dim hidden_dim sun_dim num_layers : nat) : Torch t :=
  input_proj ← draw (Linear_init input_dim hidden_dim);
  convs ← mapM (fun _ => draw (SAGEConv_init hidden_dim hidden_dim)) (seq 0 num_layers);
  let norms := map (fun _ => LayerNorm_init hidden_dim) (seq 0 num_layers) in
  film ← SunFiLM.__init__ hidden_dim sun_dim 64;
  c0 ← draw (Linear_init hidden_dim (hidden_dim / 2));
  c2 ← draw (Linear_init (hidden_dim / 2) 1);
  spleen_pool ← draw (Linear_init hidden_dim 1);
  ajna_pool ← draw (Linear_init hidden_dim 1);
  solar_pool ← draw (Linear_init hidden_dim 1);
  heart_pool ← draw (Linear_init hidden_dim 1);
  mind_pool ← draw (Linear_init hidden_dim 1);
  h_spleen ← draw (Linear_init hidden_dim 1);
  h_ajna ← draw (Linear_init hidden_dim 1);
  h_solar ← draw (Linear_init hidden_dim 1);
  h_heart ← draw (Linear_init hidden_dim 1);
  h_mind ← draw (Linear_init hidden_dim 1);
  mret (mk input_dim hidden_dim input_proj convs norms film c0 c2
          (AwarenessPooling.mk spleen_pool) (AwarenessPooling.mk ajna_pool)
          (AwarenessPooling.mk solar_pool) (AwarenessPooling.mk heart_pool)
          (AwarenessPooling.mk mind_pool)
          h_spleen h_ajna h_solar h_heart h_mind
          true).

(** [net.eval()] *)
Definition eval (self : t) : t :=
  mk (input_dim self) (hidden_dim self) (input_proj self) (convs self) (norms self)
     (film self) (codon_head_0 self) (codon_head_2 self)
     (spleen_pool self) (ajna_pool self) (solar_pool self) (heart_pool self)
     (mind_pool self)
     (head_spleen self) (head_ajna self) (head_solar self) (head_heart self)
     (head_mind self) false.

(** The rows of the sources of the edges that end in node [i]. *)
Definition in_neighbours (h : list (list R)) (edge_index : list (Z * Z)) (i : nat)
  : list (list R) :=
  omap (fun e : Z * Z =>
          if bool_decide (e.2 = Z.of_nat i)
          then (if bool_decide (0 <= e.1)%Z then h !! Z.to_nat e.1 else None)
          else None)
       edge_index.

(** One round of message passing:
    [h = relu(norm(conv(h, edge_index))) + h]. *)
Definition conv_round (edge_index : list (Z * Z)) (h : list (list R))
    (cn : SAGEConvParams * LayerNormParams) : list (list R) :=
  imap (fun i row =>
          let h_new := SAGEConv_node cn.1 row (in_neighbours h edge_index i) in
          let h_new := LayerNorm_row cn.2 h_new in
          zip_with Rplus (relu h_new) row)
       h.

(** [torch.sigmoid(awareness_heads[name](vec))] *)
Definition readout (head : LinearParams) (vec : list R) : R :=
  sigmoid (item (Linear head vec)).

Definition mask_item (masks : gmap string (list bool)) (name : string)
  : result (list bool) :=
  from_option Ok (Raise KeyError) (masks !! name).

Definition forward (self : t) (x : list (list R)) (edge_index : list (Z * Z))
    (sun_context : list R) (masks : gmap string (list bool)) : Torch Output :=
  (* Project input to hidden space *)
  let h := map (fun row => relu (Linear (input_proj self) row)) x in
  (* Message passing *)
  let h := foldl (conv_round edge_index) h (zip (convs self) (norms self)) in
  (* Observer effect *)
  h_observed ← SunFiLM.forward (film self) (training self) h sun_context;
  (* Per-codon activations *)
  let codon_logits :=
    map (fun row => item (Linear (codon_head_2 self)
                           (relu (Linear (codon_head_0 self) row)))) h_observed in
  let codon_scores := map sigmoid codon_logits in
  (* Pool each awareness system *)
  m_spleen ← lift (mask_item masks "spleen");
  let spleen_vec := AwarenessPooling.forward (spleen_pool self) h_observed m_spleen in
  m_ajna ← lift (mask_item masks "ajna");
  let ajna_vec := AwarenessPooling.forward (ajna_pool self) h_observed m_ajna in
  m_solar ← lift (mask_item masks "solar");
  let solar_vec := AwarenessPooling.forward (solar_pool self) h_observed m_solar in
  m_heart ← lift (mask_item masks "heart");
  let heart_vec := AwarenessPooling.forward (heart_pool self) h_observed m_heart in
  m_mind ← lift (mask_item masks "mind");
  let mind_vec := AwarenessPooling.forward (mind_pool self) h_observed m_mind in
  (* Awareness scores *)
  let awareness : gmap string R :=
    <["mind" := readout (head_mind self) mind_vec]>
      (<["heart" := readout (head_heart self) heart_vec]>
        (<["solar" := readout (head_solar self) solar_vec]>
          (<["ajna" := readout (head_ajna self) ajna_vec]>
            (<["spleen" := readout (head_spleen self) spleen_vec]> ∅)))) in
  let awareness_vectors : gmap string (list R) :=
    <["mind_vec" := mind_vec]> (<["heart_vec" := heart_vec]> (<["solar_vec" := solar_vec]>
      (<["ajna_vec" := ajna_vec]> (<["spleen_vec" := spleen_vec]> ∅)))) in
  mret (mkOutput codon_scores awareness awareness_vectors h_observed).

(** [create_model(input_dim, hidden_dim)] *)
Definition create_model (input_dim hidden_dim : nat) : Torch t :=
  __init__ input_dim hidden_dim 80 3.

End WithRuntime.

End QuantumHDNet.

(** ** consciousness.py *)

Record ConsciousnessState : Type := mkState {
  field_name : string;
  activation : R;
  dominant_gates : list Z;
  awareness_type : option string;
  coherence : R;
  resonance : gmap string R;
  narrative_seed : string
}.

(** [state.resonance[other] = r] *)
Definition set_resonance (other : string) (r : R) (st : ConsciousnessState)
  : ConsciousnessState :=
  mkState (field_name st) (activation st) (dominant_gates st) (awareness_type st)
          (coherence st) (<[other := r]> (resonance st)) (narrative_seed st).

(** [state.activation = a] *)
Definition set_activation (a : R) (st : ConsciousnessState) : ConsciousnessState :=
  mkState (field_name st) a (dominant_gates st) (awareness_type st)
          (coherence st) (resonance st) (narrative_seed st).

Module ConsciousnessField.
Import Core.

Record t : Type := mk {
  name : string;
  config : FieldConfig;
  chart_system : ChartSystem;
  field_centers : list string;
  (** the gate set, in the order in which Python enumerates it *)
  gates : list Z;
  gate_indices : list Z;
  embeddings : list (list R)
}.

Definition __init__ (field_name : string) (node_embeddings : list (list R)) : result t :=
  config ← dict_item field_name CONSCIOUSNESS_FIELDS;
  gates ← get_field_gates field_name;
  let gate_indices := map (fun g => (g - 1)%Z) gates in
  embeddings ← mapM (tensor_get node_embeddings) gate_indices;
  Ok (mk field_name config (chart config) (centers config) gates gate_indices embeddings).

Definition _compute_coherence (activations : list R) : R :=
  if bool_decide (length activations < 2)%nat then 1
  else
    let std := tstd activations in
    1 / (1 + std).

(** The templates of [_generate_narrative_seed], each cut at its first two
    placeholders; all of them end in [", coherence {}"]. *)
Definition templates : list (string * (string * string)) := [
  ("Mind", ("Mental field activated at ", ", centered in gates "));
  ("Heart", ("Emotional resonance at ", " through gates "));
  ("Body", ("Physical presence at ", " via gates "));
  ("Soul", ("Soul essence vibrating at ", " in gates "));
  ("Spirit", ("Spiritual expression at ", " channeling gates "));
  ("Shadow", ("Shadow material at ", " emerging through gates "));
  ("Higher", ("Higher consciousness at ", " accessing gates "));
  ("Lower", ("Primal consciousness at ", " rooted in gates "));
  ("Core", ("Core identity at ", " anchored by gates "))
].

(** The tie-break of the specification: of two dominant gates with equal
    scores, the one with the lower number is ranked first. *)
Definition lower_gate_first (codon_scores : list R) (dominant : list Z) : Prop :=
  forall (a b : nat) (g g' : Z) (v : R),
    dominant !! a = Some g -> dominant !! b = Some g' ->
    tensor_get codon_scores (g - 1) = Ok v ->
    tensor_get codon_scores (g' - 1) = Ok v ->
    (g < g')%Z -> (a < b)%nat.

Section WithRuntime.
Context `{rt : Runtime}.

(** The fallback template has four placeholders for three arguments, so
    formatting it raises. *)
Definition _generate_narrative_seed (self : t) (activation : R) (gates : list Z)
    (awareness_score : option R) (coherence : R) : result string :=
  match dict_get (name self) templates with
  | None => Raise IndexError
  | Some (before, between) =>
      let coherence_desc :=
        if Rlt_dec 0.7 coherence then "high"
        else if Rlt_dec 0.4 coherence then "moderate" else "low" in
      let gates_str := join ", " (map (fun g : Z => pretty g) gates) in
      let seed := before +:+ format_percent 1 activation +:+ between +:+ gates_str
                  +:+ ", coherence " +:+ coherence_desc in
      match awareness_score with
      | Some a =>
          Ok (seed +:+ " | " +:+ default "None" (awareness (config self))
                   +:+ " awareness: " +:+ format_percent 1 a)
      | None => Ok seed
      end
  end.

Definition collapse_to_state (self : t) (codon_scores : list R)
    (awareness : gmap string R) (awareness_vectors : gmap string (list R))
  : result ConsciousnessState :=
  (* activation levels for gates in this field *)
  field_activations ← mapM (tensor_get codon_scores) (gate_indices self);
  let overall_activation := tmean field_activations in
  (* dominant gates (top 3) *)
  let top_k := Nat.min 3 (length (gate_indices self)) in
  let top_idx := topk top_k field_activations in
  dominant_gates ← mapM (fun i : nat => tensor_get (gates self) (Z.of_nat i)) top_idx;
  (* awareness type (if this field has one) *)
  let awareness_type := Core.awareness (config self) in
  let awareness_score :=
    match awareness_type with
    | Some a => if bool_decide (a = "") then None else awareness !! a
    | None => None
    end in
  let coherence := _compute_coherence field_activations in
  narrative_seed ← _generate_narrative_seed self overall_activation dominant_gates
                      awareness_score coherence;
  Ok (mkState (name self) overall_activation dominant_gates awareness_type
              coherence ∅ narrative_seed).

End WithRuntime.

End ConsciousnessField.

Module NineBodyConsciousness.
Import Core.

Record t : Type := mk {
  fields : list (string * ConsciousnessField.t)
}.

Definition __init__ : t := mk [].

Definition initialize_from_quantum_state (self : t) (node_embeddings : list (list R))
  : result t :=
  fields ← foldM (fun fields field_name =>
                    field ← ConsciousnessField.__init__ field_name node_embeddings;
                    Ok (dict_set field_name field fields))
                 (fields self) (dict_keys CONSCIOUSNESS_FIELDS);
  Ok (mk fields).

(** Gate overlap of two lists of dominant gates (Jaccard similarity). *)
Definition gate_overlap (d1 d2 : list Z) : R :=
  let gates1 : gset Z := list_to_set d1 in
  let gates2 : gset Z := list_to_set d2 in
  if bool_decide (gates1 ≠ ∅ ∨ gates2 ≠ ∅)
  then INR (size (gates1 ∩ gates2)) / INR (size (gates1 ∪ gates2))
  else 0.

(** The resonance computed in the body of the inner loop. *)
Definition pair_resonance (state1 state2 : ConsciousnessState) : R :=
  let overlap := gate_overlap (dominant_gates state1) (dominant_gates state2) in
  let coherence_diff := Rabs (coherence state1 - coherence state2) in
  let coherence_sim := 1 - coherence_diff in
  (overlap + coherence_sim) / 2.

(** The body of the inner loop.  The state objects are shared between the
    dict and the loop variables, so writing to [state1.resonance] is
    writing to the object stored under [name1]. *)
Definition resonance_step (name1 : string)
    (states : list (string * ConsciousnessState)) (name2 : string)
  : list (string * ConsciousnessState) :=
  match dict_get name1 states, dict_get name2 states with
  | Some state1, Some state2 =>
      let resonance := pair_resonance state1 state2 in
      let states := dict_set name1 (set_resonance name2 resonance state1) states in
      match dict_get name2 states with
      | Some state2 => dict_set name2 (set_resonance name1 resonance state2) states
      | None => states
      end
  | _, _ => states
  end.

(** [for i, name1 in enumerate(field_names): for name2 in field_names[i+1:]],
    by recursion on the names still to come. *)
Fixpoint resonance_loop (field_names : list string)
    (states : list (string * ConsciousnessState))
  : list (string * ConsciousnessState) :=
  match field_names with
  | [] => states
  | name1 :: rest => resonance_loop rest (foldl (resonance_step name1) states rest)
  end.

Definition _compute_resonances (states : list (string * ConsciousnessState))
  : list (string * ConsciousnessState) :=
  resonance_loop (dict_keys states) states.

Definition _combine_seeds (seeds : list string) (label : string) : string :=
  label +:+ ": " +:+ join " | " seeds.

(** [[states[f].narrative_seed for f in names if f in states]] *)
Definition seeds_of (states : list (string * ConsciousnessState)) (names : list string)
  : list string :=
  omap (fun f => narrative_seed <$> dict_get f states) names.

Definition synthesize_narrative_seeds (states : list (string * ConsciousnessState))
  : list (string * string) :=
  let seeds := [] in
  let seeds := dict_set "spleen"
    (_combine_seeds (seeds_of states ["Body"; "Lower"; "Shadow"]) "Survival consciousness")
    seeds in
  let seeds := dict_set "ajna"
    (_combine_seeds (seeds_of states ["Mind"; "Higher"]) "Mental consciousness") seeds in
  let seeds := dict_set "solar"
    (_combine_seeds (seeds_of states ["Heart"; "Spirit"]) "Emotional consciousness") seeds in
  let seeds := dict_set "core"
    (_combine_seeds (seeds_of states ["Soul"; "Core"]) "Core identity") seeds in
  seeds.

Section WithRuntime.
Context `{rt : Runtime}.

Definition collapse_all_fields (self : t) (codon_scores : list R)
    (awareness : gmap string R) (awareness_vectors : gmap string (list R))
  : result (list (string * ConsciousnessState)) :=
  states ← foldM (fun states '(field_name, field) =>
                    st ← ConsciousnessField.collapse_to_state field codon_scores
                           awareness awareness_vectors;
                    Ok (dict_set field_name st states))
                 [] (fields self);
  (* inter-field resonance *)
  Ok (_compute_resonances states).

End WithRuntime.

End NineBodyConsciousness.

(** ** engine.py *)

Module VirtualConsciousnessEngine.
Import Core.

Record VirtualConsciousnessResponse : Type := mkResponse {
  question : string;
  codon_activations : list (Z * R);
  awareness_scores : gmap string R;
  field_states : list (string * ConsciousnessState);
  narrative_seeds : list (string * string);
  coherence_level : R;
  (** [sun_gate] and [sun_line] *)
  observer_context : option Z * option Z
}.

Definition _find_body_sun (placements : list Placement) : option Placement :=
  List.find (fun p => bool_decide (planet p = "Sun") && is_body (stream p)) placements.

Definition _compute_system_coherence (field_states : list (string * ConsciousnessState))
  : R :=
  match field_states with
  | [] => 0
  | _ =>
      let coherences := map coherence (dict_values field_states) in
      let avg_coherence := tsum coherences / INR (length coherences) in
      let all_resonances :=
        concat (map (fun st => (map_to_list (resonance st)).*2) (dict_values field_states)) in
      let avg_resonance :=
        match all_resonances with
        | [] => 0
        | _ => tsum all_resonances / INR (length all_resonances)
        end in
      (avg_coherence + avg_resonance) / 2
  end.

Section WithRuntime.
Context `{rt : Runtime}.

Record t : Type := mk {
  birth_placements : list Placement;
  encoder : QuantumFieldEncoder.t;
  quantum_net : QuantumHDNet.t;
  body_sun : option Placement;
  awareness_masks : gmap string (list bool);
  edge_index : list (Z * Z);
  nine_body : NineBodyConsciousness.t;
  _consciousness_initialized : bool
}.

(** [net.load_state_dict(state)]: the parameters are replaced, the mode
    flag is kept. *)
Definition load_state_dict (net state : QuantumHDNet.t) : QuantumHDNet.t :=
  QuantumHDNet.mk
    (QuantumHDNet.input_dim net) (QuantumHDNet.hidden_dim net)
    (QuantumHDNet.input_proj state) (QuantumHDNet.convs state) (QuantumHDNet.norms state)
    (QuantumHDNet.film state) (QuantumHDNet.codon_head_0 state)
    (QuantumHDNet.codon_head_2 state)
    (QuantumHDNet.spleen_pool state) (QuantumHDNet.ajna_pool state)
    (QuantumHDNet.solar_pool state) (QuantumHDNet.heart_pool state)
    (QuantumHDNet.mind_pool state)
    (QuantumHDNet.head_spleen state) (QuantumHDNet.head_ajna state)
    (QuantumHDNet.head_solar state) (QuantumHDNet.head_heart state)
    (QuantumHDNet.head_mind state)
    (QuantumHDNet.training net).

(** [pretrained] is the state dict stored under [pretrained_model_path],
    when a path is given. *)
Definition __init__ (birth_placements : list Placement)
    (pretrained : option QuantumHDNet.t) : Torch t :=
  encoder ← QuantumFieldEncoder.__init__ 64;
  quantum_net ← QuantumHDNet.create_model 64 128;
  let quantum_net :=
    match pretrained with
    | Some state => load_state_dict quantum_net state
    | None => quantum_net
    end in
  let quantum_net := QuantumHDNet.eval quantum_net in
  let body_sun := _find_body_sun birth_placements in
  awareness_masks ← lift (QuantumFieldEncoder.get_awareness_masks encoder);
  let edge_index := QuantumFieldEncoder.get_edge_index encoder in
  mret (mk birth_placements encoder quantum_net body_sun awareness_masks edge_index
           NineBodyConsciousness.__init__ false).

(** Step 3 of [query]: the observer context. *)
Definition observer_sun_context (self : t)
    (observer_state : option (gmap string Placement)) : result (list R) :=
  match observer_state ≫= (fun d => d !! "sun_placement") with
  | Some sun_placement =>
      QuantumFieldEncoder.encode_sun_context (encoder self) sun_placement
  | None =>
      match body_sun self with
      | Some sun => QuantumFieldEncoder.encode_sun_context (encoder self) sun
      | None => Ok (zeros 80)
      end
  end.

(** Steps 1 and 2 of [query]: the node features, perturbed by the
    intention when asked to. *)
Definition intention_features (self : t) (question : string)
    (use_intention_perturbation : bool) : Torch (list (list R)) :=
  (* 1. Encode base placements to quantum field *)
  node_features ← lift (QuantumFieldEncoder.encode_placements (encoder self)
                          (birth_placements self));
  (* 2. (Optional) Add intention-based perturbation *)
  if use_intention_perturbation then
    perturbation ← QuantumFieldEncoder.create_intention_perturbation
                     question (birth_placements self);
    mret (zip_with (fun row p => map (fun x => x + p * 0.1) row)
                   node_features perturbation)
  else mret node_features.

(** Steps 4 to 9 of [query]: forward pass, collapse, response. *)
Definition observe (self : t) (question : string)
    (node_features : list (list R)) (sun_context : list R)
  : Torch (VirtualConsciousnessResponse * t) :=
  (* 4. Run quantum field forward pass *)
  out ← QuantumHDNet.forward (quantum_net self) node_features (edge_index self)
          sun_context (awareness_masks self);
  (* 5. Initialize 9-body consciousness (if first time) *)
  nine_body ←
    (if _consciousness_initialized self then mret (nine_body self)
     else lift (NineBodyConsciousness.initialize_from_quantum_state
                  (nine_body self) (QuantumHDNet.node_embeddings out)));
  (* 6. Collapse to 9-body consciousness states *)
  field_states ← lift (NineBodyConsciousness.collapse_all_fields nine_body
                         (QuantumHDNet.codon_scores out) (QuantumHDNet.awareness out)
                         (QuantumHDNet.awareness_vectors out));
  (* 7. Generate narrative seeds *)
  let narrative_seeds := NineBodyConsciousness.synthesize_narrative_seeds field_states in
  (* 8. Compute overall coherence *)
  let coherence_level := _compute_system_coherence field_states in
  (* 9. Package response *)
  let response :=
    mkResponse question
      (imap (fun i score => ((Z.of_nat i + 1)%Z, score)) (QuantumHDNet.codon_scores out))
      (QuantumHDNet.awareness out)
      field_states narrative_seeds coherence_level
      (gate <$> body_sun self, line <$> body_sun self) in
  mret (response,
        mk (birth_placements self) (encoder self) (quantum_net self) (body_sun self)
           (awareness_masks self) (edge_index self) nine_body true).

Definition query (self : t) (question : string)
    (observer_state : option (gmap string Placement))
    (use_intention_perturbation : bool)
  : Torch (VirtualConsciousnessResponse * t) :=
  node_features ← intention_features self question use_intention_perturbation;
  (* 3. Encode Sun context (the observer) *)
  sun_context ← lift (observer_sun_context self observer_state);
  observe self question node_features sun_context.

End WithRuntime.

End VirtualConsciousnessEngine.

(** ** Exceptions of the callers

    [adjustable.py] and [api.py] can raise what the engine raises and, from
    [max] on an empty sequence and [int] on a string that is no number,
    [ValueError]. *)

Inductive PyException : Type :=
  | EngineError (e : PyError)
  | ValueError.

Inductive outcome (A : Type) : Type :=
  | Return (a : A)
  | Throw (e : PyException).
Arguments Return {A} a.
Arguments Throw {A} e.

#[global] Instance outcome_ret : MRet outcome := fun A a => Return a.

#[global] Instance outcome_bind : MBind outcome := fun A B k m =>
  match m with
  | Return a => k a
  | Throw e => Throw e
  end.

(** A result of the engine's code, as an outcome. *)
Definition of_result {A : Type} (r : result A) : outcome A :=
  match r with
  | Ok a => Return a
  | Raise e => Throw (EngineError e)
  end.

(** Computations of the callers: they may draw from the generator and may
    raise any of the exceptions above. *)
Definition Program `{rt : Runtime} (A : Type) : Type :=
  RngState -> outcome (A * RngState).

#[global] Instance Program_ret `{rt : Runtime} : MRet Program :=
  fun A a rng => Return (a, rng).

#[global] Instance Program_bind `{rt : Runtime} : MBind Program :=
  fun A B k m rng =>
    match m rng with
    | Return (a, rng') => k a rng'
    | Throw e => Throw e
    end.

(** A computation of the engine, run by a caller. *)
Definition run `{rt : Runtime} {A : Type} (m : Torch A) : Program A :=
  fun rng => of_result (m rng).

(** A step of a caller that does not touch the generator. *)
Definition step `{rt : Runtime} {A : Type} (m : outcome A) : Program A :=
  fun rng =>
    match m with
    | Return a => Return (a, rng)
    | Throw e => Throw e
    end.

(** ** adjustable.py *)

Module AdjustableConsciousness.
Import Core.
Import VirtualConsciousnessEngine.

Record ConsciousnessConfiguration : Type := mkConfig {
  primary_chart_system : ChartSystem;
  allow_transits : bool;
  transit_weight : R;
  allow_progressions : bool;
  progression_weight : R;
  awareness_sensitivity : gmap string R;
  field_emphasis : gmap string R;
  coherence_threshold : R
}.

(** The constructor with its [__post_init__], the scalar fields at their
    defaults: absent dicts get 1.0 for every system and every field. *)
Definition ConsciousnessConfiguration_new (primary_chart_system : ChartSystem)
    (awareness_sensitivity field_emphasis : option (gmap string R))
  : ConsciousnessConfiguration :=
  mkConfig primary_chart_system true 0.3 true 0.2
    (default (list_to_map [("spleen", 1); ("ajna", 1); ("solar", 1)]) awareness_sensitivity)
    (default (list_to_map [("Mind", 1); ("Heart", 1); ("Body", 1);
                           ("Soul", 1); ("Spirit", 1); ("Shadow", 1);
                           ("Higher", 1); ("Lower", 1); ("Core", 1)]) field_emphasis)
    0.5.

(** What [_export_current_config] returns. *)
Record ExportedConfig : Type := mkExported {
  x_chart_system : string;
  x_awareness_sensitivity : gmap string R;
  x_field_emphasis : gmap string R;
  x_transit_weight : R;
  x_has_transits : bool;
  x_has_progressions : bool
}.

(** An entry of [query_history]. *)
Record HistoryEntry : Type := mkEntry {
  h_question : string;
  h_response : VirtualConsciousnessResponse;
  h_config : ExportedConfig
}.

Section WithRuntime.
Context `{rt : Runtime}.

Record t : Type := mk {
  natal_placements : list Placement;
  birth_datetime : Z;
  birth_location : R * R;
  config : ConsciousnessConfiguration;
  base_engine : VirtualConsciousnessEngine.t;
  current_transits : option (list Placement);
  current_progressions : option (list Placement);
  query_history : list HistoryEntry
}.

Definition __init__ (natal_placements : list Placement) (birth_datetime : Z)
    (birth_location : R * R) (config : option ConsciousnessConfiguration) : Torch t :=
  let config := default (ConsciousnessConfiguration_new SIDEREAL None None) config in
  base_engine ← VirtualConsciousnessEngine.__init__ natal_placements None;
  mret (mk natal_placements birth_datetime birth_location config base_engine
           None None []).

(** [self.config = c] *)
Definition set_config (c : ConsciousnessConfiguration) (self : t) : t :=
  mk (natal_placements self) (birth_datetime self) (birth_location self) c
     (base_engine self) (current_transits self) (current_progressions self)
     (query_history self).

Definition add_transits (self : t) (transit_datetime : Z)
    (transit_placements : list Placement) : t :=
  mk (natal_placements self) (birth_datetime self) (birth_location self) (config self)
     (base_engine self) (Some transit_placements) (current_progressions self)
     (query_history self).

Definition remove_transits (self : t) : t :=
  mk (natal_placements self) (birth_datetime self) (birth_location self) (config self)
     (base_engine self) None (current_progressions self) (query_history self).

Definition add_progressions (self : t) (progression_placements : list Placement) : t :=
  mk (natal_placements self) (birth_datetime self) (birth_location self) (config self)
     (base_engine self) (current_transits self) (Some progression_placements)
     (query_history self).

Definition remove_progressions (self : t) : t :=
  mk (natal_placements self) (birth_datetime self) (birth_location self) (config self)
     (base_engine self) (current_transits self) None (query_history self).

Definition _build_composite_placements (self : t) (use_transits use_progressions : bool)
  : list Placement :=
  let composite := natal_placements self in
  let composite :=
    match current_transits self with
    | Some (p :: l) => if use_transits then composite ++ (p :: l) else composite
    | _ => composite
    end in
  let composite :=
    match current_progressions self with
    | Some (p :: l) => if use_progressions then composite ++ (p :: l) else composite
    | _ => composite
    end in
  composite.

(** The value written to [adjusted_scores[system]]. *)
Definition adjusted_score (self : t) (system : string) (score : R) : R :=
  match awareness_sensitivity (config self) !! system with
  | Some sensitivity => py_min 1 (py_max 0 (score * sensitivity))
  | None => score
  end.

Definition _apply_awareness_adjustments (self : t)
    (response : VirtualConsciousnessResponse) : VirtualConsciousnessResponse :=
  let adjusted_scores : gmap string R :=
    map_imap (fun system score => Some (adjusted_score self system score))
             (awareness_scores response) in
  mkResponse (question response) (codon_activations response) adjusted_scores
             (field_states response) (narrative_seeds response)
             (coherence_level response) (observer_context response).

Definition _apply_field_adjustments (self : t)
    (response : VirtualConsciousnessResponse) : VirtualConsciousnessResponse :=
  let field_states :=
    map (fun '(field_name, state) =>
           match field_emphasis (config self) !! field_name with
           | Some emphasis =>
               (field_name, set_activation (py_min 1 (activation state * emphasis)) state)
           | None => (field_name, state)
           end)
        (field_states response) in
  mkResponse (question response) (codon_activations response) (awareness_scores response)
             field_states (narrative_seeds response)
             (coherence_level response) (observer_context response).

Definition _export_current_config (self : t) : ExportedConfig :=
  mkExported (ChartSystem_value (primary_chart_system (config self)))
             (awareness_sensitivity (config self))
             (field_emphasis (config self))
             (transit_weight (config self))
             (bool_decide (is_Some (current_transits self)))
             (bool_decide (is_Some (current_progressions self))).

(** The body of [query] once [intention_strength > 0] has been evaluated,
    which is the only use of [intention_strength].  The warning printed
    when the coherence is below the threshold is output only and is left
    out. *)
Definition run_query (self : t) (question : string)
    (use_transits use_progressions : bool) (use_intention_perturbation : bool)
  : Torch (VirtualConsciousnessResponse * t) :=
  (* Build composite placements based on current config *)
  let composite_placements :=
    _build_composite_placements self
      (use_transits && bool_decide (is_Some (current_transits self)))
      (use_progressions && bool_decide (is_Some (current_progressions self))) in
  (* Create temporary engine with composite placements *)
  temp_engine ← VirtualConsciousnessEngine.__init__ composite_placements None;
  (* Query with adjusted intention strength *)
  '(response, _) ← VirtualConsciousnessEngine.query temp_engine question None
                     use_intention_perturbation;
  let response := _apply_awareness_adjustments self response in
  let response := _apply_field_adjustments self response in
  (* Store in history *)
  let entry := mkEntry question response (_export_current_config self) in
  mret (response,
        mk (natal_placements self) (birth_datetime self) (birth_location self)
           (config self) (base_engine self) (current_transits self)
           (current_progressions self) (query_history self ++ [entry])).

Definition query (self : t) (question : string)
    (use_transits use_progressions : bool) (intention_strength : R)
  : Torch (VirtualConsciousnessResponse * t) :=
  run_query self question use_transits use_progressions
    (if Rlt_dec 0 intention_strength then true else false).

(** One iteration of the loop of [compare_configurations]; the state is
    ([results], [self]). *)
Definition compare_step (question : string)
    (acc : list (string * VirtualConsciousnessResponse) * t)
    (ic : nat * ConsciousnessConfiguration)
  : Torch (list (string * VirtualConsciousnessResponse) * t) :=
  let '(results, self) := acc in
  let self := set_config ic.2 self in
  '(response, self) ← query self question true true 1;
  mret (dict_set ("config_" +:+ pretty ic.1) response results, self).

Definition compare_configurations (self : t) (question : string)
    (configs : list ConsciousnessConfiguration)
  : Torch (list (string * VirtualConsciousnessResponse) * t) :=
  let original_config := config self in
  '(results, self) ← foldM (compare_step question) ([], self)
                        (imap (fun i c => (i, c)) configs);
  (* Restore original *)
  let self := set_config original_config self in
  mret (results, self).

(** [self.config.primary_chart_system = system]; the message printed is
    output only.  The placements are not recalculated. *)
Definition set_chart_system (self : t) (system : ChartSystem) : t :=
  let c := config self in
  set_config (mkConfig system (allow_transits c) (transit_weight c)
                (allow_progressions c) (progression_weight c)
                (awareness_sensitivity c) (field_emphasis c) (coherence_threshold c))
             self.

(** The sensitivity is stored as given, and only under a key that the dict
    already has. *)
Definition adjust_awareness_sensitivity (self : t) (system : string) (sensitivity : R)
  : t :=
  let c := config self in
  if bool_decide (is_Some (awareness_sensitivity c !! system))
  then set_config (mkConfig (primary_chart_system c) (allow_transits c) (transit_weight c)
                     (allow_progressions c) (progression_weight c)
                     (<[system := sensitivity]> (awareness_sensitivity c))
                     (field_emphasis c) (coherence_threshold c))
                  self
  else self.

Definition emphasize_field (self : t) (field_name : string) (emphasis : R) : t :=
  let c := config self in
  if bool_decide (is_Some (field_emphasis c !! field_name))
  then set_config (mkConfig (primary_chart_system c) (allow_transits c) (transit_weight c)
                     (allow_progressions c) (progression_weight c)
                     (awareness_sensitivity c)
                     (<[field_name := emphasis]> (field_emphasis c))
                     (coherence_threshold c))
                  self
  else self.

(** The placeholder of the source: no transit is calculated. *)
Definition _calculate_transits_for_time (self : t) (dt : Z) : list Placement := [].

(** One iteration of the loop of [evolve_over_time]; the state is
    ([responses], [self]). *)
Definition evolve_step (question : string)
    (acc : list VirtualConsciousnessResponse * t) (time_point : Z)
  : Torch (list VirtualConsciousnessResponse * t) :=
  let '(responses, self) := acc in
  let transit_placements := _calculate_transits_for_time self time_point in
  let self := add_transits self time_point transit_placements in
  '(response, self) ← query self question true true 1;
  mret (responses ++ [response], remove_transits self).

Definition evolve_over_time (self : t) (question : string) (time_points : list Z)
  : Torch (list VirtualConsciousnessResponse * t) :=
  foldM (evolve_step question) ([], self) time_points.

Definition _generate_test_configurations (self : t) : list ConsciousnessConfiguration :=
  (* Test each chart system *)
  map (fun system => ConsciousnessConfiguration_new system None None)
      [SIDEREAL; TROPICAL; DRACONIC]
  (* Test awareness emphasis patterns *)
  ++ [ConsciousnessConfiguration_new SIDEREAL
        (Some (list_to_map [("spleen", 1.5); ("ajna", 1.0); ("solar", 0.5)])) None;
      ConsciousnessConfiguration_new SIDEREAL
        (Some (list_to_map [("spleen", 0.5); ("ajna", 1.5); ("solar", 1.0)])) None;
      ConsciousnessConfiguration_new SIDEREAL
        (Some (list_to_map [("spleen", 1.0); ("ajna", 0.5); ("solar", 1.5)])) None].

(** The key by which [get_optimal_configuration] compares the results; an
    unknown metric is the coherence.  (The awareness scores are summed in
    the order of the dict; over the reals the order does not matter.) *)
Definition metric_value (metric : string) (x : string * VirtualConsciousnessResponse) : R :=
  if bool_decide (metric = "coherence") then coherence_level x.2
  else if bool_decide (metric = "activation") then py_sum (codon_activations x.2).*2
  else if bool_decide (metric = "awareness")
       then py_sum (map_to_list (awareness_scores x.2)).*2
  else coherence_level x.2.

Definition get_optimal_configuration (self : t) (question metric : string)
  : Program (ConsciousnessConfiguration * t) :=
  (* Test multiple configurations *)
  let test_configs := _generate_test_configurations self in
  '(results, self) ← run (compare_configurations self question test_configs);
  (* Find best by metric *)
  best ← step (from_option Return (Throw ValueError) (max_by (metric_value metric) results));
  part ← step (of_result (tensor_get (split "_"%char best.1) 1));
  config_idx ← step (from_option Return (Throw ValueError) (int_of_string part));
  config ← step (of_result (tensor_get test_configs config_idx));
  mret (config, self).

End WithRuntime.

End AdjustableConsciousness.

(** ** api.py *)

Module VirtualConsciousnessAPI.
Import Core VirtualConsciousnessEngine AdjustableConsciousness AdjustableConsciousness.

Record SimpleQuery : Type := mkQuery {
  question : string;
  focus : option string;
  include_transits : bool;
  chart_system : string
}.

Record SimpleResponse : Type := mkSimple {
  answer_seeds : list (string * string);
  top_gates : list (Z * R);
  awareness : gmap string R;
  dominant_field : string;
  coherence : R;
  confidence : string
}.

Definition _simplify_response (response : VirtualConsciousnessResponse)
  : outcome SimpleResponse :=
  (* Get top 5 gates *)
  let top_gates :=
    take 5 (sorted_reverse (fun x : Z * R => x.2) (codon_activations response)) in
  (* Find dominant field *)
  best ← from_option Return (Throw ValueError)
           (max_by (fun x : string * ConsciousnessState => activation x.2)
                   (field_states response));
  let dominant_field := best.1 in
  (* Determine confidence based on coherence *)
  let confidence :=
    if Rlt_dec 0.75 (coherence_level response) then "high"
    else if Rlt_dec 0.50 (coherence_level response) then "medium"
    else "low" in
  Return (mkSimple (narrative_seeds response) top_gates (awareness_scores response)
                   dominant_field (coherence_level response) confidence).

Section WithRuntime.
Context `{rt : Runtime}.

(** [consciousness.config] and the values of [focus_presets] are
    references to configuration objects.  [alias] is the key of the preset
    whose object [consciousness.config] is, once a query has put one there:
    what is then written to the configuration is written to that preset. *)
Record t : Type := mk {
  consciousness : AdjustableConsciousness.t;
  focus_presets : list (string * ConsciousnessConfiguration);
  alias : option string
}.

Definition __init__ (birth_datetime : Z) (birth_location : R * R)
    (natal_placements : list Placement) : Torch t :=
  consciousness ← AdjustableConsciousness.__init__ natal_placements birth_datetime
                    birth_location None;
  (* Presets for different query types *)
  let focus_presets := [
    ("survival", ConsciousnessConfiguration_new SIDEREAL
       (Some (list_to_map [("spleen", 1.5); ("ajna", 0.7); ("solar", 0.7)])) None);
    ("mental", ConsciousnessConfiguration_new SIDEREAL
       (Some (list_to_map [("spleen", 0.7); ("ajna", 1.5); ("solar", 0.7)])) None);
    ("emotional", ConsciousnessConfiguration_new SIDEREAL
       (Some (list_to_map [("spleen", 0.7); ("ajna", 0.7); ("solar", 1.5)])) None);
    ("balanced", ConsciousnessConfiguration_new SIDEREAL
       (Some (list_to_map [("spleen", 1.0); ("ajna", 1.0); ("solar", 1.0)])) None)
  ] in
  mret (mk consciousness focus_presets None).

Definition chart_system_map : list (string * ChartSystem) :=
  [("sidereal", SIDEREAL); ("tropical", TROPICAL); ("draconic", DRACONIC)].

(** [self.consciousness.config = self.focus_presets[name]] *)
Definition use_preset (self : t) (name : string) (preset : ConsciousnessConfiguration)
  : t :=
  mk (set_config preset (consciousness self)) (focus_presets self) (Some name).

(** [self.consciousness.set_chart_system(system)]: the configuration object
    is changed in place, and with it the preset that is the same object. *)
Definition set_chart_system (self : t) (system : ChartSystem) : t :=
  let consciousness :=
    AdjustableConsciousness.set_chart_system (consciousness self) system in
  let focus_presets :=
    match alias self with
    | Some name => dict_set name (config consciousness) (focus_presets self)
    | None => focus_presets self
    end in
  mk consciousness focus_presets (alias self).

Definition query (self : t) (query : SimpleQuery) : Program (SimpleResponse * t) :=
  (* Apply focus preset if specified *)
  let self :=
    match focus query with
    | Some f =>
        if bool_decide (f = "") then self
        else match dict_get f (focus_presets self) with
             | Some preset => use_preset self f preset
             | None => self
             end
    | None => self
    end in
  (* Set chart system *)
  let self :=
    match dict_get (chart_system query) chart_system_map with
    | Some system => set_chart_system self system
    | None => self
    end in
  (* Query consciousness *)
  '(response, consciousness) ←
      run (AdjustableConsciousness.query (consciousness self) (question query)
             (include_transits query) true 1);
  (* Simplify response *)
  simple ← step (_simplify_response response);
  mret (simple, mk consciousness (focus_presets self) (alias self)).

(** The dict that [to_dict] makes of the response has its six entries. *)
Definition query_simple (self : t) (question : string) (focus : option string)
    (include_transits : bool) : Program (SimpleResponse * t) :=
  query self (mkQuery question focus include_transits "sidereal").

(** [now] is the reading of the clock, which only the message printed
    shows. *)
Definition add_current_transits (self : t) (now : Z) (transit_placements : list Placement)
  : t :=
  mk (add_transits (consciousness self) now transit_placements)
     (focus_presets self) (alias self).

End WithRuntime.

End VirtualConsciousnessAPI.

(** ** A reference runtime

    A deterministic instance of [Runtime]: the generator state is a
    counter, fresh linear layers are zero, [SAGEConv] is the mean
    aggregator, and [topk] is a stable selection (of equal entries the one
    at the lower index comes first). *)

Module Reference.

Fixpoint insert_desc (p : nat * R) (l : list (nat * R)) : list (nat * R) :=
  match l with
  | [] => [p]
  | q :: l' =>
      if Rle_dec (snd q) (snd p) then p :: q :: l' else q :: insert_desc p l'
  end.

(** The order of a list sorted by non-increasing value. *)
Definition desc (p q : nat * R) : Prop := snd q <= snd p.

Definition sort_desc (l : list (nat * R)) : list (nat * R) :=
  foldr insert_desc [] l.

Definition topk_stable (k : nat) (xs : list R) : list nat :=
  map fst (take k (sort_desc (imap (fun i x => (i, x)) xs))).

Definition sage_node (p : LinearParams * LinearParams) (x : list R)
    (neighbours : list (list R)) : list R :=
  let total := foldr (zip_with Rplus) (zeros (length x)) neighbours in
  let mean :=
    match neighbours with
    | [] => total
    | _ => map (fun s => s / INR (length neighbours)) total
    end in
  zip_with Rplus (Linear p.1 mean) (map (fun w => dot w x) (weight p.2)).

Definition layer_norm_row (p : list R * list R) (x : list R) : list R :=
  let mu := tmean x in
  let var := tmean (map (fun v => (v - mu) * (v - mu)) x) in
  zip_with Rplus
    (zip_with Rmult (map (fun v => (v - mu) / sqrt (var + 0.00001)) x) p.1) p.2.

Definition zero_linear (n_in n_out : nat) : LinearParams :=
  mkLinear (replicate n_out (zeros n_in)) (zeros n_out).

#[local] Instance runtime : Runtime := {|
  RngState := nat;
  randn n s := (map (fun i => INR (s + i)) (seq 0 n), S s);
  Embedding_init num dim s := (replicate num (replicate dim (INR s)), S s);
  Linear_init n_in n_out s := (zero_linear n_in n_out, S s);
  SAGEConvParams := (LinearParams * LinearParams)%type;
  SAGEConv_init n_in n_out s := ((zero_linear n_in n_out, zero_linear n_in n_out), S s);
  SAGEConv_node := sage_node;
  LayerNormParams := (list R * list R)%type;
  LayerNorm_init n := (replicate n 1, zeros n);
  LayerNorm_row := layer_norm_row;
  Dropout_train p v s := (map (fun x => if Nat.even s then 0 else x / (1 - p)) v, S s);
  topk := topk_stable;
  format_percent d x := "%"
|}.

End Reference.

(** ** Example data

    Inputs at which the theorems are instantiated: the two placements of
    the docstring of [create_virtual_consciousness], a placement of a
    planet that [PLANETS] does not list, two fields as their constructor
    builds them, and the spec's example of a sensitivity of 5.0 on a score
    of 0.5. *)

Module Examples.

Definition encoder64 : QuantumFieldEncoder.t := QuantumFieldEncoder.mk 64 [] [].

Definition sun : Core.Placement :=
  Core.mkPlacement "Sun" Core.BODY 46 3 (Some 135.5) None Core.SIDEREAL.

Definition moon : Core.Placement :=
  Core.mkPlacement "Moon" Core.BODY 18 5 (Some 221.2) None Core.SIDEREAL.

Definition design_sun : Core.Placement :=
  Core.mkPlacement "Sun" Core.DESIGN 15 2 None None Core.SIDEREAL.

Definition chiron : Core.Placement :=
  Core.mkPlacement "Chiron" Core.BODY 46 3 None None Core.SIDEREAL.

Definition natal : list Core.Placement := [sun; moon].

Definition no_body_sun : list Core.Placement := [moon; design_sun].

Definition higher_field : ConsciousnessField.t :=
  ConsciousnessField.mk "Higher"
    (Core.mkFieldConfig Core.SIDEREAL ["Head"] (Some "ajna") (Some "transcendent"))
    Core.SIDEREAL ["Head"] [64; 61; 63]%Z [63; 60; 62]%Z [[]; []; []].

Definition mind_field : ConsciousnessField.t :=
  ConsciousnessField.mk "Mind"
    (Core.mkFieldConfig Core.SIDEREAL ["Head"; "Ajna"] (Some "ajna") (Some "sun_film"))
    Core.SIDEREAL ["Head"; "Ajna"]
    [64; 61; 63; 47; 24; 4; 17; 11; 43]%Z [63; 60; 62; 46; 23; 3; 16; 10; 42]%Z
    [[]; []; []; []; []; []; []; []; []].

Definition two_bodies : NineBodyConsciousness.t :=
  NineBodyConsciousness.mk [("Mind", mind_field); ("Higher", higher_field)].

(** Every gate at the score 0.5. *)
Definition half_scores : list R := replicate 64 (1 / 2).

Definition amplified : AdjustableConsciousness.ConsciousnessConfiguration :=
  AdjustableConsciousness.ConsciousnessConfiguration_new Core.SIDEREAL
    (Some {[ "spleen" := 5 ]}) None.

Definition muted : AdjustableConsciousness.ConsciousnessConfiguration :=
  AdjustableConsciousness.ConsciousnessConfiguration_new Core.TROPICAL
    (Some {[ "spleen" := 0 ]}) None.

Definition sample_response : VirtualConsciousnessEngine.VirtualConsciousnessResponse :=
  VirtualConsciousnessEngine.mkResponse "test" [] {[ "spleen" := 1 / 2 ]} [] [] 0
    (None, None).

(** A response whose field Mind has an activation above 1. *)
Definition strong_response : VirtualConsciousnessEngine.VirtualConsciousnessResponse :=
  VirtualConsciousnessEngine.mkResponse "test" [] ∅
    [("Mind", mkState "Mind" 3 [] None 1 ∅ "")] [] 0 (None, None).

(** A transit on gate 18, where the Moon of [natal] is. *)
Definition transit : list Core.Placement :=
  [Core.mkPlacement "Mars" Core.DESIGN 18 2 None None Core.SIDEREAL].

(** A chart with both gates of the channel 64-47 and one end of the
    channel 1-8. *)
Definition channel_chart : list Core.Placement :=
  [Core.mkPlacement "Sun" Core.BODY 64 1 None None Core.SIDEREAL;
   Core.mkPlacement "Moon" Core.BODY 47 2 None None Core.SIDEREAL;
   Core.mkPlacement "Mars" Core.DESIGN 1 3 None None Core.SIDEREAL].

(** A response with two gates at the same score, and one field. *)
Definition tied_response : VirtualConsciousnessEngine.VirtualConsciousnessResponse :=
  VirtualConsciousnessEngine.mkResponse "test"
    [(1%Z, 1 / 2); (2%Z, 1); (3%Z, 1 / 2)] ∅
    [("Mind", mkState "Mind" (1 / 2) [] None 1 ∅ "")] [] (1 / 2) (None, None).


(** The Sun at gate 46 and Chiron, which [PLANETS] does not list, alone at
    gate 7. *)
Definition sun_and_chiron : list Core.Placement :=
  [sun; Core.mkPlacement "Chiron" Core.BODY 7 2 None None Core.SIDEREAL].

(** Three rows of features, of which a mask selects the first and the
    last. *)
Definition pool_rows : list (list R) := [[1; 2]; [9; 9]; [3; 4]]%R.

Definition pool_mask : list bool := [true; false; true].

Definition pool : AwarenessPooling.t := AwarenessPooling.mk (Reference.zero_linear 2 1).

End Examples.

(** ** Vocabulary of the statements and proofs *)

(** A placement within the documented ranges: gate 1..64, line 1..6. *)
Definition wf_placement (p : Core.Placement) : Prop :=
  (1 <= Core.gate p <= 64)%Z /\ (1 <= Core.line p <= 6)%Z.

(** The buckets of [encode_placements]: one for every gate, holding
    placements within range. *)
Definition buckets_ok (b : gmap Z (list Core.Placement)) : Prop :=
  (forall g, (1 <= g <= 64)%Z -> is_Some (b !! g)) /\
  (forall g l, b !! g = Some l -> Forall wf_placement l).

(** The masks that [forward] reads. *)
Definition masks_ok (masks : gmap string (list bool)) : Prop :=
  is_Some (masks !! "spleen") /\ is_Some (masks !! "ajna") /\ is_Some (masks !! "solar")
  /\ is_Some (masks !! "heart") /\ is_Some (masks !! "mind").

(** What [ConsciousnessField.__init__] establishes for the nine fields. *)
Definition field_ok (fld : ConsciousnessField.t) : Prop :=
  ConsciousnessField.gate_indices fld
    = map (fun g => (g - 1)%Z) (ConsciousnessField.gates fld)
  /\ NoDup (ConsciousnessField.gates fld)
  /\ Forall (fun g => (1 <= g <= 64)%Z) (ConsciousnessField.gates fld)
  /\ is_Some (dict_get (ConsciousnessField.name fld) ConsciousnessField.templates).

(** The check behind [field_ok], on the static tables. *)
Definition field_tables_ok (field_name : string) : bool :=
  match Core.get_field_gates field_name with
  | Ok gs =>
      bool_decide (NoDup gs) && bool_decide (Forall (fun g => (1 <= g <= 64)%Z) gs)
      && bool_decide (is_Some (dict_get field_name Core.CONSCIOUSNESS_FIELDS))
      && bool_decide (is_Some (dict_get field_name ConsciousnessField.templates))
  | Raise _ => false
  end.

(** The pairs ([name1], [name2]) that the nested loop of
    [_compute_resonances] visits, in order. *)
Fixpoint all_pairs (names : list string) : list (string * string) :=
  match names with
  | [] => []
  | a :: rest => map (pair a) rest ++ all_pairs rest
  end.

Definition pair_step (st : list (string * ConsciousnessState)) (p : string * string)
  : list (string * ConsciousnessState) :=
  NineBodyConsciousness.resonance_step p.1 st p.2.

(** A state without its resonance map: what the resonance loop leaves
    untouched. *)
Definition strip (s : ConsciousnessState) : ConsciousnessState :=
  mkState (field_name s) (activation s) (dominant_gates s) (awareness_type s)
          (coherence s) ∅ (narrative_seed s).

(** The states as [collapse_all_fields] holds them before the resonance
    loop. *)
Definition fresh_states (states : list (string * ConsciousnessState)) : Prop :=
  NoDup (dict_keys states) /\
  forall n s, (n, s) ∈ states -> 0 < coherence s <= 1 /\ resonance s = ∅.

(** Total correctness of a [Torch] computation: from every generator state
    it returns, with a result that satisfies [P]. *)
Definition returns `{rt : Runtime} {A : Type} (m : Torch A) (P : A -> Prop) : Prop :=
  forall rng, exists a rng', m rng = Ok (a, rng') /\ P a.

(** A [Torch] computation that neither reads nor advances the generator. *)
Definition rng_free `{rt : Runtime} {A : Type} (m : Torch A) : Prop :=
  exists r : result A, forall rng, m rng = lift r rng.

(** [torch.randn(n)] has [n] entries. *)
Definition randn_contract `{rt : Runtime} : Prop :=
  forall (n : nat) (rng : RngState), length (randn n rng).1 = n.

(** An engine as its constructor leaves it. *)
Definition engine_ready `{rt : Runtime} (e : VirtualConsciousnessEngine.t) : Prop :=
  Nat.even (QuantumFieldEncoder.embedding_dim (VirtualConsciousnessEngine.encoder e)) = true /\
  masks_ok (VirtualConsciousnessEngine.awareness_masks e) /\
  VirtualConsciousnessEngine.body_sun e
    = VirtualConsciousnessEngine._find_body_sun (VirtualConsciousnessEngine.birth_placements e) /\
  QuantumHDNet.training (VirtualConsciousnessEngine.quantum_net e) = false /\
  VirtualConsciousnessEngine._consciousness_initialized e = false /\
  VirtualConsciousnessEngine.nine_body e = NineBodyConsciousness.__init__.

(** An adjustable consciousness all of whose placements are within range. *)
Definition adjustable_ready `{rt : Runtime} (self : AdjustableConsciousness.t) : Prop :=
  Forall wf_placement (AdjustableConsciousness.natal_placements self) /\
  (forall l, AdjustableConsciousness.current_transits self = Some l -> Forall wf_placement l) /\
  (forall l, AdjustableConsciousness.current_progressions self = Some l -> Forall wf_placement l).

(** The gates whose flag [gate_defined[gate - 1] = 1.0] can be written:
    index -1 down to -64 wraps around to the end of the tensor. *)
Definition flag_index_ok (g : Z) : Prop := (-63 <= g <= 64)%Z.

(** The slot of the 64-entry tensor that index [g - 1] denotes. *)
Definition flag_slot (g : Z) : nat := Z.to_nat ((g - 1) mod 64).

(** Gate [g] is activated and shares a channel with an activated gate. *)
Definition in_defined_channel (placements : list Core.Placement) (g : Z) : Prop :=
  g ∈ map Core.gate placements /\
  exists g', (g, g') ∈ Core.get_channel_edges /\ g' ∈ map Core.gate placements.

(** An edge with both ends activated writes slot [j]. *)
Definition edge_writes (act : list Z) (j : nat) (e : Z * Z) : Prop :=
  e.1 ∈ act /\ e.2 ∈ act /\ (j = Z.to_nat (e.1 - 1) \/ j = Z.to_nat (e.2 - 1)).

#[local] Instance edge_writes_dec (act : list Z) (j : nat) (e : Z * Z)
  : Decision (edge_writes act j e) := ltac:(unfold edge_writes; apply _).

(** The ranges of a collapsed state: activation and resonances in [0, 1],
    coherence in (0, 1]. *)
Definition state_in_range (s : ConsciousnessState) : Prop :=
  0 <= activation s <= 1 /\ 0 < coherence s <= 1 /\
  forall k v, resonance s !! k = Some v -> 0 <= v <= 1.

(** The shape of a response of the engine: the gates 1, 2, ... in order
    with scores in [0, 1]; the five awareness scores, in [0, 1]; the nine
    fields in the order of [CONSCIOUSNESS_FIELDS], each in range; the four
    narrative seeds; a coherence level in (0, 1]. *)
Definition well_formed_response
    (resp : VirtualConsciousnessEngine.VirtualConsciousnessResponse) : Prop :=
  (VirtualConsciousnessEngine.codon_activations resp).*1
    = seqZ 1 (Z.of_nat (length (VirtualConsciousnessEngine.codon_activations resp))) /\
  Forall (fun gs : Z * R => 0 <= gs.2 <= 1)
         (VirtualConsciousnessEngine.codon_activations resp) /\
  dom (VirtualConsciousnessEngine.awareness_scores resp)
    = ({["spleen"; "ajna"; "solar"; "heart"; "mind"]} : gset string) /\
  map_Forall (fun _ v => 0 <= v <= 1) (VirtualConsciousnessEngine.awareness_scores resp) /\
  dict_keys (VirtualConsciousnessEngine.field_states resp)
    = dict_keys Core.CONSCIOUSNESS_FIELDS /\
  Forall (fun ns : string * ConsciousnessState => state_in_range ns.2)
         (VirtualConsciousnessEngine.field_states resp) /\
  dict_keys (VirtualConsciousnessEngine.narrative_seeds resp)
    = ["spleen"; "ajna"; "solar"; "core"] /\
  0 < VirtualConsciousnessEngine.coherence_level resp <= 1.

(** The nine fields of an engine once a query has built them (none
    before): one per entry of [CONSCIOUSNESS_FIELDS], each with a gate. *)
Definition fields_built `{rt : Runtime} (e : VirtualConsciousnessEngine.t) : Prop :=
  if VirtualConsciousnessEngine._consciousness_initialized e
  then dict_keys (NineBodyConsciousness.fields (VirtualConsciousnessEngine.nine_body e))
         = dict_keys Core.CONSCIOUSNESS_FIELDS /\
       forall n fld,
         (n, fld) ∈ NineBodyConsciousness.fields (VirtualConsciousnessEngine.nine_body e) ->
         ConsciousnessField.gate_indices fld <> []
  else NineBodyConsciousness.fields (VirtualConsciousnessEngine.nine_body e) = [].

(** The overlays that a query uses: the transits and the progressions that
    are set and asked for. *)
Definition used_overlays `{rt : Runtime} (self : AdjustableConsciousness.t)
    (use_transits use_progressions : bool) : list Core.Placement :=
  (if use_transits then default [] (AdjustableConsciousness.current_transits self) else [])
  ++ (if use_progressions
      then default [] (AdjustableConsciousness.current_progressions self) else []).

(** The keys that [compare_configurations] writes. *)
Definition config_key (i : nat) : string := "config_" +:+ pretty i.

(** The order of [top_gates]: the higher score first, and of two gates with
    the same score the one with the lower number. *)
Definition ranked_before (p q : Z * R) : Prop :=
  q.2 < p.2 \/ (q.2 = p.2 /\ (p.1 < q.1)%Z).

(** The two assignments with which [query] starts. *)
Definition focused `{rt : Runtime} (api : VirtualConsciousnessAPI.t)
    (sq : VirtualConsciousnessAPI.SimpleQuery)
  : VirtualConsciousnessAPI.t :=
  match VirtualConsciousnessAPI.focus sq with
  | Some f =>
      if bool_decide (f = "") then api
      else match dict_get f (VirtualConsciousnessAPI.focus_presets api) with
           | Some preset => VirtualConsciousnessAPI.use_preset api f preset
           | None => api
           end
  | None => api
  end.

Definition charted `{rt : Runtime} (api : VirtualConsciousnessAPI.t)
    (sq : VirtualConsciousnessAPI.SimpleQuery)
  : VirtualConsciousnessAPI.t :=
  match dict_get (VirtualConsciousnessAPI.chart_system sq) VirtualConsciousnessAPI.chart_system_map with
  | Some system => VirtualConsciousnessAPI.set_chart_system api system
  | None => api
  end.

(** The state of the loop of [_encode_gate_placements]: presence flags 0
    or 1, non-negative line counts, a flag set as soon as [seen] (a
    placement of a known planet has been met), and nothing written
    before. *)
Definition gate_loop_inv (seen : Prop) (acc : list R * list R) : Prop :=
  length acc.1 = 13%nat /\ length acc.2 = 6%nat /\
  Forall (fun x => x = 0 \/ x = 1) acc.1 /\
  Forall (fun x => 0 <= x) acc.2 /\
  (seen -> 1 ∈ acc.1) /\
  (~ seen -> acc = (zeros QuantumFieldEncoder.num_planets, zeros 6)).

(** A placement of a known planet at gate [g]. *)
Definition known_at (g : Z) (p : Core.Placement) : Prop :=
  Core.gate p = g /\ Core.planet p ∈ QuantumFieldEncoder.PLANETS.

(* ===================================================================== *)
(** * Properties *)

(** ** Loops, indexing and clamping *)

(** A loop over a concatenation is the two loops in sequence. *)
Lemma foldM_app {A S : Type} (f : S -> A -> result S) (s : S) (l1 l2 : list A) :
  foldM f s (l1 ++ l2) = (s' ← foldM f s l1; foldM f s' l2).
Proof.
  revert s. induction l1 as [|x l1 IH]; intros s; simpl; [reflexivity|].
  destruct (f s x) as [s'|e]; simpl; [apply IH | reflexivity].
Qed.

(** An invariant of the loop body holds of the final state. *)
Lemma foldM_inv {A S : Type} (P : S -> Prop) (f : S -> A -> result S) (l : list A) :
  (forall s x s', f s x = Ok s' -> P s -> P s') ->
  forall s s', P s -> foldM f s l = Ok s' -> P s'.
Proof.
  intros Hstep. induction l as [|x l IH]; intros s s' Hs Hfold; simpl in Hfold.
  - injection Hfold as <-. exact Hs.
  - destruct (f s x) as [s1|e] eqn:Hx; cbn [mbind result_bind] in Hfold; [|discriminate].
    eapply IH; [|exact Hfold]. eapply Hstep; eassumption.
Qed.

(** A loop whose body succeeds under an invariant succeeds. *)
Lemma foldM_ok {A S : Type} (P : S -> Prop) (f : S -> A -> result S) (l : list A) :
  (forall s x, x ∈ l -> P s -> exists s', f s x = Ok s' /\ P s') ->
  forall s, P s -> exists s', foldM f s l = Ok s' /\ P s'.
Proof.
  induction l as [|x l IH]; intros Hstep s Hs; simpl.
  - by exists s.
  - destruct (Hstep s x) as (s1 & Hx & Hs1); [by left | exact Hs|].
    rewrite Hx. cbn [mbind result_bind]. apply IH; [|exact Hs1].
    intros s2 y Hy. apply Hstep. by right.
Qed.

(** [mapM] succeeds exactly when the body succeeds on every element. *)
Lemma mapM_Ok {A B : Type} (f : A -> result B) (l : list A) (ys : list B) :
  mapM f l = Ok ys <-> Forall2 (fun x y => f x = Ok y) l ys.
Proof.
  revert ys. induction l as [|x l IH]; intros ys; simpl.
  - split; [intros [= <-]; constructor | intros H; inversion H; reflexivity].
  - destruct (f x) as [y|e] eqn:Hx; simpl.
    + destruct (mapM f l) as [ys'|e] eqn:Hl; simpl.
      * split.
        -- intros [= <-]. constructor; [assumption | by apply IH].
        -- intros H. inversion H as [|? y' ? ys'' Hy Hys]; subst.
           rewrite Hx in Hy. injection Hy as <-.
           apply IH in Hys. by injection Hys as <-.
      * split; [discriminate|].
        intros H. inversion H as [|? y' ? ys'' Hy Hys]; subst.
        apply IH in Hys. discriminate.
    + split; [discriminate|].
      intros H. inversion H as [|? y' ? ys'' Hy Hys]; subst. congruence.
Qed.

Lemma mapM_ok {A B : Type} (P : B -> Prop) (f : A -> result B) (l : list A) :
  (forall x, x ∈ l -> exists y, f x = Ok y /\ P y) ->
  exists ys, mapM f l = Ok ys /\ length ys = length l /\ Forall P ys.
Proof.
  induction l as [|x l IH]; intros Hf; simpl.
  - exists []. by repeat split.
  - destruct (Hf x) as (y & Hy & HPy); [by left|].
    destruct IH as (ys & Hys & Hlen & HP); [intros z Hz; apply Hf; by right|].
    exists (y :: ys). rewrite Hy. cbn [mbind result_bind]. rewrite Hys.
    cbn [mbind result_bind mret result_ret]. repeat split; [simpl; by rewrite Hlen | by constructor].
Qed.

Lemma py_index_nat (n i : nat) :
  py_index n (Z.of_nat i) = if bool_decide (i < n)%nat then Ok i else Raise IndexError.
Proof.
  unfold py_index. repeat case_bool_decide; try lia.
  - by rewrite Nat2Z.id.
  - reflexivity.
Qed.

Lemma py_index_ok (n : nat) (i : Z) :
  (- Z.of_nat n <= i < Z.of_nat n)%Z -> exists j, py_index n i = Ok j /\ (j < n)%nat.
Proof.
  intros Hi. unfold py_index. case_bool_decide as H1.
  - exists (Z.to_nat i). split; [reflexivity | lia].
  - rewrite bool_decide_eq_true_2 by lia.
    exists (Z.to_nat (Z.of_nat n + i)). split; [reflexivity | lia].
Qed.

(** Indexing with a non-negative index is the list lookup. *)
Lemma tensor_get_nat {A : Type} (l : list A) (i : nat) (x : A) :
  tensor_get l (Z.of_nat i) = Ok x <-> l !! i = Some x.
Proof.
  unfold tensor_get. rewrite py_index_nat. case_bool_decide as Hi; simpl.
  - destruct (l !! i) eqn:E; split; congruence.
  - split; [discriminate|]. intros Hl. apply lookup_lt_Some in Hl. lia.
Qed.

Lemma tensor_get_inj {A : Type} (l : list A) (i : Z) (x y : A) :
  tensor_get l i = Ok x -> tensor_get l i = Ok y -> x = y.
Proof. congruence. Qed.

Lemma tensor_get_ok {A : Type} (t : list A) (i : Z) :
  (- Z.of_nat (length t) <= i < Z.of_nat (length t))%Z ->
  exists v, tensor_get t i = Ok v.
Proof.
  intros Hi. unfold tensor_get. destruct (py_index_ok _ _ Hi) as (j & -> & Hj).
  cbn [mbind result_bind]. destruct (lookup_lt_is_Some_2 t j Hj) as [v ->]. by exists v.
Qed.

Lemma tensor_set_ok (t : list R) (i : Z) (v : R) :
  (- Z.of_nat (length t) <= i < Z.of_nat (length t))%Z ->
  exists t', tensor_set t i v = Ok t' /\ length t' = length t.
Proof.
  intros Hi. unfold tensor_set. destruct (py_index_ok _ _ Hi) as (j & -> & Hj).
  cbn [mbind result_bind]. eexists. split; [reflexivity | apply length_insert].
Qed.

Lemma tsum_zeros n : tsum (zeros n) = 0.
Proof. induction n as [|n IH]; simpl; [reflexivity|]. unfold zeros in IH. unfold tsum in *. simpl. rewrite IH. lra. Qed.

(** Python's [min] and [max] agree with the real minimum and maximum. *)
Lemma py_min_Rmin a b : py_min a b = Rmin a b.
Proof. unfold py_min, Rmin. destruct (Rlt_dec b a), (Rle_dec a b); lra. Qed.

Lemma py_max_Rmax a b : py_max a b = Rmax a b.
Proof. unfold py_max, Rmax. destruct (Rlt_dec a b), (Rle_dec a b); lra. Qed.

Lemma clamp_bounds x : 0 <= Rmin 1 (Rmax 0 x) <= 1.
Proof.
  split.
  - apply Rmin_glb; [lra | apply Rmax_l].
  - apply Rmin_l.
Qed.

(** ** Dicts *)

Section Dict.
Context {V : Type}.
Implicit Types (d : list (string * V)) (k : string) (v : V).

Lemma dict_get_set_eq k v d : dict_get k (dict_set k v d) = Some v.
Proof.
  induction d as [|[k' v'] d IH]; simpl.
  - by rewrite bool_decide_eq_true_2.
  - case_bool_decide as Hk; simpl.
    + by rewrite bool_decide_eq_true_2.
    + by rewrite bool_decide_eq_false_2.
Qed.

Lemma dict_get_set_ne k k' v d :
  k ≠ k' -> dict_get k' (dict_set k v d) = dict_get k' d.
Proof.
  intros Hne. induction d as [|[k0 v0] d IH]; simpl.
  - by rewrite bool_decide_eq_false_2.
  - case_bool_decide as Hk; simpl.
    + subst k0. by rewrite !bool_decide_eq_false_2.
    + by rewrite IH.
Qed.

Lemma dict_get_is_Some k d : is_Some (dict_get k d) <-> k ∈ dict_keys d.
Proof.
  unfold dict_keys. induction d as [|[k' v'] d IH]; simpl.
  - split; [intros [? [=]] | intros H; by apply elem_of_nil in H].
  - rewrite elem_of_cons. case_bool_decide as Hk.
    + split; [by left | by eexists].
    + rewrite IH. split; [by right | by intros [?|?]].
Qed.

Lemma dict_keys_set k v d :
  dict_keys (dict_set k v d)
  = if bool_decide (k ∈ dict_keys d) then dict_keys d else dict_keys d ++ [k].
Proof.
  unfold dict_keys. induction d as [|[k' v'] d IH]; cbn [map dict_set fst].
  - rewrite bool_decide_eq_false_2; [reflexivity | apply not_elem_of_nil].
  - destruct (decide (k = k')) as [->|Hk].
    + rewrite (bool_decide_eq_true_2 (k' = k')) by reflexivity. cbn [map fst].
      rewrite bool_decide_eq_true_2; [reflexivity | by left].
    + rewrite (bool_decide_eq_false_2 (k = k')) by exact Hk. cbn [map fst].
      rewrite IH. destruct (decide (k ∈ map fst d)) as [Hin|Hin].
      * rewrite !bool_decide_eq_true_2; [reflexivity | by right | exact Hin].
      * rewrite !bool_decide_eq_false_2; [reflexivity| |exact Hin].
        rewrite elem_of_cons. by intros [?|?].
Qed.

Lemma dict_keys_set_nodup k v d :
  NoDup (dict_keys d) -> NoDup (dict_keys (dict_set k v d)).
Proof.
  intros Hnd. rewrite dict_keys_set. case_bool_decide as Hin; [exact Hnd|].
  apply NoDup_app. split; [exact Hnd|]. split.
  - intros x Hx Hx'. apply list_elem_of_singleton in Hx'. by subst.
  - apply NoDup_singleton.
Qed.

Lemma dict_get_elem_of k v d : dict_get k d = Some v -> (k, v) ∈ d.
Proof.
  induction d as [|[k' v'] d IH]; simpl; [discriminate|].
  case_bool_decide as Hk.
  - intros [= ->]. subst. by left.
  - intros H. right. by apply IH.
Qed.

Lemma dict_set_elem_of k v d k1 v1 :
  (k1, v1) ∈ dict_set k v d -> (k1 = k /\ v1 = v) \/ (k1, v1) ∈ d.
Proof.
  induction d as [|[k' v'] d IH]; simpl.
  - intros H. apply list_elem_of_singleton in H. injection H as -> ->. by left.
  - case_bool_decide as Hk.
    + rewrite elem_of_cons. intros [[= -> ->]|H]; [by left|]. right. by right.
    + rewrite elem_of_cons. intros [[= -> ->]|H]; [right; by left|].
      destruct (IH H) as [?|?]; [by left | right; by right].
Qed.

End Dict.

(** ** Computations over the generator *)

Section TorchFacts.
Context `{rt : Runtime}.

Lemma returns_ret {A} (a : A) (P : A -> Prop) : P a -> returns (mret a) P.
Proof. intros Ha rng. by exists a, rng. Qed.

Lemma returns_draw {A} (f : RngState -> A * RngState) : returns (draw f) (fun _ => True).
Proof. intros rng. unfold draw. destruct (f rng) as [a rng']. by exists a, rng'. Qed.

Lemma returns_lift {A} (r : result A) (a : A) (P : A -> Prop) :
  r = Ok a -> P a -> returns (lift r) P.
Proof. intros -> Ha rng. by exists a, rng. Qed.

(** The sequencing rule of [returns]. *)
Lemma returns_bind {A B} (m : Torch A) (k : A -> Torch B) (P : A -> Prop) (Q : B -> Prop) :
  returns m P -> (forall a, P a -> returns (k a) Q) -> returns (m ≫= k) Q.
Proof.
  intros Hm Hk rng. destruct (Hm rng) as (a & rng1 & Hrun & Ha).
  destruct (Hk a Ha rng1) as (b & rng2 & Hrun2 & Hb).
  exists b, rng2. split; [|exact Hb].
  unfold mbind, Torch_bind. by rewrite Hrun.
Qed.

Lemma returns_weaken {A} (m : Torch A) (P Q : A -> Prop) :
  returns m P -> (forall a, P a -> Q a) -> returns m Q.
Proof.
  intros Hm HPQ rng. destruct (Hm rng) as (a & rng' & Hrun & Ha).
  exists a, rng'. split; [exact Hrun | by apply HPQ].
Qed.

Lemma returns_mapM_draw {A B} (f : A -> RngState -> B * RngState) (l : list A) :
  returns (mapM (fun x => draw (f x)) l) (fun _ => True).
Proof.
  induction l as [|x l IH]; simpl.
  - by apply returns_ret.
  - eapply returns_bind; [apply returns_draw|]. intros y _.
    eapply returns_bind; [apply IH|]. intros ys _. by apply returns_ret.
Qed.

Lemma returns_foldM {A S : Type} (P : S -> Prop) (f : S -> A -> Torch S) (l : list A) :
  (forall s x, P s -> returns (f s x) P) ->
  forall s, P s -> returns (foldM f s l) P.
Proof.
  intros Hstep. induction l as [|x l IH]; intros s Hs; simpl.
  - by apply returns_ret.
  - eapply returns_bind; [by apply Hstep|]. intros s' Hs'. by apply IH.
Qed.

Lemma returns_randn n :
  randn_contract -> returns (draw (randn n)) (fun v => length v = n).
Proof.
  intros Hlen rng. unfold draw. specialize (Hlen n rng).
  destruct (randn n rng) as [v rng']. by exists v, rng'.
Qed.

Lemma rng_free_lift {A} (r : result A) : rng_free (lift r).
Proof. by exists r. Qed.

Lemma rng_free_ret {A} (a : A) : rng_free (mret a : Torch A).
Proof. by exists (Ok a). Qed.

Lemma rng_free_bind {A B} (m : Torch A) (k : A -> Torch B) :
  rng_free m -> (forall a, rng_free (k a)) -> rng_free (m ≫= k).
Proof.
  intros [r Hr] Hk. destruct r as [a|e].
  - destruct (Hk a) as [rb Hrb]. exists rb. intros rng.
    unfold mbind, Torch_bind. rewrite Hr. simpl. apply Hrb.
  - exists (Raise e). intros rng. unfold mbind, Torch_bind. by rewrite Hr.
Qed.

(** A generator-free computation returns the same from every state. *)
Lemma rng_free_run {A} (m : Torch A) (a : A) (rng rng' : RngState) :
  rng_free m -> m rng = Ok (a, rng') ->
  rng' = rng /\ forall rng2, m rng2 = Ok (a, rng2).
Proof.
  intros [r Hr] Hrun. rewrite Hr in Hrun. destruct r as [a'|e]; simpl in Hrun; [|discriminate].
  injection Hrun as -> ->. split; [reflexivity|]. intros rng2. by rewrite Hr.
Qed.

End TorchFacts.

(** ** The channel graph *)

Section ChannelEdges.
Import Core.

(** C4 (edge symmetry).  For every channel triple (g1, g2, name) of the
    static table [CHANNELS], listed once or several times and in either
    orientation, the edge list built by [get_channel_edges] holds the
    directed edge (g1, g2) exactly once and the directed edge (g2, g1)
    exactly once; and no edge occurs twice in the list. *)
Theorem get_channel_edges_symmetric :
  NoDup get_channel_edges ∧
  ∀ (g1 g2 : Z) (name : string),
    (g1, g2, name) ∈ CHANNELS →
    occurrences (g1, g2) get_channel_edges = 1%nat ∧
    occurrences (g2, g1) get_channel_edges = 1%nat.
Proof.
  split.
  - apply (bool_decide_unpack _). vm_compute. reflexivity.
  - assert (H : Forall (fun c : Z * Z * string =>
              occurrences (c.1.1, c.1.2) get_channel_edges = 1%nat ∧
              occurrences (c.1.2, c.1.1) get_channel_edges = 1%nat)
            CHANNELS).
    { apply (bool_decide_unpack _). vm_compute. reflexivity. }
    intros g1 g2 name Hin.
    rewrite Forall_forall in H. exact (H _ Hin).
Qed.

End ChannelEdges.

(** ** The field encoder *)

Section EncoderFacts.
Import Core QuantumFieldEncoder.

Lemma placement_step_unknown acc p :
  dict_get (planet p) planet_to_idx = None -> placement_step acc p = Ok acc.
Proof. intros H. unfold placement_step. destruct acc. rewrite H. reflexivity. Qed.

Lemma foldM_skip_unknown acc before after p :
  dict_get (planet p) planet_to_idx = None ->
  foldM placement_step acc (before ++ p :: after)
  = foldM placement_step acc (before ++ after).
Proof.
  intros H. rewrite !foldM_app.
  destruct (foldM placement_step acc before) as [acc'|e]; simpl; [|reflexivity].
  rewrite (placement_step_unknown _ _ H). reflexivity.
Qed.

Lemma encode_only_unknown self p :
  dict_get (planet p) planet_to_idx = None ->
  _encode_gate_placements self [p] = Ok (zeros (embedding_dim self / 2)).
Proof.
  intros H. unfold _encode_gate_placements.
  change (foldM placement_step (zeros num_planets, zeros 6) [p])
    with (mbind (fun s' => Ok s') (placement_step (zeros num_planets, zeros 6) p)).
  rewrite (placement_step_unknown _ _ H). cbn [mbind result_bind].
  destruct (Rlt_dec 0 (tsum (zeros 6))) as [Hlt|_].
  { rewrite tsum_zeros in Hlt. lra. }
  f_equal. unfold zeros. rewrite <- replicate_add.
  rewrite length_replicate.
  change num_planets with 13%nat.
  generalize (embedding_dim self / 2)%nat. intros h.
  case_bool_decide.
  - rewrite <- replicate_add.
    rewrite take_ge by (rewrite length_replicate; lia).
    f_equal. lia.
  - rewrite take_replicate. f_equal. lia.
Qed.

(** C3, as amended.  A placement whose planet is not one of [PLANETS]
    contributes nothing to the feature of its gate, neither to the presence
    flags nor to the line histogram: with the placement or without it,
    anywhere in the list and whatever its line, [_encode_gate_placements]
    returns the same result, and so raises no error of its own. *)
Theorem unknown_planet_ignored (self : QuantumFieldEncoder.t)
    (before after : list Placement) (p : Placement) :
  dict_get (planet p) planet_to_idx = None ->
  _encode_gate_placements self (before ++ p :: after)
  = _encode_gate_placements self (before ++ after).
Proof.
  intros H.
  destruct (before ++ after) as [|q rest] eqn:E.
  - apply app_eq_nil in E as [-> ->]. simpl app.
    rewrite (encode_only_unknown _ _ H). reflexivity.
  - rewrite <- E. unfold _encode_gate_placements.
    rewrite (foldM_skip_unknown _ _ _ _ H).
    destruct before; simpl app; [destruct after; [discriminate E|]|]; reflexivity.
Qed.

Lemma planet_idx_range name idx :
  dict_get name planet_to_idx = Some idx -> (0 <= idx < 13)%Z.
Proof.
  intros H. apply dict_get_elem_of in H.
  assert (Hall : Forall (fun kv : string * Z => (0 <= kv.2 < 13)%Z) planet_to_idx).
  { apply (bool_decide_unpack _). vm_compute. reflexivity. }
  rewrite Forall_forall in Hall. exact (Hall _ H).
Qed.

Lemma placement_step_ok pv lv p :
  length pv = 13%nat -> length lv = 6%nat -> wf_placement p ->
  exists pv' lv', placement_step (pv, lv) p = Ok (pv', lv')
                  /\ length pv' = 13%nat /\ length lv' = 6%nat.
Proof.
  intros Hpv Hlv [_ Hline]. unfold placement_step.
  destruct (dict_get (planet p) planet_to_idx) as [idx|] eqn:Hidx; [|by exists pv, lv].
  apply planet_idx_range in Hidx.
  destruct (tensor_set_ok pv idx 1) as (pv' & -> & Hpv'); [lia|].
  cbn [mbind result_bind].
  destruct (tensor_get_ok lv (line p - 1)) as (old & ->); [lia|].
  cbn [mbind result_bind].
  destruct (tensor_set_ok lv (line p - 1) (old + 1)) as (lv' & -> & Hlv'); [lia|].
  cbn [mbind result_bind]. exists pv', lv'. repeat split; congruence.
Qed.

Lemma encode_gate_placements_ok self ps :
  Forall wf_placement ps ->
  exists feat, _encode_gate_placements self ps = Ok feat
               /\ length feat = (embedding_dim self / 2)%nat.
Proof.
  intros Hwf. unfold _encode_gate_placements.
  destruct ps as [|p0 ps0] eqn:Eps.
  { eexists. split; [reflexivity|]. apply length_replicate. }
  rewrite <- Eps in *. clear Eps p0 ps0.
  destruct (foldM_ok (fun acc : list R * list R => length acc.1 = 13%nat /\ length acc.2 = 6%nat)
              placement_step ps) with (s := (zeros num_planets, zeros 6))
    as ([pv lv] & -> & Hpv & Hlv).
  - intros [pv lv] p Hp [Hpv Hlv]. rewrite Forall_forall in Hwf.
    destruct (placement_step_ok pv lv p Hpv Hlv (Hwf _ Hp)) as (pv' & lv' & -> & ? & ?).
    by exists (pv', lv').
  - split; apply length_replicate.
  - cbn [mbind result_bind fst snd] in *. eexists. split; [reflexivity|].
    generalize (embedding_dim self / 2)%nat. intros h.
    set (lv' := if Rlt_dec 0 (tsum lv) then _ else _).
    assert (Hlv' : length lv' = 6%nat).
    { unfold lv'. destruct (Rlt_dec 0 (tsum lv)); [by rewrite length_map | exact Hlv]. }
    clearbody lv'. rewrite length_take. unfold zeros. case_bool_decide;
      rewrite ?length_app, ?length_app, ?length_replicate in *; lia.
Qed.

Lemma empty_buckets_ok : buckets_ok empty_buckets.
Proof.
  split.
  - intros g Hg. exists []. unfold empty_buckets.
    apply elem_of_list_to_map_1.
    + assert (Hfst : (map (fun i : Z => (i, @nil Placement)) (seqZ 1 64)).*1 = seqZ 1 64).
      { apply list_eq. intros i. change (map ?f ?l) with (f <$> l).
        rewrite !list_lookup_fmap. by destruct (seqZ 1 64 !! i). }
      rewrite Hfst. apply NoDup_seqZ.
    + change (map ?f ?l) with (f <$> l). apply list_elem_of_fmap. exists g.
      split; [reflexivity|]. apply elem_of_seqZ. lia.
  - intros g l Hl. unfold empty_buckets in Hl.
    apply elem_of_list_to_map_2 in Hl.
    change (map ?f ?l) with (f <$> l) in Hl.
    apply list_elem_of_fmap in Hl as (g' & [= _ ->] & _). constructor.
Qed.

Lemma buckets_insert_ok b g l p :
  buckets_ok b -> b !! g = Some l -> wf_placement p ->
  buckets_ok (<[g := l ++ [p]]> b).
Proof.
  intros [Hdom Hwf] Hl Hp. split.
  - intros g' Hg'. destruct (decide (g = g')) as [->|Hne].
    + rewrite lookup_insert_eq. by eexists.
    + rewrite lookup_insert_ne by exact Hne. by apply Hdom.
  - intros g' l' Hl'. destruct (decide (g = g')) as [->|Hne].
    + rewrite lookup_insert_eq in Hl'. injection Hl' as <-.
      apply Forall_app. split; [by eapply Hwf | by constructor].
    + rewrite lookup_insert_ne in Hl' by exact Hne. by eapply Hwf.
Qed.

(** Placements within range encode without error, into 64 rows. *)
Lemma encode_placements_ok self ps :
  Nat.even (embedding_dim self) = true ->
  Forall wf_placement ps ->
  exists rows, encode_placements self ps = Ok rows /\ length rows = 64%nat.
Proof.
  intros Heven Hwf. unfold encode_placements.
  destruct (foldM_ok (fun acc : gmap Z (list Placement) * gmap Z (list Placement) =>
                        buckets_ok acc.1 /\ buckets_ok acc.2) bucket_step ps)
    with (s := (empty_buckets, empty_buckets)) as ([b d] & -> & Hb & Hd).
  - intros [b d] p Hp [Hb Hd]. cbn [fst snd] in Hb, Hd. rewrite Forall_forall in Hwf.
    pose proof (Hwf _ Hp) as Hpwf. unfold bucket_step.
    destruct (is_body (stream p)).
    + destruct (proj1 Hb (gate p)) as [l Hl]; [apply Hpwf|]. rewrite Hl.
      eexists. split; [reflexivity|]. split; [by apply buckets_insert_ok | exact Hd].
    + destruct (proj1 Hd (gate p)) as [l Hl]; [apply Hpwf|]. rewrite Hl.
      eexists. split; [reflexivity|]. split; [exact Hb | by apply buckets_insert_ok].
  - split; apply empty_buckets_ok.
  - cbn [mbind result_bind fst snd] in *.
    destruct (mapM_ok (fun _ => True) (encode_gate self b d) (seqZ 1 64))
      as (rows & Hrows & Hlen & _).
    + intros g Hg. apply elem_of_seqZ in Hg. unfold encode_gate.
      destruct (proj1 Hb g) as [lb Hlb]; [lia|]. rewrite Hlb. cbn [from_option mbind result_bind].
      destruct (encode_gate_placements_ok self lb) as (fb & -> & _); [by eapply (proj2 Hb)|].
      cbn [mbind result_bind].
      destruct (proj1 Hd g) as [ld Hld]; [lia|]. rewrite Hld. cbn [from_option mbind result_bind].
      destruct (encode_gate_placements_ok self ld) as (fd & -> & _); [by eapply (proj2 Hd)|].
      cbn [mbind result_bind]. rewrite Heven. by eexists.
    + exists rows. split; [exact Hrows|]. rewrite Hlen. reflexivity.
Qed.

Lemma encode_sun_context_ok self p :
  wf_placement p -> exists v, encode_sun_context self p = Ok v.
Proof.
  intros [Hg Hl]. unfold encode_sun_context.
  destruct (tensor_set_ok (zeros 64) (gate p - 1) 1) as (gv & -> & _).
  { unfold zeros. rewrite length_replicate. lia. }
  cbn [mbind result_bind].
  destruct (tensor_set_ok (zeros 6) (line p - 1) 1) as (lv & -> & _).
  { unfold zeros. rewrite length_replicate. lia. }
  cbn [mbind result_bind]. by eexists.
Qed.

Lemma get_awareness_masks_ok self :
  exists masks, QuantumFieldEncoder.get_awareness_masks self = Ok masks /\ masks_ok masks.
Proof.
  eexists. split; [vm_compute; reflexivity|].
  repeat split; by eexists.
Qed.

End EncoderFacts.

(** ** The reference runtime meets the contracts *)

Section ReferenceFacts.
Import Reference.

Lemma insert_desc_perm p l : Permutation (insert_desc p l) (p :: l).
Proof.
  induction l as [|q l IH]; simpl; [reflexivity|].
  destruct (Rle_dec q.2 p.2); [reflexivity|].
  rewrite IH. apply perm_swap.
Qed.

Lemma sort_desc_perm l : Permutation (sort_desc l) l.
Proof.
  induction l as [|p l IH]; simpl; [reflexivity|].
  rewrite insert_desc_perm. by constructor.
Qed.

Lemma insert_desc_sorted p l :
  StronglySorted desc l -> StronglySorted desc (insert_desc p l).
Proof.
  induction 1 as [|q l Hl IH Hq]; simpl.
  - constructor; constructor.
  - destruct (Rle_dec q.2 p.2) as [Hle|Hnle].
    + constructor; [by constructor|].
      constructor; [exact Hle|].
      eapply Forall_impl; [exact Hq|]. unfold desc. intros r Hr. lra.
    + constructor; [exact IH|].
      rewrite insert_desc_perm. constructor; [unfold desc; lra | exact Hq].
Qed.

Lemma sort_desc_sorted l : StronglySorted desc (sort_desc l).
Proof.
  induction l as [|p l IH]; simpl; [constructor | by apply insert_desc_sorted].
Qed.

Lemma strongly_sorted_lookup l a b p q :
  StronglySorted desc l -> (a < b)%nat -> l !! a = Some p -> l !! b = Some q -> desc p q.
Proof.
  intros Hs. revert a b. induction Hs as [|r l Hl IH Hr]; intros a b Hab Ha Hb.
  - by rewrite lookup_nil in Ha.
  - destruct b as [|b]; [lia|]. simpl in Hb.
    destruct a as [|a]; simpl in Ha.
    + injection Ha as <-. rewrite Forall_forall in Hr. apply Hr.
      by eapply list_elem_of_lookup_2.
    + eapply IH; [|eassumption..]. lia.
Qed.

Lemma imap_pair_lookup (xs : list R) i v :
  (i, v) ∈ imap (fun i x => (i, x)) xs <-> xs !! i = Some v.
Proof.
  rewrite list_elem_of_lookup. split.
  - intros [j Hj]. rewrite list_lookup_imap in Hj.
    destruct (xs !! j) eqn:E; simpl in Hj; [|discriminate]. by injection Hj as <- <-.
  - intros H. exists i. rewrite list_lookup_imap, H. reflexivity.
Qed.

Lemma imap_pair_fst (xs : list R) :
  (imap (fun i x => (i, x)) xs).*1 = seq 0 (length xs).
Proof.
  apply list_eq. intros i. rewrite list_lookup_fmap, list_lookup_imap.
  destruct (xs !! i) eqn:E; simpl.
  - symmetry. apply lookup_seq. split; [reflexivity|]. by eapply lookup_lt_Some.
  - symmetry. apply lookup_seq_ge. apply lookup_ge_None in E. lia.
Qed.

(** The stable selection of the reference runtime keeps the contract of
    [torch.topk]. *)
Lemma topk_stable_contract : @topk_contract Reference.runtime.
Proof.
  intros k xs Hk. simpl. unfold topk_stable.
  change (map fst ?l) with (l.*1).
  set (ps := imap (fun i x => (i, x)) xs).
  pose proof (sort_desc_perm ps) as Hperm.
  pose proof (sort_desc_sorted ps) as Hsorted.
  assert (Hlen : length (sort_desc ps) = length xs).
  { rewrite Hperm. unfold ps. by rewrite length_imap. }
  assert (Hnodup : NoDup (sort_desc ps).*1).
  { rewrite Hperm. unfold ps. rewrite imap_pair_fst. apply NoDup_seq. }
  assert (Hin : forall i v, (i, v) ∈ sort_desc ps <-> xs !! i = Some v).
  { intros i v. rewrite Hperm. apply imap_pair_lookup. }
  assert (Hix : forall a i, (take k (sort_desc ps)).*1 !! a = Some i ->
            (a < k)%nat /\ exists v, sort_desc ps !! a = Some (i, v) /\ xs !! i = Some v).
  { intros a i Ha. rewrite list_lookup_fmap in Ha.
    destruct (take k (sort_desc ps) !! a) as [[i' v]|] eqn:E; simpl in Ha; [|discriminate].
    injection Ha as ->.
    assert (a < k)%nat as Hak.
    { apply lookup_lt_Some in E. rewrite length_take in E. lia. }
    rewrite lookup_take_lt in E by exact Hak.
    split; [exact Hak|]. exists v. split; [exact E|].
    apply Hin. by eapply list_elem_of_lookup_2. }
  repeat split.
  - rewrite length_fmap, length_take. lia.
  - rewrite fmap_take. eapply sublist_NoDup; [exact Hnodup | apply sublist_take].
  - intros i Hi. apply list_elem_of_lookup in Hi as [a Ha].
    apply Hix in Ha as (_ & v & _ & Hv). by eapply lookup_lt_Some.
  - intros a b i j v w Hab Ha Hb Hv Hw.
    apply Hix in Ha as (_ & v' & Ha & Hv').
    apply Hix in Hb as (_ & w' & Hb & Hw').
    assert (v' = v) as -> by congruence. assert (w' = w) as -> by congruence.
    exact (strongly_sorted_lookup _ _ _ _ _ Hsorted Hab Ha Hb).
  - intros i j v w Hi Hj Hv Hw.
    apply list_elem_of_lookup in Hi as [a Ha].
    apply Hix in Ha as (Hak & v' & Ha & Hv').
    assert (v' = v) as -> by congruence.
    apply Hin in Hw. apply list_elem_of_lookup in Hw as [b Hb].
    destruct (decide (b < k)%nat) as [Hbk|Hbk].
    + exfalso. apply Hj. apply list_elem_of_lookup. exists b.
      rewrite list_lookup_fmap, lookup_take_lt, Hb by exact Hbk. reflexivity.
    + assert (a < b)%nat as Hab by lia.
      exact (strongly_sorted_lookup _ _ _ _ _ Hsorted Hab Ha Hb).
Qed.

Lemma reference_randn_contract : @randn_contract Reference.runtime.
Proof. intros n rng. simpl. by rewrite length_map, length_seq. Qed.

Lemma topk_stable_equal3 (c : R) : Reference.topk_stable 3 [c; c; c] = [0; 1; 2]%nat.
Proof.
  unfold Reference.topk_stable, Reference.sort_desc. simpl.
  repeat (destruct (Rle_dec c c) as [_|Hn]; [|exfalso; apply Hn; lra]; simpl).
  reflexivity.
Qed.

End ReferenceFacts.

(** ** One consciousness field *)

Section FieldFacts.
Context `{rt : Runtime}.
Import Core ConsciousnessField.

Lemma compute_coherence_range (activations : list R) :
  0 < ConsciousnessField._compute_coherence activations <= 1.
Proof.
  unfold ConsciousnessField._compute_coherence.
  assert (Hstd : 0 <= tstd activations) by apply sqrt_pos.
  case_bool_decide; [lra|]. split.
  - apply Rdiv_lt_0_compat; lra.
  - apply (Rmult_le_reg_r (1 + tstd activations)); [lra|].
    unfold Rdiv. rewrite Rmult_assoc, Rinv_l; lra.
Qed.

(** C5 (coherence bounds).  The coherence of a list of activations is
    1 / (1 + std) when there are at least two of them, exactly 1 when there
    are fewer, and in both cases lies in (0, 1]. *)
Theorem compute_coherence_bounds (activations : list R) :
  ((2 <= length activations)%nat ->
     _compute_coherence activations = 1 / (1 + tstd activations)) /\
  ((length activations < 2)%nat -> _compute_coherence activations = 1) /\
  0 < _compute_coherence activations <= 1.
Proof.
  unfold _compute_coherence.
  assert (Hstd : 0 <= tstd activations) by apply sqrt_pos.
  repeat split.
  - intros Hlen. rewrite bool_decide_eq_false_2 by lia. reflexivity.
  - intros Hlen. rewrite bool_decide_eq_true_2 by lia. reflexivity.
  - case_bool_decide; [lra|]. apply Rdiv_lt_0_compat; lra.
  - case_bool_decide; [lra|].
    apply (Rmult_le_reg_r (1 + tstd activations)); [lra|].
    unfold Rdiv. rewrite Rmult_assoc, Rinv_l; lra.
Qed.

(** C2, as amended.  For every runtime whose [topk] keeps its contract and
    every field (any enumeration of its gate set), the dominant gates of a
    collapsed state are min(3, n) distinct gates of the field, listed by
    non-increasing score, and no gate of the field left out has a larger
    score than a gate listed.  The order of gates with equal scores is not
    fixed by the gate numbers. *)
Theorem dominant_gates_top3 (fld : ConsciousnessField.t) (scores : list R)
    (aw : gmap string R) (awv : gmap string (list R)) (st : ConsciousnessState) :
  topk_contract ->
  NoDup (gates fld) ->
  gate_indices fld = map (fun g => (g - 1)%Z) (gates fld) ->
  collapse_to_state fld scores aw awv = Ok st ->
  length (dominant_gates st) = Nat.min 3 (length (gates fld)) /\
  NoDup (dominant_gates st) /\
  (forall g, g ∈ dominant_gates st -> g ∈ gates fld) /\
  (forall a b g g' v v',
      (a < b)%nat ->
      dominant_gates st !! a = Some g -> dominant_gates st !! b = Some g' ->
      tensor_get scores (g - 1) = Ok v -> tensor_get scores (g' - 1) = Ok v' ->
      v' <= v) /\
  (forall g g' v v',
      g ∈ dominant_gates st -> g' ∈ gates fld -> g' ∉ dominant_gates st ->
      tensor_get scores (g - 1) = Ok v -> tensor_get scores (g' - 1) = Ok v' ->
      v' <= v).
Proof.
  intros Htopk Hnodup Hidx Hcollapse.
  unfold collapse_to_state in Hcollapse.
  destruct (mapM (tensor_get scores) (gate_indices fld)) as [acts|e] eqn:Hacts;
    cbn [mbind result_bind] in Hcollapse; [|discriminate].
  set (k := Nat.min 3 (length (gate_indices fld))) in *.
  destruct (mapM (fun i : nat => tensor_get (gates fld) (Z.of_nat i)) (topk k acts))
    as [dom|e] eqn:Hdom; cbn [mbind result_bind] in Hcollapse; [|discriminate].
  destruct (_generate_narrative_seed _ _ _ _ _) as [seed|e]; cbn [mbind result_bind] in Hcollapse;
    [|discriminate].
  injection Hcollapse as <-. cbn [dominant_gates].
  apply mapM_Ok in Hacts. apply mapM_Ok in Hdom.
  rewrite Hidx in Hacts. change (map ?f ?l) with (f <$> l) in Hacts.
  apply Forall2_fmap_l in Hacts.
  assert (Hlen : length acts = length (gates fld)).
  { symmetry. by eapply Forall2_length. }
  assert (Hk : k = Nat.min 3 (length (gates fld))).
  { unfold k. rewrite Hidx. by rewrite length_map. }
  destruct (Htopk k acts) as (Hklen & Hknodup & Hkrange & Hkdesc & Hkout); [lia|].
  (* positions *)
  assert (Hpos : forall a g, dom !! a = Some g ->
            exists i, topk k acts !! a = Some i /\ gates fld !! i = Some g).
  { intros a g Ha. destruct (Forall2_lookup_r _ _ _ _ _ Hdom Ha) as (i & Hi & Hg).
    exists i. split; [exact Hi | by apply tensor_get_nat]. }
  assert (Hscore : forall i g v, gates fld !! i = Some g ->
            tensor_get scores (g - 1) = Ok v -> acts !! i = Some v).
  { intros i g v Hg Hv. destruct (Forall2_lookup_l _ _ _ _ _ Hacts Hg) as (v' & Hv' & Hgv).
    simpl in Hgv. congruence. }
  repeat split.
  - rewrite <- (Forall2_length _ _ _ Hdom). lia.
  - apply NoDup_alt. intros a b g Ha Hb.
    destruct (Hpos _ _ Ha) as (i & Hi & Hgi). destruct (Hpos _ _ Hb) as (j & Hj & Hgj).
    assert (i = j) by exact (NoDup_lookup _ _ _ _ Hnodup Hgi Hgj). subst j.
    exact (NoDup_lookup _ _ _ _ Hknodup Hi Hj).
  - intros g Hg. apply list_elem_of_lookup in Hg as [a Ha].
    destruct (Hpos _ _ Ha) as (i & _ & Hgi). by eapply list_elem_of_lookup_2.
  - intros a b g g' v v' Hab Ha Hb Hv Hv'.
    destruct (Hpos _ _ Ha) as (i & Hi & Hgi). destruct (Hpos _ _ Hb) as (j & Hj & Hgj).
    eapply (Hkdesc a b i j v v'); eauto.
  - intros g g' v v' Hg Hg' Hnot Hv Hv'.
    apply list_elem_of_lookup in Hg as [a Ha].
    destruct (Hpos _ _ Ha) as (i & Hi & Hgi).
    apply list_elem_of_lookup in Hg' as [j Hgj].
    eapply (Hkout i j v v'); eauto.
    + by eapply list_elem_of_lookup_2.
    + intros Hj. apply Hnot. apply list_elem_of_lookup in Hj as [b Hb].
      destruct (Forall2_lookup_l _ _ _ _ _ Hdom Hb) as (g'' & Hg'' & Hgg).
      apply tensor_get_nat in Hgg. assert (g'' = g') by congruence. subst.
      by eapply list_elem_of_lookup_2.
Qed.

Lemma field_init_ok field_name emb :
  field_name ∈ dict_keys Core.CONSCIOUSNESS_FIELDS -> length emb = 64%nat ->
  exists fld, ConsciousnessField.__init__ field_name emb = Ok fld /\ field_ok fld.
Proof.
  intros Hname Hlen.
  assert (Hall : Forall (fun n => field_tables_ok n = true) (dict_keys Core.CONSCIOUSNESS_FIELDS)).
  { apply (bool_decide_unpack _). vm_compute. reflexivity. }
  rewrite Forall_forall in Hall. specialize (Hall _ Hname).
  unfold field_tables_ok in Hall.
  destruct (Core.get_field_gates field_name) as [gs|] eqn:Hgs; [|discriminate].
  apply andb_prop in Hall as [Hall Htmpl]. apply andb_prop in Hall as [Hall Hcfg].
  apply andb_prop in Hall as [Hnd Hrange].
  apply bool_decide_eq_true_1 in Hnd, Hrange, Hcfg, Htmpl.
  destruct Hcfg as [cfg Hcfg].
  unfold ConsciousnessField.__init__, dict_item. rewrite Hcfg, Hgs.
  cbn [mbind result_bind].
  destruct (mapM_ok (fun _ => True) (tensor_get emb) (map (fun g => (g - 1)%Z) gs))
    as (rows & -> & _).
  { intros i Hi. change (map ?f ?l) with (f <$> l) in Hi.
    apply list_elem_of_fmap in Hi as (g & -> & Hg).
    rewrite Forall_forall in Hrange. specialize (Hrange _ Hg).
    destruct (tensor_get_ok emb (g - 1)) as [v Hv]; [lia|]. by exists v. }
  cbn [mbind result_bind]. eexists. split; [reflexivity|].
  repeat split; assumption.
Qed.

Lemma collapse_to_state_fresh fld scores aw awv st :
  ConsciousnessField.collapse_to_state fld scores aw awv = Ok st ->
  0 < coherence st <= 1 /\ resonance st = ∅.
Proof.
  unfold ConsciousnessField.collapse_to_state. intros H.
  destruct (mapM _ (ConsciousnessField.gate_indices fld)) as [acts|e];
    cbn [mbind result_bind] in H; [|discriminate].
  destruct (mapM _ (topk _ _)) as [dom|e]; cbn [mbind result_bind] in H; [|discriminate].
  destruct (ConsciousnessField._generate_narrative_seed _ _ _ _ _) as [seed|e];
    cbn [mbind result_bind] in H; [|discriminate].
  injection H as <-. cbn [coherence resonance].
  split; [apply compute_coherence_range | reflexivity].
Qed.

(** A field of the static tables collapses without error. *)
Lemma collapse_to_state_ok fld scores aw awv :
  topk_contract -> field_ok fld -> length scores = 64%nat ->
  exists st, ConsciousnessField.collapse_to_state fld scores aw awv = Ok st.
Proof.
  intros Htopk (Hidx & Hnd & Hrange & [tmpl Htmpl]) Hlen.
  unfold ConsciousnessField.collapse_to_state.
  destruct (mapM_ok (fun _ => True) (tensor_get scores) (ConsciousnessField.gate_indices fld))
    as (acts & -> & Hacts & _).
  { intros i Hi. rewrite Hidx in Hi. change (map ?f ?l) with (f <$> l) in Hi.
    apply list_elem_of_fmap in Hi as (g & -> & Hg).
    rewrite Forall_forall in Hrange. specialize (Hrange _ Hg).
    destruct (tensor_get_ok scores (g - 1)) as [v Hv]; [lia|]. by exists v. }
  cbn [mbind result_bind].
  set (k := Nat.min 3 (length (ConsciousnessField.gate_indices fld))).
  destruct (Htopk k acts) as (_ & _ & Hkrange & _); [lia|].
  assert (Hgl : length (ConsciousnessField.gates fld) = length acts).
  { rewrite Hacts, Hidx. by rewrite length_map. }
  destruct (mapM_ok (fun _ => True)
              (fun i : nat => tensor_get (ConsciousnessField.gates fld) (Z.of_nat i))
              (topk k acts)) as (dom & -> & _).
  { intros i Hi. apply Hkrange in Hi.
    destruct (tensor_get_ok (ConsciousnessField.gates fld) (Z.of_nat i)) as [g Hg]; [lia|].
    by exists g. }
  cbn [mbind result_bind].
  unfold ConsciousnessField._generate_narrative_seed. rewrite Htmpl.
  destruct tmpl as [before between].
  match goal with
  | |- context [match ?x with Some _ => _ | None => _ end] => destruct x
  end; cbn [mbind result_bind]; by eexists.
Qed.

End FieldFacts.

(** ** The nine fields and their resonance *)

Section ResonanceFacts.
Context `{rt : Runtime}.
Import NineBodyConsciousness.

(** The nested loop is one loop over the pairs it visits. *)
Lemma resonance_loop_pairs names st :
  resonance_loop names st = foldl pair_step st (all_pairs names).
Proof.
  revert st. induction names as [|a rest IH]; intros st; simpl; [reflexivity|].
  rewrite foldl_app, IH. f_equal.
  clear IH. revert st. induction rest as [|m rest' IH']; intros st; simpl; [reflexivity|].
  apply IH'.
Qed.

Lemma all_pairs_elem_of names a m :
  (a, m) ∈ all_pairs names -> a ∈ names /\ m ∈ names /\ (NoDup names -> a ≠ m).
Proof.
  induction names as [|x rest IH]; simpl.
  - intros H. by apply elem_of_nil in H.
  - rewrite elem_of_app. intros [H|H].
    + change (map ?f ?l) with (f <$> l) in H.
      apply list_elem_of_fmap in H as (m' & [= -> ->] & Hm).
      split; [by left|]. split; [by right|].
      intros Hnd. apply NoDup_cons in Hnd as [Hx _]. by intros ->.
    + destruct (IH H) as (Ha & Hm & Hne).
      split; [by right|]. split; [by right|].
      intros Hnd. apply NoDup_cons in Hnd as [_ Hnd]. by apply Hne.
Qed.

Lemma all_pairs_cover names a m :
  a ∈ names -> m ∈ names -> a ≠ m ->
  (a, m) ∈ all_pairs names \/ (m, a) ∈ all_pairs names.
Proof.
  induction names as [|x rest IH]; simpl.
  - intros H. by apply elem_of_nil in H.
  - rewrite !elem_of_cons, !elem_of_app.
    change (map ?f ?l) with (f <$> l).
    intros [->|Ha] [->|Hm] Hne.
    + done.
    + left. left. apply list_elem_of_fmap. by exists m.
    + right. left. apply list_elem_of_fmap. by exists a.
    + destruct (IH Ha Hm Hne); [left | right]; by right.
Qed.

Lemma gate_overlap_sym d1 d2 : gate_overlap d1 d2 = gate_overlap d2 d1.
Proof.
  unfold gate_overlap.
  rewrite (comm_L (∩) (list_to_set d1 : gset Z)), (comm_L (∪) (list_to_set d1 : gset Z)).
  repeat case_bool_decide; try reflexivity; tauto.
Qed.

Lemma gate_overlap_bounds d1 d2 : 0 <= gate_overlap d1 d2 <= 1.
Proof.
  unfold gate_overlap.
  set (g1 := list_to_set d1 : gset Z). set (g2 := list_to_set d2 : gset Z).
  case_bool_decide as Hne; [|lra].
  assert (Hsub : (size (g1 ∩ g2) <= size (g1 ∪ g2))%nat).
  { apply subseteq_size. etrans; [apply intersection_subseteq_l | apply union_subseteq_l]. }
  assert (Hpos : (0 < size (g1 ∪ g2))%nat).
  { destruct (decide (size (g1 ∪ g2) = 0%nat)) as [Hz|Hz]; [|lia].
    apply size_empty_inv in Hz. apply leibniz_equiv in Hz.
    exfalso. destruct Hne as [H|H]; apply H; apply leibniz_equiv;
      apply elem_of_equiv_empty; intros x Hx;
      apply (proj1 (elem_of_equiv_empty _) (reflexive_eq _ _ Hz) x); set_solver. }
  apply le_INR in Hsub. apply lt_INR in Hpos. simpl in Hpos.
  split.
  - apply Rmult_le_pos; [apply pos_INR|]. apply Rlt_le, Rinv_0_lt_compat. exact Hpos.
  - apply (Rmult_le_reg_r (INR (size (g1 ∪ g2)))); [exact Hpos|].
    unfold Rdiv. rewrite Rmult_assoc, Rinv_l by lra. lra.
Qed.

Lemma gate_overlap_empty : gate_overlap [] [] = 0.
Proof.
  unfold gate_overlap. rewrite bool_decide_eq_false_2; [reflexivity|].
  simpl. intros [H|H]; by apply H.
Qed.

Lemma pair_resonance_sym s1 s2 : pair_resonance s1 s2 = pair_resonance s2 s1.
Proof.
  unfold pair_resonance. by rewrite gate_overlap_sym, Rabs_minus_sym.
Qed.

Lemma pair_resonance_strip s1 s2 t1 t2 :
  strip s1 = strip t1 -> strip s2 = strip t2 ->
  pair_resonance s1 s2 = pair_resonance t1 t2.
Proof.
  intros H1 H2. unfold pair_resonance.
  assert (dominant_gates s1 = dominant_gates t1) as -> by exact (f_equal dominant_gates H1).
  assert (dominant_gates s2 = dominant_gates t2) as -> by exact (f_equal dominant_gates H2).
  assert (coherence s1 = coherence t1) as -> by exact (f_equal coherence H1).
  assert (coherence s2 = coherence t2) as -> by exact (f_equal coherence H2).
  reflexivity.
Qed.

Lemma pair_resonance_bounds s1 s2 :
  0 < coherence s1 <= 1 -> 0 < coherence s2 <= 1 ->
  0 <= pair_resonance s1 s2 <= 1.
Proof.
  intros H1 H2. unfold pair_resonance.
  pose proof (gate_overlap_bounds (dominant_gates s1) (dominant_gates s2)) as Ho.
  assert (Hd : 0 <= Rabs (coherence s1 - coherence s2) <= 1).
  { split; [apply Rabs_pos|]. apply Rabs_le. lra. }
  lra.
Qed.

Lemma resonance_step_spec a m st sa sm :
  a ≠ m -> dict_get a st = Some sa -> dict_get m st = Some sm ->
  let r := pair_resonance sa sm in
  let st' := resonance_step a st m in
  dict_get a st' = Some (set_resonance m r sa) /\
  dict_get m st' = Some (set_resonance a r sm) /\
  (forall n, n ≠ a -> n ≠ m -> dict_get n st' = dict_get n st).
Proof.
  intros Hne Ha Hm r st'. unfold st', resonance_step. rewrite Ha, Hm.
  fold r. rewrite dict_get_set_ne by exact Hne. rewrite Hm.
  repeat split.
  - rewrite dict_get_set_ne by (by apply not_eq_sym). apply dict_get_set_eq.
  - apply dict_get_set_eq.
  - intros n Hna Hnm. rewrite !dict_get_set_ne by (by apply not_eq_sym). reflexivity.
Qed.

(** The resonance loop: it changes nothing but the resonance maps, and
    once a pair has been visited each of its two fields holds the pair's
    resonance under the name of the other. *)
Lemma fold_pairs_spec st0 pairs :
  (forall a m, (a, m) ∈ pairs ->
     a ≠ m /\ is_Some (dict_get a st0) /\ is_Some (dict_get m st0)) ->
  let st := foldl pair_step st0 pairs in
  (forall n, strip <$> dict_get n st = strip <$> dict_get n st0) /\
  (forall x y sx sy s,
      (x, y) ∈ pairs \/ (y, x) ∈ pairs ->
      dict_get x st0 = Some sx -> dict_get y st0 = Some sy ->
      dict_get x st = Some s ->
      resonance s !! y = Some (pair_resonance sx sy)).
Proof.
  induction pairs as [|[a0 m0] pairs IH] using rev_ind; intros Hwf st.
  - split; [reflexivity|]. intros x y sx sy s [H|H]; by apply elem_of_nil in H.
  - unfold st. rewrite foldl_app. cbn [foldl]. set (st1 := foldl pair_step st0 pairs).
    destruct IH as [Hframe Hres].
    { intros a m Ham. apply Hwf. apply elem_of_app. by left. }
    fold st1 in Hframe, Hres.
    destruct (Hwf a0 m0) as (Hne & [sa0 Ha0] & [sm0 Hm0]).
    { apply elem_of_app. right. by left. }
    assert (exists sa1, dict_get a0 st1 = Some sa1 /\ strip sa1 = strip sa0) as (sa1 & Ha1 & Hsa).
    { specialize (Hframe a0). rewrite Ha0 in Hframe.
      destruct (dict_get a0 st1) as [sa1|]; [|discriminate]. exists sa1.
      split; [reflexivity | apply (inj Some); exact Hframe]. }
    assert (exists sm1, dict_get m0 st1 = Some sm1 /\ strip sm1 = strip sm0) as (sm1 & Hm1 & Hsm).
    { specialize (Hframe m0). rewrite Hm0 in Hframe.
      destruct (dict_get m0 st1) as [sm1|]; [|discriminate]. exists sm1.
      split; [reflexivity | apply (inj Some); exact Hframe]. }
    destruct (resonance_step_spec a0 m0 st1 sa1 sm1 Hne Ha1 Hm1) as (Hga & Hgm & Hgo).
    unfold pair_step. cbn [fst snd].
    rewrite (pair_resonance_strip _ _ _ _ Hsa Hsm) in Hga, Hgm.
    split.
    + intros n. destruct (decide (n = a0)) as [->|Hna]; [|destruct (decide (n = m0)) as [->|Hnm]].
      * rewrite Hga, <- Hframe, Ha1. reflexivity.
      * rewrite Hgm, <- Hframe, Hm1. reflexivity.
      * rewrite Hgo by assumption. apply Hframe.
    + intros x y sx sy s Hxy Hx Hy Hs.
      assert (Hold : (x, y) ∈ pairs \/ (y, x) ∈ pairs \/ (x = a0 /\ y = m0) \/ (x = m0 /\ y = a0)).
      { destruct Hxy as [H|H]; apply elem_of_app in H as [H|H]; auto;
          apply list_elem_of_singleton in H; injection H as -> ->; auto. }
      destruct (decide (x = a0)) as [->|Hxa]; [|destruct (decide (x = m0)) as [->|Hxm]].
      * rewrite Hga in Hs. injection Hs as <-. cbn [resonance set_resonance].
        assert (sx = sa0) as -> by congruence.
        destruct (decide (y = m0)) as [->|Hym].
        -- rewrite lookup_insert_eq. assert (sy = sm0) as -> by congruence. reflexivity.
        -- rewrite lookup_insert_ne by (by apply not_eq_sym).
           apply (Hres a0 y sa0 sy sa1); try assumption.
           destruct Hold as [?|[?|[[_ ?]|[? _]]]]; [by left | by right | done | done].
      * rewrite Hgm in Hs. injection Hs as <-. cbn [resonance set_resonance].
        assert (sx = sm0) as -> by congruence.
        destruct (decide (y = a0)) as [->|Hya].
        -- rewrite lookup_insert_eq. assert (sy = sa0) as -> by congruence.
           by rewrite pair_resonance_sym.
        -- rewrite lookup_insert_ne by (by apply not_eq_sym).
           apply (Hres m0 y sm0 sy sm1); try assumption.
           destruct Hold as [?|[?|[[? _]|[_ ?]]]]; [by left | by right | done | done].
      * rewrite Hgo in Hs by assumption.
        apply (Hres x y sx sy s); try assumption.
        destruct Hold as [?|[?|[[? _]|[? _]]]]; [by left | by right | done | done].
Qed.

Lemma collapsed_states_fresh flds scores aw awv states :
  foldM (fun states '(field_name, field) =>
           st ← ConsciousnessField.collapse_to_state field scores aw awv;
           Ok (dict_set field_name st states)) [] flds = Ok states ->
  fresh_states states.
Proof.
  apply (foldM_inv fresh_states).
  - intros acc [n fld] acc' Hstep [Hnd Hall].
    destruct (ConsciousnessField.collapse_to_state fld scores aw awv) as [st|e] eqn:Hst;
      cbn [mbind result_bind] in Hstep; [|discriminate].
    injection Hstep as <-. split; [by apply dict_keys_set_nodup|].
    intros n' s' Hin. apply dict_set_elem_of in Hin as [[-> ->]|Hin].
    + by eapply collapse_to_state_fresh.
    + by eapply Hall.
  - split; [apply NoDup_nil_2|]. intros n s H. by apply elem_of_nil in H.
Qed.

(** C6 (resonance symmetry).  In the states of one [collapse_all_fields],
    for two distinct fields A and B the resonance stored in A's map under B
    and the one stored in B's map under A are the same number, namely
    (overlap + (1 - |coherence A - coherence B|)) / 2 with the Jaccard
    overlap of the two dominant-gate sets; it lies in [0, 1]; and the
    overlap of two empty sets is 0. *)
Theorem resonance_symmetric (nb : NineBodyConsciousness.t) (scores : list R)
    (aw : gmap string R) (awv : gmap string (list R))
    (states : list (string * ConsciousnessState))
    (A B : string) (stA stB : ConsciousnessState) :
  collapse_all_fields nb scores aw awv = Ok states ->
  A ≠ B ->
  dict_get A states = Some stA ->
  dict_get B states = Some stB ->
  let r := (gate_overlap (dominant_gates stA) (dominant_gates stB)
            + (1 - Rabs (coherence stA - coherence stB))) / 2 in
  resonance stA !! B = Some r /\
  resonance stB !! A = Some r /\
  0 <= r <= 1 /\
  gate_overlap [] [] = 0.
Proof.
  intros Hall Hne HA HB r.
  unfold collapse_all_fields in Hall.
  destruct (foldM _ [] (fields nb)) as [st0|e] eqn:Hst0;
    cbn [mbind result_bind] in Hall; [|discriminate].
  injection Hall as <-.
  apply collapsed_states_fresh in Hst0 as [Hnd Hfresh].
  unfold _compute_resonances in HA, HB. rewrite resonance_loop_pairs in HA, HB.
  destruct (fold_pairs_spec st0 (all_pairs (dict_keys st0))) as [Hframe Hres].
  { intros a m Ham. apply all_pairs_elem_of in Ham as (Ha & Hm & Hnem).
    split; [by apply Hnem|]. split; by apply dict_get_is_Some. }
  cbn zeta in Hframe, Hres.
  assert (exists sA0, dict_get A st0 = Some sA0 /\ strip stA = strip sA0) as (sA0 & HA0 & HsA).
  { specialize (Hframe A). rewrite HA in Hframe.
    destruct (dict_get A st0) as [sA0|]; [|discriminate]. exists sA0.
    split; [reflexivity | apply (inj Some); exact Hframe]. }
  assert (exists sB0, dict_get B st0 = Some sB0 /\ strip stB = strip sB0) as (sB0 & HB0 & HsB).
  { specialize (Hframe B). rewrite HB in Hframe.
    destruct (dict_get B st0) as [sB0|]; [|discriminate]. exists sB0.
    split; [reflexivity | apply (inj Some); exact Hframe]. }
  assert (Hr : r = pair_resonance sA0 sB0).
  { rewrite <- (pair_resonance_strip _ _ _ _ HsA HsB). reflexivity. }
  assert (Hcover : (A, B) ∈ all_pairs (dict_keys st0) \/ (B, A) ∈ all_pairs (dict_keys st0)).
  { apply all_pairs_cover; [| |exact Hne]; apply dict_get_is_Some; by eexists. }
  repeat split.
  - rewrite Hr. by apply (Hres A B sA0 sB0 stA).
  - rewrite Hr, pair_resonance_sym. apply (Hres B A sB0 sA0 stB); try assumption. tauto.
  - rewrite Hr. apply pair_resonance_bounds.
    + apply (Hfresh A). by apply dict_get_elem_of.
    + apply (Hfresh B). by apply dict_get_elem_of.
  - rewrite Hr. apply pair_resonance_bounds.
    + apply (Hfresh A). by apply dict_get_elem_of.
    + apply (Hfresh B). by apply dict_get_elem_of.
Qed.

Lemma initialize_ok emb :
  length emb = 64%nat ->
  exists nb, NineBodyConsciousness.initialize_from_quantum_state
               NineBodyConsciousness.__init__ emb = Ok nb
             /\ forall n fld, (n, fld) ∈ NineBodyConsciousness.fields nb -> field_ok fld.
Proof.
  intros Hlen. unfold NineBodyConsciousness.initialize_from_quantum_state.
  destruct (foldM_ok (fun flds : list (string * ConsciousnessField.t) =>
                        forall n fld, (n, fld) ∈ flds -> field_ok fld)
              (fun fields field_name =>
                 field ← ConsciousnessField.__init__ field_name emb;
                 Ok (dict_set field_name field fields))
              (dict_keys Core.CONSCIOUSNESS_FIELDS)) with (s := @nil (string * ConsciousnessField.t))
    as (flds & Hflds & Hok).
  - intros flds n Hn Hall.
    destruct (field_init_ok n emb Hn Hlen) as (fld & -> & Hfld).
    cbn [mbind result_bind]. eexists. split; [reflexivity|].
    intros n' fld' Hin. apply dict_set_elem_of in Hin as [[-> ->]|Hin]; [exact Hfld|].
    by eapply Hall.
  - intros n fld H. by apply elem_of_nil in H.
  - cbn [NineBodyConsciousness.fields NineBodyConsciousness.__init__].
    rewrite Hflds. cbn [mbind result_bind]. by eexists.
Qed.

Lemma collapse_all_fields_ok nb scores aw awv :
  topk_contract ->
  (forall n fld, (n, fld) ∈ NineBodyConsciousness.fields nb -> field_ok fld) ->
  length scores = 64%nat ->
  exists states, NineBodyConsciousness.collapse_all_fields nb scores aw awv = Ok states.
Proof.
  intros Htopk Hflds Hlen. unfold NineBodyConsciousness.collapse_all_fields.
  destruct (foldM_ok (fun _ : list (string * ConsciousnessState) => True)
              (fun states '(field_name, field) =>
                 st ← ConsciousnessField.collapse_to_state field scores aw awv;
                 Ok (dict_set field_name st states))
              (NineBodyConsciousness.fields nb)) with (s := @nil (string * ConsciousnessState))
    as (states & -> & _).
  - intros acc [n fld] Hin _.
    destruct (collapse_to_state_ok fld scores aw awv Htopk (Hflds _ _ Hin) Hlen) as [st ->].
    cbn [mbind result_bind]. by eexists.
  - exact I.
  - cbn [mbind result_bind]. by eexists.
Qed.

(** Every field of the system has a state among the collapsed states. *)
Lemma collapse_all_fields_keys (nb : NineBodyConsciousness.t)
    (scores : list R) (aw : gmap string R) (awv : gmap string (list R))
    (states : list (string * ConsciousnessState)) (n : string) :
  NineBodyConsciousness.collapse_all_fields nb scores aw awv = Ok states ->
  n ∈ dict_keys (NineBodyConsciousness.fields nb) ->
  is_Some (dict_get n states).
Proof.
  unfold NineBodyConsciousness.collapse_all_fields. intros Hall Hn.
  destruct (foldM _ [] (NineBodyConsciousness.fields nb)) as [st0|e] eqn:Hst0;
    cbn [mbind result_bind] in Hall; [|discriminate].
  injection Hall as <-.
  assert (Hkey : is_Some (dict_get n st0)).
  { revert Hst0 Hn. unfold dict_keys.
    assert (Hgen : forall l acc st,
              foldM (fun states '(field_name, field) =>
                       s ← ConsciousnessField.collapse_to_state field scores aw awv;
                       Ok (dict_set field_name s states)) acc l = Ok st ->
              is_Some (dict_get n acc) \/ n ∈ map fst l -> is_Some (dict_get n st)).
    { induction l as [|[k fld] l IH]; intros acc st Hfold Hor; simpl in Hfold.
      - injection Hfold as <-. destruct Hor as [H|H]; [exact H | by apply elem_of_nil in H].
      - destruct (ConsciousnessField.collapse_to_state fld scores aw awv) as [s|e];
          cbn [mbind result_bind] in Hfold; [|discriminate].
        apply (IH _ _ Hfold). simpl in Hor. rewrite elem_of_cons in Hor.
        destruct (decide (k = n)) as [->|Hne].
        + left. rewrite dict_get_set_eq. by eexists.
        + destruct Hor as [H|[H|H]]; [|congruence|by right].
          left. by rewrite dict_get_set_ne. }
    intros Hfold Hin. apply (Hgen _ _ _ Hfold). by right. }
  apply collapsed_states_fresh in Hst0 as [Hnd _].
  unfold NineBodyConsciousness._compute_resonances. rewrite resonance_loop_pairs.
  destruct (fold_pairs_spec st0 (all_pairs (dict_keys st0))) as [Hframe _].
  { intros a m Ham. apply all_pairs_elem_of in Ham as (Ha & Hm & Hnem).
    split; [by apply Hnem|]. split; by apply dict_get_is_Some. }
  specialize (Hframe n). destruct Hkey as [s Hs]. rewrite Hs in Hframe.
  cbn zeta in Hframe.
  destruct (dict_get n (foldl pair_step st0 (all_pairs (dict_keys st0)))) as [s'|];
    [by eexists | discriminate Hframe].
Qed.

End ResonanceFacts.

(** ** The forward pass *)

Section ForwardFacts.
Context `{rt : Runtime}.
Import QuantumHDNet.

Lemma film_eval_rng_free film x sun : rng_free (SunFiLM.forward film false x sun).
Proof.
  unfold SunFiLM.forward. apply rng_free_bind; [apply rng_free_ret|].
  intros h. apply rng_free_ret.
Qed.

Lemma forward_eval_rng_free net x ei sun masks :
  training net = false -> rng_free (forward net x ei sun masks).
Proof.
  intros Heval. unfold forward. rewrite Heval.
  apply rng_free_bind; [apply film_eval_rng_free|]. intros h.
  repeat (apply rng_free_bind; [apply rng_free_lift|]; intros ?).
  apply rng_free_ret.
Qed.

Lemma conv_rounds_length ei h cns :
  length (foldl (conv_round ei) h cns) = length h.
Proof.
  revert h. induction cns as [|cn cns IH]; intros h; simpl; [reflexivity|].
  rewrite IH. unfold conv_round. apply length_imap.
Qed.

Lemma forward_ok net x ei sun masks :
  masks_ok masks ->
  returns (forward net x ei sun masks)
          (fun out => length (codon_scores out) = length x
                      /\ length (node_embeddings out) = length x).
Proof.
  intros (Hs & Ha & Hso & Hh & Hm). unfold forward.
  eapply returns_bind with
    (P := fun h : list (list R) => length h = length x).
  { unfold SunFiLM.forward.
    eapply returns_bind with (P := fun _ => True).
    - destruct (training net); [apply returns_draw | by apply returns_ret].
    - intros h _. apply returns_ret.
      by rewrite length_map, conv_rounds_length, length_map. }
  intros h Hlen.
  destruct Hs as [ms Hs], Ha as [ma Ha], Hso as [mso Hso], Hh as [mh Hh], Hm as [mm Hm].
  unfold mask_item. rewrite Hs, Ha, Hso, Hh, Hm. cbn [from_option].
  repeat (eapply returns_bind; [by eapply returns_lift|]; intros ? _).
  apply returns_ret. cbn [codon_scores node_embeddings].
  by rewrite !length_map.
Qed.

End ForwardFacts.

(** ** The engine *)

Section EngineFacts.
Context `{rt : Runtime}.
Import Core VirtualConsciousnessEngine.

Lemma intention_features_off_rng_free e q : rng_free (intention_features e q false).
Proof.
  unfold intention_features. apply rng_free_bind; [apply rng_free_lift|].
  intros nf. apply rng_free_ret.
Qed.

Lemma observe_rng_free e q nf sc :
  QuantumHDNet.training (quantum_net e) = false -> rng_free (observe e q nf sc).
Proof.
  intros Heval. unfold observe.
  apply rng_free_bind; [by apply forward_eval_rng_free|]. intros out.
  apply rng_free_bind.
  { destruct (_consciousness_initialized e); [apply rng_free_ret | apply rng_free_lift]. }
  intros nb. apply rng_free_bind; [apply rng_free_lift|]. intros fs.
  apply rng_free_ret.
Qed.

Lemma query_off_rng_free e q obs :
  QuantumHDNet.training (quantum_net e) = false -> rng_free (query e q obs false).
Proof.
  intros Heval. unfold query.
  apply rng_free_bind; [apply intention_features_off_rng_free|]. intros nf.
  apply rng_free_bind; [apply rng_free_lift|]. intros sc.
  by apply observe_rng_free.
Qed.

(** C1 (determinism).  On an engine whose network is in eval mode, a query
    without intention perturbation leaves the generator where it was and
    returns the same response from every generator state; and a second
    query, on the engine as the first one left it, returns the same
    response again (per-gate scores, field states and all the rest). *)
Theorem query_deterministic (e : VirtualConsciousnessEngine.t) (q : string)
    (obs : option (gmap string Core.Placement))
    (rng : RngState) (resp : VirtualConsciousnessResponse)
    (e' : VirtualConsciousnessEngine.t) (rng' : RngState) :
  QuantumHDNet.training (quantum_net e) = false ->
  query e q obs false rng = Ok ((resp, e'), rng') ->
  rng' = rng /\
  (forall rng2, query e q obs false rng2 = Ok ((resp, e'), rng2)) /\
  (forall rng2, query e' q obs false rng2 = Ok ((resp, e'), rng2)).
Proof.
  intros Heval Hrun.
  destruct (rng_free_run _ _ _ _ (query_off_rng_free e q obs Heval) Hrun) as [-> Hany].
  split; [reflexivity|]. split; [exact Hany|].
  clear Hany. unfold query in Hrun. unfold mbind at 1, Torch_bind at 1 in Hrun.
  destruct (intention_features e q false rng) as [[nf rng1]|err] eqn:H1; [|discriminate].
  unfold mbind at 1, Torch_bind at 1 in Hrun.
  destruct (lift (observer_sun_context e obs) rng1) as [[sc rng2]|err] eqn:H2; [|discriminate].
  unfold observe in Hrun. unfold mbind at 1, Torch_bind at 1 in Hrun.
  destruct (QuantumHDNet.forward _ _ _ _ _ rng2) as [[out rng3]|err] eqn:H3; [|discriminate].
  unfold mbind at 1, Torch_bind at 1 in Hrun.
  match type of Hrun with
  | match ?m rng3 with _ => _ end = _ =>
      destruct (m rng3) as [[nb rng4]|err] eqn:H4; [|discriminate]
  end.
  unfold mbind at 1, Torch_bind at 1 in Hrun.
  match type of Hrun with
  | match ?m rng4 with _ => _ end = _ =>
      destruct (m rng4) as [[fs rng5]|err] eqn:H5; [|discriminate]
  end.
  unfold mret, Torch_ret in Hrun. injection Hrun as <- <- <-.
  apply (rng_free_run _ _ _ _ (intention_features_off_rng_free e q)) in H1 as [_ H1].
  apply (rng_free_run _ _ _ _ (rng_free_lift _)) in H2 as [_ H2].
  apply (rng_free_run _ _ _ _ (forward_eval_rng_free _ _ _ _ _ Heval)) in H3 as [_ H3].
  apply (rng_free_run _ _ _ _ (rng_free_lift _)) in H5 as [_ H5].
  intros rngX. unfold query, observe, intention_features.
  cbn [birth_placements encoder quantum_net body_sun awareness_masks edge_index
       nine_body _consciousness_initialized observer_sun_context].
  unfold intention_features in H1.
  unfold mbind at 1, Torch_bind at 1. rewrite H1.
  unfold mbind at 1, Torch_bind at 1.
  change (lift (observer_sun_context e obs) rngX) with (lift (observer_sun_context e obs) rngX) .
  unfold observer_sun_context in H2 |- *.
  cbn [birth_placements encoder quantum_net body_sun awareness_masks edge_index
       nine_body _consciousness_initialized].
  rewrite H2.
  unfold mbind at 1, Torch_bind at 1. rewrite H3.
  unfold mbind at 1, Torch_bind at 1. unfold mret at 1, Torch_ret at 1.
  unfold mbind at 1, Torch_bind at 1. rewrite H5.
  reflexivity.
Qed.

Lemma encoder_init_returns d :
  returns (QuantumFieldEncoder.__init__ d)
          (fun enc => QuantumFieldEncoder.embedding_dim enc = d).
Proof.
  unfold QuantumFieldEncoder.__init__.
  eapply returns_bind; [apply returns_draw|]. intros pe _.
  eapply returns_bind; [apply returns_draw|]. intros le _.
  by apply returns_ret.
Qed.

Lemma create_model_returns a b :
  returns (QuantumHDNet.create_model a b) (fun _ => True).
Proof.
  unfold QuantumHDNet.create_model, QuantumHDNet.__init__, SunFiLM.__init__.
  repeat (eapply returns_bind;
          [first [apply returns_draw | apply returns_mapM_draw
                 | eapply returns_bind; [apply returns_draw|]; intros ? _;
                   eapply returns_bind; [apply returns_draw|]; intros ? _;
                   by apply (returns_ret _ (fun _ => True))]|];
          intros ? _).
  by apply returns_ret.
Qed.

(** The constructor returns, with the network in eval mode. *)
Lemma engine_init_returns ps pre :
  returns (__init__ ps pre) (fun e => birth_placements e = ps /\ engine_ready e).
Proof.
  unfold __init__.
  eapply returns_bind; [apply encoder_init_returns|]. intros enc Henc.
  eapply returns_bind; [apply create_model_returns|]. intros net _.
  destruct (get_awareness_masks_ok enc) as (masks & Hmasks & Hok).
  eapply returns_bind; [eapply returns_lift; [exact Hmasks | exact Hok]|].
  intros masks' Hok'. apply returns_ret.
  split; [reflexivity|]. unfold engine_ready.
  cbn [encoder awareness_masks body_sun quantum_net _consciousness_initialized nine_body
       birth_placements].
  rewrite Henc. repeat split; try reflexivity; try apply Hok'.
Qed.

Lemma engine_init_spec ps pre rng e rng' :
  __init__ ps pre rng = Ok (e, rng') -> birth_placements e = ps /\ engine_ready e.
Proof.
  intros Hrun. destruct (engine_init_returns ps pre rng) as (e0 & rng0 & Hrun0 & Hprops).
  rewrite Hrun in Hrun0. by injection Hrun0 as -> ->.
Qed.

Lemma find_body_sun_None ps :
  (forall p, p ∈ ps -> ~ (planet p = "Sun" /\ stream p = BODY)) ->
  _find_body_sun ps = None.
Proof.
  unfold _find_body_sun. induction ps as [|p ps IH]; intros Hno; simpl; [reflexivity|].
  destruct (bool_decide (planet p = "Sun") && is_body (stream p)) eqn:Hp.
  - exfalso. apply andb_prop in Hp as [Hsun Hbody].
    apply bool_decide_eq_true_1 in Hsun.
    apply (Hno p); [by left|]. split; [exact Hsun|]. by destruct (stream p).
  - apply IH. intros q Hq. apply Hno. by right.
Qed.

Lemma find_body_sun_elem_of ps sun : _find_body_sun ps = Some sun -> sun ∈ ps.
Proof.
  unfold _find_body_sun. intros H. apply find_some in H as [H _]. by apply list_elem_of_In.
Qed.

Lemma intention_features_returns e q uip :
  randn_contract ->
  Nat.even (QuantumFieldEncoder.embedding_dim (encoder e)) = true ->
  Forall wf_placement (birth_placements e) ->
  returns (intention_features e q uip) (fun nf => length nf = 64%nat).
Proof.
  intros Hrandn Heven Hwf. unfold intention_features.
  destruct (encode_placements_ok (encoder e) (birth_placements e) Heven Hwf)
    as (rows & Hrows & Hlen).
  eapply returns_bind;
    [exact (returns_lift _ _ (fun nf => length nf = 64%nat) Hrows Hlen)|].
  intros nf Hnf. destruct uip; [|by apply returns_ret].
  eapply returns_bind with (P := fun pert : list R => length pert = 64%nat).
  - unfold QuantumFieldEncoder.create_intention_perturbation.
    eapply returns_bind; [by apply returns_randn|]. intros noise Hnoise.
    eapply returns_bind; [apply encoder_init_returns|]. intros enc Henc.
    destruct (encode_placements_ok enc (birth_placements e)) as (base & Hbase & Hblen);
      [by rewrite Henc | exact Hwf|].
    eapply returns_bind;
      [exact (returns_lift _ _ (fun b => length b = 64%nat) Hbase Hblen)|].
    intros base' Hbase'. apply returns_ret.
    cbv beta in *. rewrite length_zip_with, !length_map. lia.
  - intros pert Hpert. apply returns_ret. cbv beta in *. rewrite length_zip_with. lia.
Qed.

(** A freshly built engine over placements within range answers every
    query without an observer override. *)
Lemma query_returns e q uip :
  topk_contract -> randn_contract ->
  engine_ready e -> Forall wf_placement (birth_placements e) ->
  returns (query e q None uip) (fun _ => True).
Proof.
  intros Htopk Hrandn (Heven & Hmasks & Hsun & Heval & Hinit & Hnb) Hwf.
  unfold query.
  eapply returns_bind; [by apply intention_features_returns|]. intros nf Hnf.
  assert (Hsc : exists sc, observer_sun_context e None = Ok sc).
  { unfold observer_sun_context. cbn [mbind option_bind].
    destruct (body_sun e) as [sun|] eqn:Hbs; [|by eexists].
    apply encode_sun_context_ok.
    rewrite Forall_forall in Hwf. apply Hwf.
    apply find_body_sun_elem_of. congruence. }
  destruct Hsc as [sc Hsc].
  eapply returns_bind; [eapply returns_lift with (P := fun _ => True); [exact Hsc | exact I]|].
  intros sc' _. unfold observe.
  eapply returns_bind; [by apply forward_ok|]. intros out [Hscores Hemb].
  rewrite Hinit, Hnb.
  destruct (initialize_ok (QuantumHDNet.node_embeddings out)) as (nb & Hnb' & Hflds);
    [congruence|].
  eapply returns_bind;
    [exact (returns_lift _ _
              (fun nb => forall n fld,
                   (n, fld) ∈ NineBodyConsciousness.fields nb -> field_ok fld)
              Hnb' Hflds)|].
  intros nb' Hflds'.
  destruct (collapse_all_fields_ok nb' (QuantumHDNet.codon_scores out)
              (QuantumHDNet.awareness out) (QuantumHDNet.awareness_vectors out)
              Htopk Hflds') as [states Hstates]; [congruence|].
  eapply returns_bind; [eapply returns_lift with (P := fun _ => True);
                        [exact Hstates | exact I]|].
  intros fs _. by apply returns_ret.
Qed.

(** C7 (observer fallback).  An engine built from placements without a
    body-stream Sun, queried without an observer override, takes the
    all-zero vector of width 80 as observer context: computing the context
    raises nothing, and the query is the forward pass and collapse run on
    that vector. *)
Theorem query_zero_observer_fallback (ps : list Placement)
    (pretrained : option QuantumHDNet.t) (rng : RngState)
    (e : VirtualConsciousnessEngine.t) (rng' : RngState)
    (obs : option (gmap string Placement)) (q : string) (uip : bool) :
  (forall p, p ∈ ps -> ~ (planet p = "Sun" /\ stream p = BODY)) ->
  obs ≫= (fun d => d !! "sun_placement") = None ->
  VirtualConsciousnessEngine.__init__ ps pretrained rng = Ok (e, rng') ->
  observer_sun_context e obs = Ok (zeros 80) /\
  zeros 80 = replicate 80 0 /\
  VirtualConsciousnessEngine.query e q obs uip
  = (nf ← intention_features e q uip; observe e q nf (zeros 80)).
Proof.
  intros Hnosun Hobs Hinit.
  apply engine_init_spec in Hinit as [Hps (_ & _ & Hsun & _)].
  rewrite Hps in Hsun. rewrite (find_body_sun_None _ Hnosun) in Hsun.
  assert (Hctx : observer_sun_context e obs = Ok (zeros 80)).
  { unfold observer_sun_context. by rewrite Hobs, Hsun. }
  split; [exact Hctx|]. split; [reflexivity|].
  unfold VirtualConsciousnessEngine.query. rewrite Hctx. reflexivity.
Qed.

End EngineFacts.

(** ** The adjustable layer *)

Section AdjustableFacts.
Context `{rt : Runtime}.
Import Core VirtualConsciousnessEngine AdjustableConsciousness.

(** C8 (adjustment clamping).  A system with score [s] and a configured
    sensitivity [f] gets the adjusted score min(1, max(0, s * f)), which
    lies in [0, 1] whatever the magnitude or sign of [f]; a system without
    a configured sensitivity keeps its score. *)
Theorem awareness_adjustment_clamped (self : AdjustableConsciousness.t)
    (response : VirtualConsciousnessResponse) (system : string) (s : R) :
  awareness_scores response !! system = Some s ->
  (forall f : R,
      awareness_sensitivity (config self) !! system = Some f ->
      awareness_scores (_apply_awareness_adjustments self response) !! system
        = Some (Rmin 1 (Rmax 0 (s * f))) /\
      0 <= Rmin 1 (Rmax 0 (s * f)) <= 1) /\
  (awareness_sensitivity (config self) !! system = None ->
      awareness_scores (_apply_awareness_adjustments self response) !! system = Some s).
Proof.
  intros Hs. unfold _apply_awareness_adjustments; simpl.
  rewrite map_lookup_imap, Hs; simpl. unfold adjusted_score.
  split.
  - intros f Hf. rewrite Hf, py_min_Rmin, py_max_Rmax.
    split; [reflexivity | apply clamp_bounds].
  - intros Hnone. rewrite Hnone. reflexivity.
Qed.

Lemma composite_wf self ut up :
  adjustable_ready self ->
  Forall wf_placement (_build_composite_placements self ut up).
Proof.
  intros (Hn & Ht & Hp). unfold _build_composite_placements.
  assert (H1 : Forall wf_placement
                 match current_transits self with
                 | Some (p :: l) => if ut then natal_placements self ++ p :: l
                                    else natal_placements self
                 | _ => natal_placements self
                 end).
  { destruct (current_transits self) as [[|p l]|] eqn:E; try exact Hn.
    destruct ut; [|exact Hn]. apply Forall_app. split; [exact Hn | by apply Ht]. }
  destruct (current_progressions self) as [[|p l]|] eqn:E; try exact H1.
  destruct up; [|exact H1]. apply Forall_app. split; [exact H1 | by apply Hp].
Qed.

Lemma run_query_returns self q ut up flag :
  topk_contract -> randn_contract -> adjustable_ready self ->
  returns (run_query self q ut up flag)
          (fun r => config r.2 = config self
                    /\ natal_placements r.2 = natal_placements self
                    /\ current_transits r.2 = current_transits self
                    /\ current_progressions r.2 = current_progressions self).
Proof.
  intros Htopk Hrandn Hready. unfold run_query.
  eapply returns_bind; [apply engine_init_returns|]. intros e [Hps He].
  eapply returns_bind.
  { apply query_returns; [exact Htopk | exact Hrandn | exact He|].
    rewrite Hps. by apply composite_wf. }
  intros [resp e'] _. by apply returns_ret.
Qed.

(** A sweep over any list of configurations returns. *)
Lemma compare_configurations_returns self q configs :
  topk_contract -> randn_contract -> adjustable_ready self ->
  returns (compare_configurations self q configs) (fun _ => True).
Proof.
  intros Htopk Hrandn Hready. unfold compare_configurations.
  eapply returns_bind with
    (P := fun acc : list (string * VirtualConsciousnessResponse) * AdjustableConsciousness.t =>
            adjustable_ready acc.2).
  - apply returns_foldM; [|exact Hready].
    intros [results s] [i c] Hs. unfold compare_step. cbn [fst snd] in *.
    eapply returns_bind.
    + apply run_query_returns; [exact Htopk | exact Hrandn|].
      destruct Hs as (Hn & Ht & Hp). by repeat split.
    + intros [resp s'] (_ & Hn' & Ht' & Hp'). apply returns_ret.
      cbn [fst snd natal_placements current_transits current_progressions set_config] in *.
      destruct Hs as (Hn & Ht & Hp). unfold adjustable_ready.
      rewrite Hn', Ht', Hp'. by repeat split.
  - intros [results s] _. by apply returns_ret.
Qed.

(** C9 (configuration restored).  When [compare_configurations] returns,
    the [config] field holds the configuration it held before the call. *)
Theorem compare_configurations_restores_config (self : AdjustableConsciousness.t)
    (q : string) (configs : list ConsciousnessConfiguration) (rng : RngState)
    (results : list (string * VirtualConsciousnessResponse))
    (self' : AdjustableConsciousness.t) (rng' : RngState) :
  compare_configurations self q configs rng = Ok ((results, self'), rng') ->
  config self' = config self.
Proof.
  unfold compare_configurations. unfold mbind at 1, Torch_bind at 1.
  match goal with
  | |- match ?m rng with _ => _ end = _ -> _ =>
      destruct (m rng) as [[[res s] rng1]|err]; [|discriminate]
  end.
  unfold mret, Torch_ret. intros [= <- <- <-]. reflexivity.
Qed.

(** C10 (intention strength).  [query] depends on [intention_strength]
    through the test [intention_strength > 0] only: two positive strengths
    give the same computation, a strength that is not positive gives the
    computation with the perturbation switched off, and with it switched
    off the node features are the plain encoding of the placements. *)
Theorem intention_strength_only_sign (self : AdjustableConsciousness.t)
    (q : string) (ut up : bool) :
  (forall a b : R, 0 < a -> 0 < b ->
     AdjustableConsciousness.query self q ut up a
     = AdjustableConsciousness.query self q ut up b) /\
  (forall a : R, a <= 0 ->
     AdjustableConsciousness.query self q ut up a = run_query self q ut up false) /\
  (forall (e : VirtualConsciousnessEngine.t) (rng : RngState),
     intention_features e q false rng
     = lift (QuantumFieldEncoder.encode_placements (encoder e) (birth_placements e)) rng).
Proof.
  repeat split.
  - intros a b Ha Hb. unfold AdjustableConsciousness.query.
    destruct (Rlt_dec 0 a), (Rlt_dec 0 b); try reflexivity; lra.
  - intros a Ha. unfold AdjustableConsciousness.query.
    destruct (Rlt_dec 0 a); [lra | reflexivity].
  - intros e rng. unfold intention_features, mbind, Torch_bind, lift.
    by destruct (QuantumFieldEncoder.encode_placements _ _).
Qed.

Lemma adjustable_init_returns (natal : list Core.Placement) (dt : Z)
    (loc : R * R) (cfg : AdjustableConsciousness.ConsciousnessConfiguration) :
  returns (AdjustableConsciousness.__init__ natal dt loc (Some cfg))
          (fun self => AdjustableConsciousness.config self = cfg
                       /\ AdjustableConsciousness.natal_placements self = natal
                       /\ AdjustableConsciousness.current_transits self = None
                       /\ AdjustableConsciousness.current_progressions self = None).
Proof.
  unfold AdjustableConsciousness.__init__.
  eapply returns_bind; [apply engine_init_returns|]. intros e _.
  by apply returns_ret.
Qed.

End AdjustableFacts.

(** ** The example data *)

Lemma higher_field_built :
  ConsciousnessField.__init__ "Higher" (replicate 64 []) = Ok Examples.higher_field.
Proof. vm_compute. reflexivity. Qed.

Lemma mind_field_built :
  ConsciousnessField.__init__ "Mind" (replicate 64 []) = Ok Examples.mind_field.
Proof. vm_compute. reflexivity. Qed.

Lemma higher_gates_nodup : NoDup (ConsciousnessField.gates Examples.higher_field).
Proof. by apply (bool_decide_unpack _). Qed.

(** The field Higher under the reference runtime, every gate at the same
    score: the dominant gates come in the order of the gate set. *)
Lemma higher_equal_scores (c : R) :
  exists st,
    ConsciousnessField.collapse_to_state (rt := Reference.runtime)
      Examples.higher_field (replicate 64 c) ∅ ∅ = Ok st
    /\ dominant_gates st = [64; 61; 63]%Z.
Proof.
  unfold ConsciousnessField.collapse_to_state.
  change (mapM (tensor_get (replicate 64 c))
            (ConsciousnessField.gate_indices Examples.higher_field))
    with (Ok [c; c; c]).
  cbn [mbind result_bind].
  change (Nat.min 3 (length (ConsciousnessField.gate_indices Examples.higher_field)))
    with 3%nat.
  change (topk 3 [c; c; c]) with (Reference.topk_stable 3 [c; c; c]).
  rewrite topk_stable_equal3.
  change (mapM (fun i : nat =>
                  tensor_get (ConsciousnessField.gates Examples.higher_field) (Z.of_nat i))
               [0; 1; 2]%nat) with (Ok [64; 61; 63]%Z).
  cbn [mbind result_bind].
  eexists. split; [reflexivity | reflexivity].
Qed.

Lemma example_fields_ok :
  forall n fld, (n, fld) ∈ NineBodyConsciousness.fields Examples.two_bodies -> field_ok fld.
Proof.
  assert (Hok : forall fld, fld = Examples.mind_field \/ fld = Examples.higher_field ->
                            field_ok fld).
  { intros fld [-> | ->]; (split; [reflexivity|]); (split; [by apply (bool_decide_unpack _)|]);
      (split; [by apply (bool_decide_unpack _) | by eexists]). }
  intros n fld Hin. apply Hok. simpl in Hin.
  apply elem_of_cons in Hin as [[= _ ->]|Hin]; [by left|].
  apply list_elem_of_singleton in Hin as [= _ ->]. by right.
Qed.

Lemma half_scores_length : length Examples.half_scores = 64%nat.
Proof. apply length_replicate. Qed.

Lemma no_body_sun_has_none (p : Core.Placement) :
  p ∈ Examples.no_body_sun -> ~ (Core.planet p = "Sun" /\ Core.stream p = Core.BODY).
Proof.
  intros Hp [Hs Hb]. apply elem_of_cons in Hp as [->|Hp]; [discriminate Hs|].
  apply list_elem_of_singleton in Hp as ->. discriminate Hb.
Qed.

Lemma natal_wf : Forall wf_placement Examples.natal.
Proof. repeat constructor; simpl; lia. Qed.

(** ** The theorems at the example data *)

(** C1 at the reference runtime: the engine of the docstring's chart,
    queried twice without perturbation. *)
Lemma query_deterministic_witness :
  exists e rng resp e' rng',
    VirtualConsciousnessEngine.__init__ (rt := Reference.runtime)
      Examples.natal None 0%nat = Ok (e, rng)
    /\ VirtualConsciousnessEngine.query e "What is my life purpose?" None false rng
       = Ok ((resp, e'), rng')
    /\ rng' = rng
    /\ VirtualConsciousnessEngine.query e' "What is my life purpose?" None false rng'
       = Ok ((resp, e'), rng').
Proof.
  destruct (@engine_init_returns Reference.runtime Examples.natal None 0%nat)
    as (e & rng & Hinit & Hps & Hready).
  assert (Hwf : Forall wf_placement (VirtualConsciousnessEngine.birth_placements e)).
  { rewrite Hps. exact natal_wf. }
  destruct (@query_returns Reference.runtime e "What is my life purpose?" false
              topk_stable_contract reference_randn_contract Hready Hwf rng)
    as ([resp e'] & rng' & Hrun & _).
  destruct (@query_deterministic Reference.runtime e "What is my life purpose?" None
              rng resp e' rng' (proj1 (proj2 (proj2 (proj2 Hready)))) Hrun)
    as (Hrng & _ & Hagain).
  exists e, rng, resp, e', rng'.
  split; [exact Hinit|]. split; [exact Hrun|]. split; [exact Hrng|]. apply Hagain.
Defined.

(** C2 (as amended) at the reference runtime: the field Higher with every
    gate at 0.5. *)
Lemma dominant_gates_top3_witness :
  exists st,
    ConsciousnessField.collapse_to_state (rt := Reference.runtime)
      Examples.higher_field Examples.half_scores ∅ ∅ = Ok st
    /\ length (dominant_gates st)
       = Nat.min 3 (length (ConsciousnessField.gates Examples.higher_field))
    /\ NoDup (dominant_gates st)
    /\ (forall g, g ∈ dominant_gates st -> g ∈ ConsciousnessField.gates Examples.higher_field).
Proof.
  destruct (higher_equal_scores (1 / 2)) as (st & Hst & _).
  exists st. split; [exact Hst|].
  destruct (@dominant_gates_top3 Reference.runtime Examples.higher_field
              Examples.half_scores ∅ ∅ st topk_stable_contract
              higher_gates_nodup eq_refl Hst) as (H1 & H2 & H3 & _).
  split; [exact H1|]. split; [exact H2 | exact H3].
Defined.

(** C2 as stated fails: with equal scores throughout, a stable [topk]
    ranks the gates of the field Higher in the order of the gate set,
    64, 61, 63, and so gate 64 before the lower-numbered gate 61. *)
Lemma equal_scores_not_ranked_by_gate_number :
  exists st,
    ConsciousnessField.__init__ "Higher" (replicate 64 []) = Ok Examples.higher_field
    /\ ConsciousnessField.collapse_to_state (rt := Reference.runtime)
         Examples.higher_field Examples.half_scores ∅ ∅ = Ok st
    /\ dominant_gates st = [64; 61; 63]%Z
    /\ ~ ConsciousnessField.lower_gate_first Examples.half_scores (dominant_gates st).
Proof.
  destruct (higher_equal_scores (1 / 2)) as (st & Hst & Hdom).
  exists st. split; [exact higher_field_built|]. split; [exact Hst|].
  split; [exact Hdom|]. rewrite Hdom. intros Hlow.
  specialize (Hlow 1%nat 0%nat 61%Z 64%Z (1 / 2) eq_refl eq_refl eq_refl eq_refl).
  lia.
Qed.

(** C3 (as amended): a Chiron placement between the Sun and the Moon. *)
Lemma unknown_planet_ignored_witness :
  QuantumFieldEncoder._encode_gate_placements Examples.encoder64
    ([Examples.sun] ++ Examples.chiron :: [Examples.moon])
  = QuantumFieldEncoder._encode_gate_placements Examples.encoder64
      ([Examples.sun] ++ [Examples.moon]).
Proof.
  apply (unknown_planet_ignored Examples.encoder64 [Examples.sun] [Examples.moon]
           Examples.chiron).
  reflexivity.
Defined.

(** C3 as stated fails: a lone Chiron placement on line 3 leaves the line
    histogram at zero, where the histogram of the specification has 1 in
    the bin of line 3. *)
Lemma unknown_planet_not_in_line_histogram :
  exists feat,
    dict_get (Core.planet Examples.chiron) QuantumFieldEncoder.planet_to_idx = None
    /\ QuantumFieldEncoder._encode_gate_placements Examples.encoder64 [Examples.chiron]
       = Ok feat
    /\ QuantumFieldEncoder.line_histogram feat !! 2%nat = Some 0
    /\ QuantumFieldEncoder.spec_line_histogram [Examples.chiron] !! 2%nat = Some 1
    /\ QuantumFieldEncoder.line_histogram feat
       <> QuantumFieldEncoder.spec_line_histogram [Examples.chiron].
Proof.
  exists (zeros 32). split; [reflexivity|].
  split; [exact (encode_only_unknown Examples.encoder64 Examples.chiron eq_refl)|].
  split; [reflexivity|].
  assert (Hspec : QuantumFieldEncoder.spec_line_histogram [Examples.chiron] !! 2%nat
                  = Some 1).
  { simpl. f_equal. lra. }
  split; [exact Hspec|].
  intros Heq. rewrite <- Heq in Hspec.
  assert (Hcode : QuantumFieldEncoder.line_histogram (zeros 32) !! 2%nat = Some 0)
    by reflexivity.
  rewrite Hcode in Hspec. injection Hspec as Hbad. lra.
Qed.

(** C6 at the reference runtime: the fields Mind and Higher with every
    gate at 0.5. *)
Lemma resonance_symmetric_witness :
  exists states stA stB,
    NineBodyConsciousness.collapse_all_fields (rt := Reference.runtime)
      Examples.two_bodies Examples.half_scores ∅ ∅ = Ok states
    /\ dict_get "Mind" states = Some stA
    /\ dict_get "Higher" states = Some stB
    /\ resonance stA !! "Higher" = resonance stB !! "Mind"
    /\ is_Some (resonance stA !! "Higher").
Proof.
  destruct (@collapse_all_fields_ok Reference.runtime Examples.two_bodies
              Examples.half_scores ∅ ∅ topk_stable_contract example_fields_ok
              half_scores_length) as [states Hstates].
  destruct (@collapse_all_fields_keys Reference.runtime _ _ _ _ _ "Mind" Hstates)
    as [stA HA]; [by apply (bool_decide_unpack _)|].
  destruct (@collapse_all_fields_keys Reference.runtime _ _ _ _ _ "Higher" Hstates)
    as [stB HB]; [by apply (bool_decide_unpack _)|].
  exists states, stA, stB.
  split; [exact Hstates|]. split; [exact HA|]. split; [exact HB|].
  assert (Hne : "Mind" <> "Higher") by discriminate.
  destruct (@resonance_symmetric Reference.runtime Examples.two_bodies
              Examples.half_scores ∅ ∅ states "Mind" "Higher" stA stB
              Hstates Hne HA HB) as (H1 & H2 & _).
  split; [by rewrite H1, H2 | rewrite H1; by eexists].
Defined.

(** C7 at the reference runtime: a chart whose only Sun is in the design
    stream. *)
Lemma query_zero_observer_fallback_witness :
  exists e rng,
    VirtualConsciousnessEngine.__init__ (rt := Reference.runtime)
      Examples.no_body_sun None 0%nat = Ok (e, rng)
    /\ VirtualConsciousnessEngine.observer_sun_context e None = Ok (zeros 80)
    /\ VirtualConsciousnessEngine.query e "test" None false
       = (nf ← VirtualConsciousnessEngine.intention_features e "test" false;
          VirtualConsciousnessEngine.observe e "test" nf (zeros 80)).
Proof.
  destruct (@engine_init_returns Reference.runtime Examples.no_body_sun None 0%nat)
    as (e & rng & Hinit & _).
  exists e, rng. split; [exact Hinit|].
  destruct (@query_zero_observer_fallback Reference.runtime Examples.no_body_sun None
              0%nat e rng None "test" false no_body_sun_has_none eq_refl Hinit)
    as (H1 & _ & H3).
  split; [exact H1 | exact H3].
Defined.

(** C8 at the example of the specification: a sensitivity of 5.0 on a
    score of 0.5 clamps to 1.0. *)
Lemma awareness_adjustment_clamped_witness :
  exists self rng,
    AdjustableConsciousness.__init__ (rt := Reference.runtime)
      Examples.natal 0%Z (0, 0) (Some Examples.amplified) 0%nat = Ok (self, rng)
    /\ VirtualConsciousnessEngine.awareness_scores
         (AdjustableConsciousness._apply_awareness_adjustments self Examples.sample_response)
       !! "spleen" = Some (Rmin 1 (Rmax 0 (1 / 2 * 5)))
    /\ Rmin 1 (Rmax 0 (1 / 2 * 5)) = 1.
Proof.
  destruct (@adjustable_init_returns Reference.runtime Examples.natal 0%Z (0, 0)
              Examples.amplified 0%nat) as (self & rng & Hinit & Hcfg & _).
  exists self, rng. split; [exact Hinit|].
  destruct (@awareness_adjustment_clamped Reference.runtime self Examples.sample_response
              "spleen" (1 / 2) eq_refl) as [Hsome _].
  split.
  - apply (Hsome 5). rewrite Hcfg. reflexivity.
  - unfold Rmin, Rmax. destruct (Rle_dec 0 (1 / 2 * 5)); [|lra].
    destruct (Rle_dec 1 (1 / 2 * 5)); lra.
Defined.

(** C9 at the reference runtime: a sweep over two configurations. *)
Lemma compare_configurations_restores_config_witness :
  exists self rng results self' rng',
    AdjustableConsciousness.__init__ (rt := Reference.runtime)
      Examples.natal 0%Z (0, 0) (Some Examples.amplified) 0%nat = Ok (self, rng)
    /\ AdjustableConsciousness.compare_configurations self "test"
         [Examples.muted; Examples.amplified] rng = Ok ((results, self'), rng')
    /\ AdjustableConsciousness.config self' = AdjustableConsciousness.config self.
Proof.
  destruct (@adjustable_init_returns Reference.runtime Examples.natal 0%Z (0, 0)
              Examples.amplified 0%nat) as (self & rng & Hinit & _ & Hn & Ht & Hp).
  assert (Hready : adjustable_ready self).
  { split; [rewrite Hn; exact natal_wf|]. split; intros l Hl; congruence. }
  destruct (@compare_configurations_returns Reference.runtime self "test"
              [Examples.muted; Examples.amplified]
              topk_stable_contract reference_randn_contract Hready rng)
    as ([results self'] & rng' & Hrun & _).
  exists self, rng, results, self', rng'.
  split; [exact Hinit|]. split; [exact Hrun|].
  exact (@compare_configurations_restores_config Reference.runtime self "test"
           [Examples.muted; Examples.amplified] rng results self' rng' Hrun).
Defined.


(** ** Further properties of the static tables and of the pipeline *)

Section FurtherFacts.
Context `{rt : Runtime}.
Import Core.

(** X1 (edge endpoints).  Every endpoint of every edge that
    [get_channel_edges] builds is a gate number in 1..64, and every
    endpoint of the 0-based edge index is in 0..63. *)
Theorem channel_edges_in_range :
  Forall (fun e : Z * Z => (1 <= e.1 <= 64)%Z /\ (1 <= e.2 <= 64)%Z) get_channel_edges /\
  Forall (fun e : Z * Z => (0 <= e.1 <= 63)%Z /\ (0 <= e.2 <= 63)%Z)
         (QuantumFieldEncoder.get_edge_index Examples.encoder64).
Proof.
  split; apply (bool_decide_unpack _); vm_compute; reflexivity.
Qed.

(** X2 (centers partition the gates).  Every gate 1..64 belongs to exactly
    one of the nine centers, and [gate_to_center] finds it. *)
Theorem centers_partition_gates :
  Forall (fun g : Z =>
            length (filter (fun c : string * list Z => g ∈ c.2) CENTERS) = 1%nat
            /\ is_Some (gate_to_center g))
         (seqZ 1 64).
Proof.
  apply (bool_decide_unpack _). vm_compute. reflexivity.
Qed.

(** X3 (awareness systems).  Every gate of every awareness system, and of
    the heart gates, is a gate number in 1..64. *)
Theorem awareness_systems_in_range :
  Forall (fun s : string * list Z => Forall (fun g => (1 <= g <= 64)%Z) s.2)
         AWARENESS_SYSTEMS
  /\ Forall (fun g => (1 <= g <= 64)%Z) HEART_GATES.
Proof.
  split; apply (bool_decide_unpack _); vm_compute; reflexivity.
Qed.

End FurtherFacts.

Section FurtherPipelineFacts.
Context `{rt : Runtime}.
Import Core VirtualConsciousnessEngine AdjustableConsciousness.

(** X4 (field emphasis).  After the field-emphasis adjustment, the
    activation of every field that has a configured emphasis is at most 1. *)
Theorem field_emphasis_capped (self : AdjustableConsciousness.t)
    (response : VirtualConsciousnessResponse) (name : string) (st : ConsciousnessState) :
  (name, st) ∈ field_states (_apply_field_adjustments self response) ->
  is_Some (field_emphasis (config self) !! name) ->
  activation st <= 1.
Proof.
  unfold _apply_field_adjustments. cbn [field_states].
  change (map ?f ?l) with (f <$> l). intros Hin Hsome.
  apply list_elem_of_fmap in Hin as ([n0 s0] & Heq & _).
  destruct (field_emphasis (config self) !! n0) as [emphasis|] eqn:Hn0.
  - injection Heq as -> ->. cbn [activation set_activation].
    rewrite py_min_Rmin. apply Rmin_l.
  - injection Heq as -> ->. rewrite Hn0 in Hsome. by destruct Hsome.
Qed.

(** X5 (a query returns).  On a runtime that keeps the contracts of [topk]
    and [randn], an engine built from placements within the documented
    ranges answers every query without an observer override, with or
    without intention perturbation: it raises nothing. *)
Theorem query_total (ps : list Placement) (pretrained : option QuantumHDNet.t)
    (rng0 : RngState) (e : VirtualConsciousnessEngine.t) (rng1 : RngState)
    (q : string) (uip : bool) :
  topk_contract -> randn_contract ->
  Forall wf_placement ps ->
  VirtualConsciousnessEngine.__init__ ps pretrained rng0 = Ok (e, rng1) ->
  forall rng, exists resp e' rng',
    VirtualConsciousnessEngine.query e q None uip rng = Ok ((resp, e'), rng').
Proof.
  intros Htopk Hrandn Hwf Hinit rng.
  apply engine_init_spec in Hinit as [Hps Hready].
  destruct (query_returns e q uip Htopk Hrandn Hready) with (rng := rng)
    as ([resp e'] & rng' & Hrun & _); [by rewrite Hps|].
  by exists resp, e', rng'.
Qed.

End FurtherPipelineFacts.

(** X4 at the example data: an activation of 3 under an emphasis of 1. *)
Lemma field_emphasis_capped_witness :
  exists self rng,
    AdjustableConsciousness.__init__ (rt := Reference.runtime)
      Examples.natal 0%Z (0, 0) (Some Examples.amplified) 0%nat = Ok (self, rng)
    /\ forall st,
         ("Mind", st) ∈ VirtualConsciousnessEngine.field_states
                          (AdjustableConsciousness._apply_field_adjustments self
                             Examples.strong_response) ->
         activation st <= 1.
Proof.
  destruct (@adjustable_init_returns Reference.runtime Examples.natal 0%Z (0, 0)
              Examples.amplified 0%nat) as (self & rng & Hinit & Hcfg & _).
  exists self, rng. split; [exact Hinit|]. intros st Hin.
  apply (@field_emphasis_capped Reference.runtime self Examples.strong_response "Mind" st Hin).
  rewrite Hcfg. by eexists.
Defined.

(** X5 at the reference runtime: the docstring's chart, queried with the
    intention perturbation on. *)
Lemma query_total_witness :
  exists e rng1 resp e' rng',
    VirtualConsciousnessEngine.__init__ (rt := Reference.runtime)
      Examples.natal None 0%nat = Ok (e, rng1)
    /\ VirtualConsciousnessEngine.query e "test" None true rng1 = Ok ((resp, e'), rng').
Proof.
  destruct (@engine_init_returns Reference.runtime Examples.natal None 0%nat)
    as (e & rng1 & Hinit & _).
  destruct (@query_total Reference.runtime Examples.natal None 0%nat e rng1 "test" true
              topk_stable_contract reference_randn_contract natal_wf Hinit rng1)
    as (resp & e' & rng' & Hrun).
  by exists e, rng1, resp, e', rng'.
Defined.

Section OverlayFacts.
Import Core QuantumFieldEncoder.

(** Placements at other gates leave the buckets of a gate as they were. *)
Lemma bucket_fold_untouched (ts : list Placement) (g : Z) :
  forall b d b' d',
    foldM bucket_step (b, d) ts = Ok (b', d') ->
    (forall t, t ∈ ts -> gate t <> g) ->
    b' !! g = b !! g /\ d' !! g = d !! g.
Proof.
  induction ts as [|t ts IH]; intros b d b' d' Hfold Hother; simpl in Hfold.
  - by injection Hfold as <- <-.
  - assert (Hg : gate t <> g) by (apply Hother; by left).
    assert (Hrest : forall t', t' ∈ ts -> gate t' <> g) by (intros t' Ht'; apply Hother; by right).
    unfold bucket_step in Hfold at 1.
    destruct (is_body (stream t)).
    + destruct (b !! gate t) as [l|]; cbn [mbind result_bind] in Hfold; [|discriminate].
      destruct (IH _ _ _ _ Hfold Hrest) as [Hb Hd].
      split; [|exact Hd]. by rewrite Hb, lookup_insert_ne.
    + destruct (d !! gate t) as [l|]; cbn [mbind result_bind] in Hfold; [|discriminate].
      destruct (IH _ _ _ _ Hfold Hrest) as [Hb Hd].
      split; [exact Hb|]. by rewrite Hd, lookup_insert_ne.
Qed.

(** X6 (overlay concatenation).  Appending overlay placements to a
    placement list changes the encoded rows of the gates that the overlay
    touches only: the row of every other gate is the same. *)
Theorem overlay_untouched_gates (self : QuantumFieldEncoder.t)
    (ps ts : list Placement) (rows rows' : list (list R)) (g : Z) :
  encode_placements self ps = Ok rows ->
  encode_placements self (ps ++ ts) = Ok rows' ->
  (1 <= g <= 64)%Z ->
  (forall t, t ∈ ts -> gate t <> g) ->
  rows' !! Z.to_nat (g - 1) = rows !! Z.to_nat (g - 1).
Proof.
  unfold encode_placements. intros Hrows Hrows' Hg Hother.
  rewrite foldM_app in Hrows'.
  destruct (foldM bucket_step (empty_buckets, empty_buckets) ps) as [[b d]|e];
    cbn [mbind result_bind] in Hrows, Hrows'; [|discriminate].
  destruct (foldM bucket_step (b, d) ts) as [[b' d']|e] eqn:Hts;
    cbn [mbind result_bind] in Hrows'; [|discriminate].
  destruct (bucket_fold_untouched ts g _ _ _ _ Hts Hother) as [Hb Hd].
  apply mapM_Ok in Hrows, Hrows'.
  assert (Hseq : seqZ 1 64 !! Z.to_nat (g - 1) = Some g).
  { rewrite lookup_seqZ_lt by lia. f_equal. lia. }
  destruct (Forall2_lookup_l _ _ _ _ _ Hrows Hseq) as (row & Hrow & Henc).
  destruct (Forall2_lookup_l _ _ _ _ _ Hrows' Hseq) as (row' & Hrow' & Henc').
  rewrite Hrow, Hrow'. f_equal.
  unfold encode_gate in Henc, Henc'. rewrite Hb, Hd in Henc'. congruence.
Qed.

End OverlayFacts.

(** X6 at the example data: a transit on gate 18 leaves the row of gate 46
    as it was. *)
Lemma overlay_untouched_gates_witness :
  exists rows rows',
    QuantumFieldEncoder.encode_placements Examples.encoder64 Examples.natal = Ok rows
    /\ QuantumFieldEncoder.encode_placements Examples.encoder64
         (Examples.natal ++ Examples.transit) = Ok rows'
    /\ rows' !! 45%nat = rows !! 45%nat.
Proof.
  destruct (encode_placements_ok Examples.encoder64 Examples.natal eq_refl natal_wf)
    as (rows & Hrows & _).
  assert (Hwf : Forall wf_placement (Examples.natal ++ Examples.transit)).
  { repeat constructor; simpl; lia. }
  destruct (encode_placements_ok Examples.encoder64 _ eq_refl Hwf) as (rows' & Hrows' & _).
  exists rows, rows'. split; [exact Hrows|]. split; [exact Hrows'|].
  apply (overlay_untouched_gates Examples.encoder64 Examples.natal Examples.transit
           rows rows' 46%Z Hrows Hrows'); [lia|].
  intros t Ht. apply list_elem_of_singleton in Ht as ->. discriminate.
Defined.

Section ChannelEdgesInGeneral.
Import Core.

(** A pair that is not in the list occurs zero times. *)
Lemma occurrences_absent (e : Z * Z) (l : list (Z * Z)) :
  e ∉ l -> occurrences e l = 0%nat.
Proof.
  unfold occurrences. induction l as [|x l IH]; intros Hnot; [reflexivity|].
  apply not_elem_of_cons in Hnot as [Hne Hnot].
  rewrite filter_cons, decide_False by congruence. by apply IH.
Qed.

(** In a duplicate-free list a member occurs exactly once. *)
Lemma occurrences_nodup (e : Z * Z) (l : list (Z * Z)) :
  NoDup l -> e ∈ l -> occurrences e l = 1%nat.
Proof.
  induction 1 as [|x l Hx Hnd IH]; intros Hin.
  - by apply elem_of_nil in Hin.
  - apply elem_of_cons in Hin as [->|Hin].
    + pose proof (occurrences_absent x l Hx) as H0. unfold occurrences in *.
      rewrite filter_cons, decide_True by reflexivity. simpl. by rewrite H0.
    + specialize (IH Hin). unfold occurrences in *.
      rewrite filter_cons, decide_False; [exact IH|]. intros ->. contradiction.
Qed.

(** The loop of [get_channel_edges]: the edge list stays duplicate-free,
    it holds a pair exactly when the pair or its reverse has been seen, and
    every channel processed so far has been seen in one orientation. *)
Lemma channel_loop_invariant (channels : list (Z * Z * string)) :
  (forall c, c ∈ channels -> c.1.1 <> c.1.2) ->
  forall edges seen,
    NoDup edges ->
    (forall a b, (a, b) ∈ edges <-> (a, b) ∈ seen \/ (b, a) ∈ seen) ->
    let r := foldl channel_step (edges, seen) channels in
    NoDup r.1 /\
    (forall a b, (a, b) ∈ r.1 <-> (a, b) ∈ r.2 \/ (b, a) ∈ r.2) /\
    (forall p, p ∈ seen -> p ∈ r.2) /\
    (forall c, c ∈ channels -> (c.1.1, c.1.2) ∈ r.2 \/ (c.1.2, c.1.1) ∈ r.2).
Proof.
  induction channels as [|[[g1 g2] name] channels IH]; intros Hloop edges seen Hnd Hiff.
  - simpl. split; [exact Hnd|]. split; [exact Hiff|]. split; [tauto|].
    intros c Hc. by apply elem_of_nil in Hc.
  - assert (Hne : g1 <> g2) by (apply (Hloop (g1, g2, name)); by left).
    assert (Hrest : forall c, c ∈ channels -> c.1.1 <> c.1.2)
      by (intros c Hc; apply Hloop; by right).
    cbn [foldl].
    change (channel_step (edges, seen) (g1, g2, name))
      with (if bool_decide ((g1, g2) ∉ seen) && bool_decide ((g2, g1) ∉ seen)
            then (edges ++ [(g1, g2); (g2, g1)], {[ (g1, g2) ]} ∪ seen)
            else (edges, seen)).
    destruct (bool_decide ((g1, g2) ∉ seen) && bool_decide ((g2, g1) ∉ seen)) eqn:Hnew.
    + apply andb_prop in Hnew as [H1 H2].
      apply bool_decide_eq_true_1 in H1, H2.
      destruct (IH Hrest (edges ++ [(g1, g2); (g2, g1)]) ({[(g1, g2)]} ∪ seen))
        as (Hnd' & Hiff' & Hmono & Hcov).
      * apply NoDup_app. split; [exact Hnd|]. split.
        -- intros [a b] Hab Hin. apply Hiff in Hab.
           apply elem_of_cons in Hin as [[= -> ->]|Hin]; [tauto|].
           apply list_elem_of_singleton in Hin as [= -> ->]. tauto.
        -- apply NoDup_cons. split; [|apply NoDup_singleton].
           intros Hin. apply list_elem_of_singleton in Hin as [= Heq _]. by apply Hne.
      * intros a b. rewrite elem_of_app, Hiff, !elem_of_cons, elem_of_nil,
          !elem_of_union, !elem_of_singleton.
        split.
        -- intros [[H|H]|[[= -> ->]|[[= -> ->]|[]]]]; tauto.
        -- intros [[[= -> ->]|H]|[[= -> ->]|H]]; tauto.
      * cbv zeta in *. split; [exact Hnd'|]. split; [exact Hiff'|]. split.
        -- intros p Hp. apply Hmono. apply elem_of_union. by right.
        -- intros c Hc. apply elem_of_cons in Hc as [->|Hc]; [|by apply Hcov].
           left. apply Hmono. apply elem_of_union. left. by apply elem_of_singleton.
    + destruct (IH Hrest edges seen Hnd Hiff) as (Hnd' & Hiff' & Hmono & Hcov).
      cbv zeta in *. split; [exact Hnd'|]. split; [exact Hiff'|].
      split; [exact Hmono|].
      intros c Hc. apply elem_of_cons in Hc as [->|Hc]; [|by apply Hcov].
      cbn [fst snd]. apply andb_false_iff in Hnew as [H|H];
        apply bool_decide_eq_false_1 in H; apply dec_stable in H;
        [left | right]; by apply Hmono.
Qed.

(** X7 (edge symmetry of any channel table).  For every channel table in
    which no channel joins a gate to itself, the list that the loop of
    [get_channel_edges] builds has no duplicates and holds, for every
    listed channel, each of its two directed edges exactly once. *)
Theorem channel_edges_of_symmetric (channels : list (Z * Z * string)) :
  (forall c, c ∈ channels -> c.1.1 <> c.1.2) ->
  NoDup (channel_edges_of channels) /\
  forall g1 g2 name,
    (g1, g2, name) ∈ channels ->
    occurrences (g1, g2) (channel_edges_of channels) = 1%nat /\
    occurrences (g2, g1) (channel_edges_of channels) = 1%nat.
Proof.
  intros Hloop. unfold channel_edges_of.
  destruct (channel_loop_invariant channels Hloop [] ∅) as (Hnd & Hiff & _ & Hcov).
  { apply NoDup_nil_2. }
  { intros a b. split; [intros H; by apply elem_of_nil in H|].
    intros [H|H]; by apply not_elem_of_empty in H. }
  cbv zeta in *. split; [exact Hnd|].
  intros g1 g2 name Hin. specialize (Hcov _ Hin). cbn [fst snd] in Hcov.
  split; apply occurrences_nodup; try exact Hnd; apply Hiff; tauto.
Qed.

End ChannelEdgesInGeneral.

(** X7 at the static table: no channel of [CHANNELS] joins a gate to
    itself. *)
Lemma channel_edges_of_symmetric_witness :
  NoDup (Core.channel_edges_of Core.CHANNELS) /\
  Core.occurrences (64, 47)%Z (Core.channel_edges_of Core.CHANNELS) = 1%nat /\
  Core.occurrences (47, 64)%Z (Core.channel_edges_of Core.CHANNELS) = 1%nat.
Proof.
  assert (Hloop : forall c, c ∈ Core.CHANNELS -> c.1.1 <> c.1.2).
  { apply Forall_forall. apply (bool_decide_unpack _). vm_compute. reflexivity. }
  destruct (channel_edges_of_symmetric Core.CHANNELS Hloop) as [Hnd Hocc].
  split; [exact Hnd|]. apply (Hocc 64%Z 47%Z "Abstract/Reason"). by left.
Defined.

(** ** Definition flags *)

Section DefinitionFacts.
Import Core QuantumFieldEncoder QuantumFieldEncoder.

Lemma set_update_elem_of (s xs : list Z) (x : Z) :
  x ∈ set_update s xs <-> x ∈ s \/ x ∈ xs.
Proof.
  unfold set_update. revert s. induction xs as [|y xs IH]; intros s; simpl.
  - rewrite elem_of_nil. tauto.
  - rewrite IH, elem_of_cons. case_bool_decide as Hy.
    + split; [tauto|]. intros [H|[->|H]]; tauto.
    + rewrite elem_of_app, list_elem_of_singleton. tauto.
Qed.

(** [t[i] = v] succeeds exactly for an index from -len to len - 1, and
    writes the slot [i mod len]. *)
Lemma tensor_set_result (t : list R) (i : Z) (v : R) :
  tensor_set t i v =
    if bool_decide (- Z.of_nat (length t) <= i < Z.of_nat (length t))%Z
    then Ok (<[Z.to_nat (i mod Z.of_nat (length t)) := v]> t)
    else Raise IndexError.
Proof.
  unfold tensor_set, py_index.
  destruct (decide (0 <= i < Z.of_nat (length t))%Z) as [H1|H1].
  - rewrite !bool_decide_eq_true_2 by lia. cbn [mbind result_bind].
    by rewrite Z.mod_small by lia.
  - rewrite (bool_decide_eq_false_2 _ H1).
    destruct (decide (- Z.of_nat (length t) <= i < 0)%Z) as [H2|H2].
    + rewrite !bool_decide_eq_true_2 by lia. cbn [mbind result_bind].
      repeat f_equal. apply (Z.mod_unique_pos _ _ (-1)); lia.
    + rewrite !bool_decide_eq_false_2 by lia. reflexivity.
Qed.

Lemma flag_slot_lt g : (flag_slot g < 64)%nat.
Proof. unfold flag_slot. pose proof (Z.mod_pos_bound (g - 1) 64). lia. Qed.

Lemma flag_slot_in_range g : (1 <= g <= 64)%Z -> flag_slot g = Z.to_nat (g - 1).
Proof. intros Hg. unfold flag_slot. by rewrite Z.mod_small by lia. Qed.

(** The loop that writes the gate flags. *)
Lemma gate_flag_loop (gs : list Z) :
  forall t, length t = 64%nat ->
    match foldM (fun t g => tensor_set t (g - 1) 1) t gs with
    | Ok t' =>
        Forall flag_index_ok gs /\ length t' = 64%nat /\
        forall j, (j ∈ map flag_slot gs -> t' !! j = Some 1) /\
                  (j ∉ map flag_slot gs -> t' !! j = t !! j)
    | Raise e => e = IndexError /\ Exists (fun g => ~ flag_index_ok g) gs
    end.
Proof.
  induction gs as [|g gs IH]; intros t Hlen.
  - cbn. split; [constructor|]. split; [exact Hlen|]. intros j. split; [|done].
    intros H. by apply elem_of_nil in H.
  - cbn [foldM]. rewrite tensor_set_result, Hlen.
    destruct (decide (flag_index_ok g)) as [Hg|Hg]; unfold flag_index_ok in Hg.
    + rewrite bool_decide_eq_true_2 by lia. cbn [mbind result_bind].
      change (Z.to_nat ((g - 1) mod Z.of_nat 64)) with (flag_slot g).
      specialize (IH (<[flag_slot g := 1]> t)). rewrite length_insert in IH.
      specialize (IH Hlen).
      destruct (foldM _ (<[flag_slot g := 1]> t) gs) as [t'|e].
      * destruct IH as (Hall & Hlen' & Hspec). split; [by constructor|].
        split; [exact Hlen'|]. intros j. cbn [map]. rewrite elem_of_cons.
        destruct (decide (j ∈ map flag_slot gs)) as [Hin|Hin].
        -- split; [intros _; by apply Hspec | tauto].
        -- destruct (Hspec j) as [_ Hkeep]. rewrite (Hkeep Hin). split.
           ++ intros [->|?]; [|done]. apply list_lookup_insert_eq.
              rewrite Hlen. apply flag_slot_lt.
           ++ intros Hne. apply list_lookup_insert_ne. intros <-. tauto.
      * destruct IH as [-> Hex]. split; [reflexivity | by apply Exists_cons_tl].
    + rewrite bool_decide_eq_false_2 by lia. cbn [mbind result_bind].
      split; [reflexivity | by apply Exists_cons_hd].
Qed.

(** Every channel edge joins two gates in 1..64, and is listed in both
    directions. *)
Lemma channel_edges_within :
  Forall (fun e : Z * Z => (1 <= e.1 <= 64)%Z /\ (1 <= e.2 <= 64)%Z) get_channel_edges.
Proof. apply (bool_decide_unpack _). vm_compute. reflexivity. Qed.

Lemma channel_edges_reversed :
  Forall (fun e : Z * Z => (e.2, e.1) ∈ get_channel_edges) get_channel_edges.
Proof. apply (bool_decide_unpack _). vm_compute. reflexivity. Qed.

(** The loop that writes the channel flags. *)
Lemma channel_flag_loop (act : list Z) (edges : list (Z * Z)) :
  Forall (fun e : Z * Z => (1 <= e.1 <= 64)%Z /\ (1 <= e.2 <= 64)%Z) edges ->
  forall c, length c = 64%nat ->
    exists c', foldM (channel_flag_step act) c edges = Ok c' /\ length c' = 64%nat /\
      forall j, (Exists (edge_writes act j) edges -> c' !! j = Some 1) /\
                (~ Exists (edge_writes act j) edges -> c' !! j = c !! j).
Proof.
  induction 1 as [|[g1 g2] edges [Hg1 Hg2] Hall IH]; intros c Hlen.
  - exists c. split; [reflexivity|]. split; [exact Hlen|]. intros j.
    split; [|done]. intros H. by apply Exists_nil in H.
  - cbn [fst snd] in Hg1, Hg2. cbn [foldM].
    change (channel_flag_step act c (g1, g2))
      with (if bool_decide (g1 ∈ act) && bool_decide (g2 ∈ act)
            then c1 ← tensor_set c (g1 - 1) 1; tensor_set c1 (g2 - 1) 1
            else Ok c).
    destruct (bool_decide (g1 ∈ act) && bool_decide (g2 ∈ act)) eqn:Hboth.
    + apply andb_prop in Hboth as [H1 H2]. apply bool_decide_eq_true_1 in H1, H2.
      rewrite tensor_set_result, Hlen, bool_decide_eq_true_2 by lia.
      cbn [mbind result_bind].
      rewrite tensor_set_result, length_insert, Hlen, bool_decide_eq_true_2 by lia.
      cbn [mbind result_bind].
      rewrite !Z.mod_small by lia.
      set (c1 := <[Z.to_nat (g2 - 1) := 1]> (<[Z.to_nat (g1 - 1) := 1]> c)).
      destruct (IH c1) as (c' & Hrun & Hlen' & Hspec).
      { unfold c1. by rewrite !length_insert. }
      exists c'. split; [exact Hrun|]. split; [exact Hlen'|]. intros j.
      rewrite Exists_cons.
      destruct (decide (Exists (edge_writes act j) edges)) as [Hex|Hex].
      * split; [intros _; by apply Hspec | tauto].
      * destruct (Hspec j) as [_ Hkeep]. rewrite (Hkeep Hex). split.
        -- intros [(_ & _ & Hj)|?]; [|done]. cbn [fst snd] in Hj. unfold c1.
           destruct (decide (j = Z.to_nat (g2 - 1))) as [->|Hne].
           ++ apply list_lookup_insert_eq. rewrite length_insert, Hlen. lia.
           ++ rewrite list_lookup_insert_ne by congruence.
              destruct Hj as [-> | ->]; [|done].
              apply list_lookup_insert_eq. rewrite Hlen. lia.
        -- intros Hno. unfold c1.
           assert (j <> Z.to_nat (g1 - 1) /\ j <> Z.to_nat (g2 - 1)) as [Hn1 Hn2].
           { split; intros ->; apply Hno; left; unfold edge_writes; cbn [fst snd]; tauto. }
           by rewrite !list_lookup_insert_ne by congruence.
    + destruct (IH c Hlen) as (c' & Hrun & Hlen' & Hspec).
      exists c'. split; [exact Hrun|]. split; [exact Hlen'|]. intros j.
      rewrite Exists_cons.
      assert (Hnot : ~ edge_writes act j (g1, g2)).
      { intros (H1 & H2 & _). cbn [fst snd] in H1, H2.
        apply andb_false_iff in Hboth as [H|H]; apply bool_decide_eq_false_1 in H; tauto. }
      split; [intros [?|?]; [done | by apply Hspec] | intros ?; apply Hspec; tauto].
Qed.

Lemma zeros_lookup (n j : nat) : (j < n)%nat -> zeros n !! j = Some 0.
Proof. intros Hj. unfold zeros. by apply lookup_replicate_2. Qed.

(** What a successful [compute_definition] has written. *)
Lemma compute_definition_spec (self : QuantumFieldEncoder.t) (ps : list Placement) :
  let act := set_update [] (map gate ps) in
  match compute_definition self ps with
  | Ok d =>
      Forall flag_index_ok act /\
      length (gate_defined d) = 64%nat /\ length (channel_defined d) = 64%nat /\
      forall j, (j < 64)%nat ->
        (j ∈ map flag_slot act -> gate_defined d !! j = Some 1) /\
        (j ∉ map flag_slot act -> gate_defined d !! j = Some 0) /\
        (Exists (edge_writes act j) get_channel_edges -> channel_defined d !! j = Some 1) /\
        (~ Exists (edge_writes act j) get_channel_edges -> channel_defined d !! j = Some 0)
  | Raise e => e = IndexError /\ Exists (fun g => ~ flag_index_ok g) act
  end.
Proof.
  intros act. unfold compute_definition. fold act.
  pose proof (gate_flag_loop act (zeros 64)) as Hgate.
  destruct (foldM _ (zeros 64) act) as [gd|e]; cbn [mbind result_bind].
  - destruct Hgate as (Hall & Hlen & Hspec); [by unfold zeros; rewrite length_replicate|].
    destruct (channel_flag_loop act get_channel_edges channel_edges_within (zeros 64))
      as (cd & -> & Hclen & Hcspec); [by unfold zeros; rewrite length_replicate|].
    cbn [mbind result_bind gate_defined channel_defined].
    split; [exact Hall|]. split; [exact Hlen|]. split; [exact Hclen|].
    intros j Hj. destruct (Hspec j) as [Hs1 Hs0]. destruct (Hcspec j) as [Hc1 Hc0].
    repeat split.
    + exact Hs1.
    + intros Hn. rewrite (Hs0 Hn). by apply zeros_lookup.
    + exact Hc1.
    + intros Hn. rewrite (Hc0 Hn). by apply zeros_lookup.
  - apply Hgate. by unfold zeros; rewrite length_replicate.
Qed.

(** X8 (definition flags).  For placements whose gates are in 1..64,
    [compute_definition] returns two tensors of 64 flags: the gate flag of
    gate g is 1.0 if some placement is at g and 0.0 otherwise; the channel
    flag of g is 1.0 if g is activated and shares a channel with an
    activated gate, and 0.0 otherwise. *)
Theorem compute_definition_flags (self : QuantumFieldEncoder.t) (ps : list Placement) :
  Forall (fun p => (1 <= gate p <= 64)%Z) ps ->
  exists d, compute_definition self ps = Ok d /\
    length (gate_defined d) = 64%nat /\ length (channel_defined d) = 64%nat /\
    forall g, (1 <= g <= 64)%Z ->
      (g ∈ map gate ps -> gate_defined d !! Z.to_nat (g - 1) = Some 1) /\
      (g ∉ map gate ps -> gate_defined d !! Z.to_nat (g - 1) = Some 0) /\
      (in_defined_channel ps g -> channel_defined d !! Z.to_nat (g - 1) = Some 1) /\
      (~ in_defined_channel ps g -> channel_defined d !! Z.to_nat (g - 1) = Some 0).
Proof.
  intros Hps. pose proof (compute_definition_spec self ps) as Hspec. cbv zeta in Hspec.
  set (act := set_update [] (map gate ps)) in *.
  assert (Hact : forall g, g ∈ act <-> g ∈ map gate ps).
  { intros g. unfold act. rewrite set_update_elem_of, elem_of_nil. tauto. }
  assert (Hrange : forall g, g ∈ act -> (1 <= g <= 64)%Z).
  { intros g Hg. apply Hact in Hg. change (map ?f ?l) with (f <$> l) in Hg.
    apply list_elem_of_fmap in Hg as (p & -> & Hp).
    rewrite Forall_forall in Hps. by apply Hps. }
  destruct (compute_definition self ps) as [d|e].
  - destruct Hspec as (_ & Hlen & Hclen & Hflags).
    exists d. split; [reflexivity|]. split; [exact Hlen|]. split; [exact Hclen|].
    intros g Hg. destruct (Hflags (Z.to_nat (g - 1))) as (Hg1 & Hg0 & Hc1 & Hc0); [lia|].
    assert (Hslot : Z.to_nat (g - 1) ∈ map flag_slot act <-> g ∈ map gate ps).
    { rewrite <- Hact. change (map ?f ?l) with (f <$> l). rewrite list_elem_of_fmap. split.
      - intros (g' & Heq & Hg'). rewrite flag_slot_in_range in Heq by by apply Hrange.
        specialize (Hrange _ Hg'). by replace g with g' by lia.
      - intros Hin. exists g. by rewrite flag_slot_in_range. }
    assert (Hedge : Exists (edge_writes act (Z.to_nat (g - 1))) get_channel_edges
                    <-> in_defined_channel ps g).
    { rewrite Exists_exists. unfold in_defined_channel, edge_writes. split.
      - intros ([g1 g2] & Hin & H1 & H2 & Hj). cbn [fst snd] in *.
        pose proof channel_edges_within as Hw. rewrite Forall_forall in Hw.
        specialize (Hw _ Hin). cbn [fst snd] in Hw.
        destruct Hj as [Hj|Hj].
        + replace g with g1 by lia. split; [by apply Hact|]. exists g2.
          split; [exact Hin | by apply Hact].
        + replace g with g2 by lia. split; [by apply Hact|]. exists g1.
          split; [|by apply Hact].
          pose proof channel_edges_reversed as Hr. rewrite Forall_forall in Hr.
          exact (Hr _ Hin).
      - intros (Hgin & g' & Hin & Hg'). exists (g, g'). cbn [fst snd].
        split; [exact Hin|]. split; [by apply Hact|]. split; [by apply Hact | by left]. }
    repeat split.
    + intros H. apply Hg1. by apply Hslot.
    + intros H. apply Hg0. by rewrite Hslot.
    + intros H. apply Hc1. by apply Hedge.
    + intros H. apply Hc0. by rewrite Hedge.
  - destruct Hspec as [_ Hex]. apply Exists_exists in Hex as (g & Hg & Hbad).
    apply Hrange in Hg. unfold flag_index_ok in Hbad. lia.
Qed.


(** X10 (a defined channel needs defined gates).  Whatever the placements,
    when [compute_definition] returns, every gate whose channel flag is 1.0
    also has its gate flag at 1.0. *)
Theorem channel_defined_implies_gate_defined (self : QuantumFieldEncoder.t)
    (ps : list Placement) (d : DefinitionFlags) (j : nat) :
  compute_definition self ps = Ok d ->
  channel_defined d !! j = Some 1 ->
  gate_defined d !! j = Some 1.
Proof.
  intros Hrun Hc. pose proof (compute_definition_spec self ps) as Hspec. cbv zeta in Hspec.
  rewrite Hrun in Hspec. destruct Hspec as (_ & _ & Hclen & Hflags).
  assert (Hj : (j < 64)%nat) by (rewrite <- Hclen; by eapply lookup_lt_Some).
  destruct (Hflags j Hj) as (Hg1 & _ & _ & Hc0).
  set (act := set_update [] (map gate ps)) in *.
  destruct (decide (Exists (edge_writes act j) get_channel_edges)) as [Hex|Hex].
  - apply Hg1. apply Exists_exists in Hex as ([g1 g2] & Hin & H1 & H2 & Hjj).
    cbn [fst snd] in *.
    pose proof channel_edges_within as Hw. rewrite Forall_forall in Hw.
    specialize (Hw _ Hin). cbn [fst snd] in Hw.
    change (map ?f ?l) with (f <$> l). apply list_elem_of_fmap.
    destruct Hjj as [-> | ->]; [exists g1 | exists g2];
      (split; [rewrite flag_slot_in_range by lia; reflexivity | assumption]).
  - rewrite (Hc0 Hex) in Hc. injection Hc as Hc. lra.
Qed.

End DefinitionFacts.

(** X8 at the example chart: gates 64 and 47 are in a defined channel,
    gate 1 is activated but its channel is not defined. *)
Lemma compute_definition_flags_witness :
  exists d,
    QuantumFieldEncoder.compute_definition Examples.encoder64 Examples.channel_chart = Ok d /\
    QuantumFieldEncoder.gate_defined d !! 63%nat = Some 1 /\
    QuantumFieldEncoder.channel_defined d !! 63%nat = Some 1 /\
    QuantumFieldEncoder.gate_defined d !! 0%nat = Some 1 /\
    QuantumFieldEncoder.channel_defined d !! 0%nat = Some 0 /\
    QuantumFieldEncoder.gate_defined d !! 1%nat = Some 0.
Proof.
  assert (Hps : Forall (fun p => (1 <= Core.gate p <= 64)%Z) Examples.channel_chart).
  { apply (bool_decide_unpack _). vm_compute. reflexivity. }
  destruct (compute_definition_flags Examples.encoder64 Examples.channel_chart Hps)
    as (d & Hrun & _ & _ & Hflags).
  exists d. split; [exact Hrun|].
  destruct (Hflags 64%Z ltac:(lia)) as (Hg64 & _ & Hc64 & _).
  destruct (Hflags 1%Z ltac:(lia)) as (Hg1 & _ & _ & Hc1).
  destruct (Hflags 2%Z ltac:(lia)) as (_ & Hg2 & _ & _).
  repeat split.
  - apply Hg64. apply (bool_decide_unpack _). vm_compute. reflexivity.
  - apply Hc64. split; [apply (bool_decide_unpack _); vm_compute; reflexivity|].
    exists 47%Z. split; apply (bool_decide_unpack _); vm_compute; reflexivity.
  - apply Hg1. apply (bool_decide_unpack _). vm_compute. reflexivity.
  - apply Hc1. intros (_ & g' & Hedge & Hg').
    assert (Hno : Forall (fun g => (1%Z, g) ∉ Core.get_channel_edges)
                         (map Core.gate Examples.channel_chart)).
    { apply (bool_decide_unpack _). vm_compute. reflexivity. }
    rewrite Forall_forall in Hno. by apply (Hno g').
  - apply Hg2. apply (bool_decide_unpack _). vm_compute. reflexivity.
Defined.

(** X10 at the example chart: gate 47. *)
Lemma channel_defined_implies_gate_defined_witness :
  exists d,
    QuantumFieldEncoder.compute_definition Examples.encoder64 Examples.channel_chart = Ok d /\
    QuantumFieldEncoder.channel_defined d !! 46%nat = Some 1 /\
    QuantumFieldEncoder.gate_defined d !! 46%nat = Some 1.
Proof.
  eexists. split; [vm_compute; reflexivity|]. split; [reflexivity|].
  eapply (channel_defined_implies_gate_defined Examples.encoder64 Examples.channel_chart).
  - vm_compute. reflexivity.
  - reflexivity.
Defined.

(** ** The ranges of a response *)

Section TorchInversion.
Context `{rt : Runtime}.

Lemma bind_Ok {A B} (m : Torch A) (k : A -> Torch B) rng b rng' :
  (m ≫= k) rng = Ok (b, rng') ->
  exists a rng1, m rng = Ok (a, rng1) /\ k a rng1 = Ok (b, rng').
Proof.
  unfold mbind, Torch_bind. destruct (m rng) as [[a rng1]|e]; [|discriminate].
  intros H. by exists a, rng1.
Qed.

Lemma lift_Ok {A} (r : result A) rng a rng' :
  lift r rng = Ok (a, rng') -> r = Ok a /\ rng' = rng.
Proof. unfold lift. destruct r; [|discriminate]. by intros [= -> ->]. Qed.

Lemma ret_Ok {A} (x : A) rng a rng' :
  (mret x : Torch A) rng = Ok (a, rng') -> a = x /\ rng' = rng.
Proof. by intros [= -> ->]. Qed.

Lemma bind_ext {A B} (m m' : Torch A) (k k' : A -> Torch B) rng :
  m rng = m' rng -> (forall a rng1, k a rng1 = k' a rng1) ->
  (m ≫= k) rng = (m' ≫= k') rng.
Proof.
  intros Hm Hk. unfold mbind, Torch_bind. rewrite Hm.
  destruct (m' rng) as [[a rng1]|e]; [apply Hk | reflexivity].
Qed.

End TorchInversion.

Section Means.

Lemma sigmoid_range x : 0 < sigmoid x < 1.
Proof.
  unfold sigmoid. pose proof (exp_pos (- x)) as He. split.
  - apply Rdiv_lt_0_compat; lra.
  - apply (Rmult_lt_reg_r (1 + exp (- x))); [lra|].
    unfold Rdiv. rewrite Rmult_assoc, Rinv_l; lra.
Qed.

Lemma tsum_bounds (a b : R) (l : list R) :
  Forall (fun x => a <= x <= b) l ->
  INR (length l) * a <= tsum l <= INR (length l) * b.
Proof.
  induction 1 as [|x l Hx Hl IH].
  - simpl. unfold tsum. simpl. lra.
  - change (tsum (x :: l)) with (x + tsum l). rewrite length_cons, S_INR. lra.
Qed.

Lemma mean_bounds (a b : R) (l : list R) :
  l <> [] -> Forall (fun x => a <= x <= b) l ->
  a <= tsum l / INR (length l) <= b.
Proof.
  intros Hne Hall. pose proof (tsum_bounds a b l Hall) as [Hlo Hhi].
  assert (Hn : 0 < INR (length l)).
  { apply lt_0_INR. destruct l; [done | simpl; lia]. }
  split.
  - apply (Rmult_le_reg_r (INR (length l))); [exact Hn|].
    unfold Rdiv. rewrite Rmult_assoc, Rinv_l; lra.
  - apply (Rmult_le_reg_r (INR (length l))); [exact Hn|].
    unfold Rdiv. rewrite Rmult_assoc, Rinv_l; lra.
Qed.

Lemma tsum_pos (l : list R) :
  l <> [] -> Forall (fun x => 0 < x) l -> 0 < tsum l.
Proof.
  intros Hne Hall. induction Hall as [|x l Hx Hl IH]; [done|].
  change (tsum (x :: l)) with (x + tsum l).
  destruct l as [|y l]; [unfold tsum; simpl; lra|].
  assert (0 < tsum (y :: l)) by (by apply IH). lra.
Qed.

Lemma elem_of_concat {A : Type} (x : A) (ls : list (list A)) :
  x ∈ concat ls <-> exists l, x ∈ l /\ l ∈ ls.
Proof.
  rewrite list_elem_of_In, in_concat. split.
  - intros (l & Hl & Hx). exists l. by rewrite !list_elem_of_In.
  - intros (l & Hx & Hl). exists l. by rewrite <- !list_elem_of_In.
Qed.

Lemma tensor_get_elem_of {A : Type} (l : list A) (i : Z) (x : A) :
  tensor_get l i = Ok x -> x ∈ l.
Proof.
  unfold tensor_get. destruct (py_index (length l) i) as [j|e]; [|discriminate].
  cbn [mbind result_bind]. destruct (l !! j) as [y|] eqn:Hj; [|discriminate].
  intros [= ->]. by eapply list_elem_of_lookup_2.
Qed.

End Means.

Section DictLoops.
Context {A V : Type}.

Lemma dict_set_Forall (P : string * V -> Prop) k v (d : list (string * V)) :
  Forall P d -> P (k, v) -> Forall P (dict_set k v d).
Proof.
  intros Hd Hkv. apply Forall_forall. intros [k1 v1] Hin.
  apply dict_set_elem_of in Hin as [[-> ->]|Hin]; [exact Hkv|].
  rewrite Forall_forall in Hd. by apply Hd.
Qed.

(** A loop that stores one value per element under distinct new keys:
    the keys of the result are the old ones followed by the new ones, and
    every entry is an old one or the value computed for its element. *)
Lemma foldM_dict_set (key : A -> string) (Q : A -> V -> Prop)
    (step : list (string * V) -> A -> result (list (string * V))) (l : list A) :
  (forall acc x acc', step acc x = Ok acc' ->
     exists v, acc' = dict_set (key x) v acc /\ Q x v) ->
  forall acc res,
    foldM step acc l = Ok res ->
    NoDup (dict_keys acc ++ map key l) ->
    dict_keys res = dict_keys acc ++ map key l /\
    forall k v, (k, v) ∈ res -> (k, v) ∈ acc \/ exists x, x ∈ l /\ key x = k /\ Q x v.
Proof.
  intros Hstep. induction l as [|x l IH]; intros acc res Hrun Hnd.
  - injection Hrun as <-. rewrite app_nil_r. split; [reflexivity | by left].
  - cbn [foldM] in Hrun. destruct (step acc x) as [acc1|e] eqn:Hx;
      cbn [mbind result_bind] in Hrun; [|discriminate].
    destruct (Hstep _ _ _ Hx) as (v & -> & Hv).
    assert (Hfresh : key x ∉ dict_keys acc).
    { cbn [map] in Hnd. apply NoDup_app in Hnd as (_ & Hdisj & _).
      intros Hin. apply (Hdisj _ Hin). by left. }
    assert (Hkeys : dict_keys (dict_set (key x) v acc) = dict_keys acc ++ [key x]).
    { rewrite dict_keys_set. by rewrite bool_decide_eq_false_2. }
    destruct (IH _ _ Hrun) as [Hres Hin].
    { rewrite Hkeys, <- app_assoc. exact Hnd. }
    split.
    + rewrite Hres, Hkeys, <- app_assoc. reflexivity.
    + intros k v' Hkv. destruct (Hin _ _ Hkv) as [Hold|(y & Hy & Hk & Hq)].
      * apply dict_set_elem_of in Hold as [[-> ->]|Hold]; [|by left].
        right. exists x. split; [by left | done].
      * right. exists y. split; [by right | done].
Qed.

End DictLoops.

Section RangeFacts.
Context `{rt : Runtime}.
Import Core NineBodyConsciousness VirtualConsciousnessEngine.

(** Every output of the forward pass is a sigmoid. *)
Lemma forward_ranges net x ei sun masks rng out rng' :
  QuantumHDNet.forward net x ei sun masks rng = Ok (out, rng') ->
  Forall (fun v => 0 <= v <= 1) (QuantumHDNet.codon_scores out) /\
  dom (QuantumHDNet.awareness out)
    = ({["spleen"; "ajna"; "solar"; "heart"; "mind"]} : gset string) /\
  map_Forall (fun _ v => 0 <= v <= 1) (QuantumHDNet.awareness out).
Proof.
  unfold QuantumHDNet.forward. intros H.
  apply bind_Ok in H as (h & rng1 & _ & H).
  do 5 (apply bind_Ok in H as (? & ? & _ & H)).
  apply ret_Ok in H as [-> _].
  cbn [QuantumHDNet.codon_scores QuantumHDNet.awareness]. split; [|split].
  - apply Forall_forall. intros v Hv. change (map ?f ?l) with (f <$> l) in Hv.
    apply list_elem_of_fmap in Hv as (y & -> & _).
    pose proof (sigmoid_range y). lra.
  - rewrite !dom_insert_L, dom_empty_L. set_solver.
  - unfold QuantumHDNet.readout.
    repeat (apply map_Forall_insert_2;
            [match goal with |- context [sigmoid ?y] => pose proof (sigmoid_range y) end; lra|]).
    apply map_Forall_empty.
Qed.

(** The fields of the static table have gates. *)
Lemma field_gates_nonempty (n : string) :
  n ∈ dict_keys CONSCIOUSNESS_FIELDS ->
  forall gs, get_field_gates n = Ok gs -> gs <> [].
Proof.
  intros Hn gs Hgs.
  assert (Hall : forallb (fun n => match get_field_gates n with
                                   | Ok (_ :: _) => true
                                   | _ => false
                                   end) (dict_keys CONSCIOUSNESS_FIELDS) = true).
  { vm_compute. reflexivity. }
  rewrite forallb_forall in Hall. specialize (Hall n). rewrite Hgs in Hall.
  destruct gs; [|done]. apply list_elem_of_In in Hn. by specialize (Hall Hn).
Qed.

Lemma field_names_nodup : NoDup (dict_keys CONSCIOUSNESS_FIELDS).
Proof. apply (bool_decide_unpack _). vm_compute. reflexivity. Qed.

Lemma field_init_indices n emb fld :
  n ∈ dict_keys CONSCIOUSNESS_FIELDS ->
  ConsciousnessField.__init__ n emb = Ok fld ->
  ConsciousnessField.gate_indices fld <> [].
Proof.
  intros Hn. unfold ConsciousnessField.__init__.
  destruct (dict_item n CONSCIOUSNESS_FIELDS) as [cfg|e]; cbn [mbind result_bind]; [|discriminate].
  destruct (get_field_gates n) as [gs|e] eqn:Hgs; cbn [mbind result_bind]; [|discriminate].
  destruct (mapM _ _) as [rows|e]; cbn [mbind result_bind]; [|discriminate].
  intros [= <-]. cbn [ConsciousnessField.gate_indices].
  pose proof (field_gates_nonempty n Hn gs Hgs). by destruct gs.
Qed.

(** The first query builds the nine fields. *)
Lemma initialize_built emb nb :
  initialize_from_quantum_state NineBodyConsciousness.__init__ emb = Ok nb ->
  dict_keys (fields nb) = dict_keys CONSCIOUSNESS_FIELDS /\
  forall n fld, (n, fld) ∈ fields nb -> ConsciousnessField.gate_indices fld <> [].
Proof.
  unfold initialize_from_quantum_state. cbn [fields NineBodyConsciousness.__init__].
  destruct (foldM _ [] (dict_keys CONSCIOUSNESS_FIELDS)) as [flds|e] eqn:Hrun;
    cbn [mbind result_bind]; [|discriminate].
  intros [= <-]. cbn [fields].
  eapply (foldM_dict_set (fun n : string => n)
            (fun n fld => n ∈ dict_keys CONSCIOUSNESS_FIELDS ->
                          ConsciousnessField.gate_indices fld <> [])) in Hrun.
  - destruct Hrun as [Hkeys Hin]. rewrite map_id in Hkeys. split; [exact Hkeys|].
    intros n fld Hfld. destruct (Hin _ _ Hfld) as [H|(x & Hx & <- & Hq)].
    + by apply elem_of_nil in H.
    + by apply Hq.
  - intros acc n acc' Hstep.
    destruct (ConsciousnessField.__init__ n emb) as [fld|e] eqn:Hinit;
      cbn [mbind result_bind] in Hstep; [|discriminate].
    injection Hstep as <-. exists fld. split; [reflexivity|].
    intros Hn. by eapply field_init_indices.
  - rewrite map_id. exact field_names_nodup.
Qed.

Lemma collapse_to_state_activation fld scores aw awv st :
  Forall (fun v => 0 <= v <= 1) scores ->
  ConsciousnessField.gate_indices fld <> [] ->
  ConsciousnessField.collapse_to_state fld scores aw awv = Ok st ->
  0 <= activation st <= 1.
Proof.
  intros Hscores Hne. unfold ConsciousnessField.collapse_to_state. intros H.
  destruct (mapM _ (ConsciousnessField.gate_indices fld)) as [acts|e] eqn:Hacts;
    cbn [mbind result_bind] in H; [|discriminate].
  destruct (mapM _ (topk _ _)) as [dom|e]; cbn [mbind result_bind] in H; [|discriminate].
  destruct (ConsciousnessField._generate_narrative_seed _ _ _ _ _) as [seed|e];
    cbn [mbind result_bind] in H; [|discriminate].
  injection H as <-. cbn [activation]. unfold tmean.
  apply mapM_Ok in Hacts. apply mean_bounds.
  - intros ->. apply Forall2_nil_inv_r in Hacts. done.
  - apply Forall_forall. intros v Hv.
    apply list_elem_of_lookup in Hv as [i Hi].
    destruct (Forall2_lookup_r _ _ _ _ _ Hacts Hi) as (idx & _ & Hget).
    apply tensor_get_elem_of in Hget. rewrite Forall_forall in Hscores. by apply Hscores.
Qed.

(** The loop over the fields gives one state per field, each in range and
    without resonances yet. *)
Lemma collapsed_states_shape flds scores aw awv states :
  Forall (fun v => 0 <= v <= 1) scores ->
  NoDup (dict_keys flds) ->
  (forall n fld, (n, fld) ∈ flds -> ConsciousnessField.gate_indices fld <> []) ->
  foldM (fun states '(field_name, field) =>
           st ← ConsciousnessField.collapse_to_state field scores aw awv;
           Ok (dict_set field_name st states)) [] flds = Ok states ->
  dict_keys states = dict_keys flds /\
  Forall (fun ns : string * ConsciousnessState => state_in_range ns.2) states.
Proof.
  intros Hscores Hnd Hflds Hrun.
  eapply (foldM_dict_set (fun p : string * ConsciousnessField.t => p.1)
            (fun p st => p ∈ flds -> state_in_range st)) in Hrun.
  - destruct Hrun as [Hkeys Hin]. split; [exact Hkeys|].
    apply Forall_forall. intros [n st] Hst. cbn [snd].
    destruct (Hin _ _ Hst) as [H|(p & Hp & _ & Hq)]; [by apply elem_of_nil in H|].
    by apply Hq.
  - intros acc [n fld] acc' Hstep.
    destruct (ConsciousnessField.collapse_to_state fld scores aw awv) as [st|e] eqn:Hst;
      cbn [mbind result_bind] in Hstep; [|discriminate].
    injection Hstep as <-. exists st. split; [reflexivity|]. intros Hin.
    pose proof (collapse_to_state_fresh _ _ _ _ _ Hst) as [Hcoh Hres].
    split; [|split; [exact Hcoh|]].
    + eapply collapse_to_state_activation; [exact Hscores| |exact Hst]. by eapply Hflds.
    + intros k v. rewrite Hres. by rewrite lookup_empty.
  - exact Hnd.
Qed.

Lemma set_resonance_range other r st :
  state_in_range st -> 0 <= r <= 1 -> state_in_range (set_resonance other r st).
Proof.
  intros (Ha & Hc & Hr) Hrange. unfold state_in_range, set_resonance.
  cbn [activation coherence resonance]. split; [exact Ha|]. split; [exact Hc|].
  intros k v Hkv. apply lookup_insert_Some in Hkv as [[_ <-]|[_ Hkv]]; [exact Hrange|].
  by eapply Hr.
Qed.

(** One step of the resonance loop keeps the keys and the ranges. *)
Lemma resonance_step_shape name1 states name2 :
  Forall (fun ns : string * ConsciousnessState => state_in_range ns.2) states ->
  dict_keys (resonance_step name1 states name2) = dict_keys states /\
  Forall (fun ns : string * ConsciousnessState => state_in_range ns.2)
         (resonance_step name1 states name2).
Proof.
  intros Hall. unfold resonance_step.
  destruct (dict_get name1 states) as [s1|] eqn:H1; [|done].
  destruct (dict_get name2 states) as [s2|] eqn:H2; [|done].
  assert (Hs1 : state_in_range s1).
  { rewrite Forall_forall in Hall. exact (Hall _ (dict_get_elem_of _ _ _ H1)). }
  assert (Hs2 : state_in_range s2).
  { rewrite Forall_forall in Hall. exact (Hall _ (dict_get_elem_of _ _ _ H2)). }
  assert (Hr : 0 <= pair_resonance s1 s2 <= 1).
  { apply pair_resonance_bounds; [apply Hs1 | apply Hs2]. }
  set (states1 := dict_set name1 (set_resonance name2 (pair_resonance s1 s2) s1) states).
  assert (Hkeys1 : dict_keys states1 = dict_keys states).
  { unfold states1. rewrite dict_keys_set, bool_decide_eq_true_2; [reflexivity|].
    apply dict_get_is_Some. by eexists. }
  assert (Hall1 : Forall (fun ns : string * ConsciousnessState => state_in_range ns.2) states1).
  { apply dict_set_Forall; [exact Hall|]. by apply set_resonance_range. }
  destruct (dict_get name2 states1) as [s2'|] eqn:H2'; [|by split].
  split.
  - rewrite dict_keys_set, bool_decide_eq_true_2; [exact Hkeys1|].
    apply dict_get_is_Some. by eexists.
  - apply dict_set_Forall; [exact Hall1|]. apply set_resonance_range; [|exact Hr].
    rewrite Forall_forall in Hall1. exact (Hall1 _ (dict_get_elem_of _ _ _ H2')).
Qed.

Lemma compute_resonances_shape states :
  Forall (fun ns : string * ConsciousnessState => state_in_range ns.2) states ->
  dict_keys (_compute_resonances states) = dict_keys states /\
  Forall (fun ns : string * ConsciousnessState => state_in_range ns.2)
         (_compute_resonances states).
Proof.
  unfold _compute_resonances. generalize (dict_keys states) at 1 3 as names.
  intros names. revert states. induction names as [|a rest IH]; intros states Hall.
  - by split.
  - cbn [resonance_loop].
    assert (Hinner : forall l st,
               Forall (fun ns : string * ConsciousnessState => state_in_range ns.2) st ->
               dict_keys (foldl (resonance_step a) st l) = dict_keys st /\
               Forall (fun ns : string * ConsciousnessState => state_in_range ns.2)
                      (foldl (resonance_step a) st l)).
    { induction l as [|m l IHl]; intros st Hst; [by split|]. cbn [foldl].
      destruct (resonance_step_shape a st m Hst) as [Hk Hf].
      destruct (IHl _ Hf) as [Hk' Hf']. split; [by rewrite Hk', Hk | exact Hf']. }
    destruct (Hinner rest states Hall) as [Hk Hf].
    destruct (IH _ Hf) as [Hk' Hf']. split; [by rewrite Hk', Hk | exact Hf'].
Qed.

Lemma collapse_all_fields_shape nb scores aw awv states :
  Forall (fun v => 0 <= v <= 1) scores ->
  NoDup (dict_keys (fields nb)) ->
  (forall n fld, (n, fld) ∈ fields nb -> ConsciousnessField.gate_indices fld <> []) ->
  collapse_all_fields nb scores aw awv = Ok states ->
  dict_keys states = dict_keys (fields nb) /\
  Forall (fun ns : string * ConsciousnessState => state_in_range ns.2) states.
Proof.
  intros Hscores Hnd Hflds. unfold collapse_all_fields.
  destruct (foldM _ [] (fields nb)) as [st0|e] eqn:Hst0;
    cbn [mbind result_bind]; [|discriminate].
  intros [= <-].
  destruct (collapsed_states_shape _ _ _ _ _ Hscores Hnd Hflds Hst0) as [Hk Hf].
  destruct (compute_resonances_shape st0 Hf) as [Hk' Hf'].
  split; [by rewrite Hk', Hk | exact Hf'].
Qed.

(** The system coherence of states in range, at least one of them. *)
Lemma system_coherence_range states :
  states <> [] ->
  Forall (fun ns : string * ConsciousnessState => state_in_range ns.2) states ->
  0 < _compute_system_coherence states <= 1.
Proof.
  intros Hne Hall. unfold _compute_system_coherence.
  destruct states as [|ns0 states']; [done|].
  set (states := ns0 :: states') in *.
  set (coherences := map coherence (dict_values states)).
  set (all_resonances :=
         concat (map (fun st => (map_to_list (resonance st)).*2) (dict_values states))).
  assert (Hc : 0 < tsum coherences / INR (length coherences) <= 1).
  { assert (Hcne : coherences <> []) by done.
    assert (Hcall : Forall (fun x => 0 < x <= 1) coherences).
    { apply Forall_forall. intros c Hin. unfold coherences, dict_values in Hin.
      change (map ?f ?l) with (f <$> l) in Hin.
      apply list_elem_of_fmap in Hin as (st & -> & Hin).
      apply list_elem_of_fmap in Hin as (ns & -> & Hin).
      rewrite Forall_forall in Hall. apply (Hall _ Hin). }
    split.
    - apply Rdiv_lt_0_compat.
      + apply tsum_pos; [exact Hcne|]. eapply Forall_impl; [exact Hcall|].
        intros x Hx. cbv beta in Hx. lra.
      + apply lt_0_INR. destruct coherences; [done | simpl; lia].
    - apply (mean_bounds 0 1); [exact Hcne|]. eapply Forall_impl; [exact Hcall|].
      intros x Hx. cbv beta in Hx. lra. }
  assert (Hr : 0 <= match all_resonances with
                    | [] => 0
                    | _ => tsum all_resonances / INR (length all_resonances)
                    end <= 1).
  { destruct all_resonances as [|r0 rs] eqn:Hrs; [lra|]. rewrite <- Hrs.
    apply mean_bounds; [by rewrite Hrs|].
    apply Forall_forall. intros v Hv. unfold all_resonances in Hv.
    apply elem_of_concat in Hv as (l & Hv & Hl).
    change (map ?f ?l) with (f <$> l) in Hl.
    apply list_elem_of_fmap in Hl as (st & -> & Hst).
    apply list_elem_of_fmap in Hv as ([k v'] & -> & Hkv).
    apply elem_of_map_to_list in Hkv.
    unfold dict_values in Hst. change (map ?f ?l) with (f <$> l) in Hst.
    apply list_elem_of_fmap in Hst as (ns & -> & Hns).
    rewrite Forall_forall in Hall. destruct (Hall _ Hns) as (_ & _ & Hres).
    by eapply Hres. }
  fold coherences. fold all_resonances. cbv zeta. lra.
Qed.

Lemma imap_gates_fst (scores : list R) :
  (imap (fun i score => ((Z.of_nat i + 1)%Z, score)) scores).*1
  = seqZ 1 (Z.of_nat (length scores)).
Proof.
  apply list_eq. intros i. rewrite list_lookup_fmap, list_lookup_imap.
  destruct (scores !! i) as [v|] eqn:Hi; simpl.
  - symmetry. apply lookup_seqZ. apply lookup_lt_Some in Hi. lia.
  - symmetry. apply lookup_seqZ_ge. apply lookup_ge_None in Hi. lia.
Qed.

(** What [observe] returns on an engine whose fields are built or still to
    be built. *)
Lemma observe_shape e q nf sc rng resp e' rng' :
  fields_built e ->
  observe e q nf sc rng = Ok ((resp, e'), rng') ->
  well_formed_response resp /\ fields_built e' /\ _consciousness_initialized e' = true.
Proof.
  intros Hbuilt. unfold observe. intros H.
  apply bind_Ok in H as (out & rng1 & Hfwd & H).
  apply bind_Ok in H as (nb & rng2 & Hnb & H).
  apply bind_Ok in H as (states & rng3 & Hstates & H).
  apply ret_Ok in H as [[= -> ->] _].
  apply lift_Ok in Hstates as [Hstates _].
  apply forward_ranges in Hfwd as (Hscores & Hdom & Haw).
  assert (Hnbok : dict_keys (fields nb) = dict_keys CONSCIOUSNESS_FIELDS /\
                  forall n fld, (n, fld) ∈ fields nb ->
                                ConsciousnessField.gate_indices fld <> []).
  { unfold fields_built in Hbuilt.
    destruct (_consciousness_initialized e).
    - apply ret_Ok in Hnb as [-> _]. exact Hbuilt.
    - apply lift_Ok in Hnb as [Hnb _].
      assert (Hempty : nine_body e = NineBodyConsciousness.__init__).
      { destruct (nine_body e) as [f]. cbn [fields] in Hbuilt. by rewrite Hbuilt. }
      rewrite Hempty in Hnb. by apply initialize_built in Hnb. }
  destruct Hnbok as [Hkeys Hidx].
  assert (Hnd : NoDup (dict_keys (fields nb))) by (rewrite Hkeys; apply field_names_nodup).
  destruct (collapse_all_fields_shape nb _ _ _ states Hscores Hnd Hidx Hstates)
    as [Hskeys Hsall].
  split; [|split].
  - unfold well_formed_response.
    cbn [codon_activations awareness_scores field_states narrative_seeds coherence_level].
    split; [by rewrite imap_gates_fst, length_imap|].
    split.
    { apply Forall_forall. intros [g v] Hin.
      apply elem_of_lookup_imap in Hin as (i & v' & [= -> ->] & Hi). cbn [snd].
      rewrite Forall_forall in Hscores. apply Hscores. by eapply list_elem_of_lookup_2. }
    split; [exact Hdom|]. split; [exact Haw|].
    split; [by rewrite Hskeys, Hkeys|]. split; [exact Hsall|].
    split; [reflexivity|].
    apply system_coherence_range; [|exact Hsall].
    intros ->. cbn in Hskeys. rewrite Hkeys in Hskeys. discriminate.
  - unfold fields_built. cbn [_consciousness_initialized nine_body]. by split.
  - reflexivity.
Qed.

Lemma query_shape e q obs uip rng resp e' rng' :
  fields_built e ->
  query e q obs uip rng = Ok ((resp, e'), rng') ->
  well_formed_response resp /\ fields_built e'.
Proof.
  intros Hbuilt. unfold query. intros H.
  apply bind_Ok in H as (nf & rng1 & _ & H).
  apply bind_Ok in H as (sc & rng2 & _ & H).
  apply observe_shape in H as (Hwf & Hb & _); [by split | exact Hbuilt].
Qed.

Lemma engine_init_fields_built ps pre rng e rng' :
  VirtualConsciousnessEngine.__init__ ps pre rng = Ok (e, rng') -> fields_built e.
Proof.
  intros Hinit. apply engine_init_spec in Hinit as [_ (_ & _ & _ & _ & Hinit & Hnb)].
  unfold fields_built. by rewrite Hinit, Hnb.
Qed.

(** X11 (ranges of a response).  Every response of an engine built by the
    constructor, to its first query and to a query after it, lists the
    gates 1, 2, ... in order with scores in [0, 1], has the five awareness
    scores in [0, 1], the nine fields in the order of the field table with
    activation and resonances in [0, 1] and coherence in (0, 1], the four
    narrative seeds, and a coherence level in (0, 1]. *)
Theorem query_response_well_formed (ps : list Placement)
    (pretrained : option QuantumHDNet.t) (rng0 rng1 : RngState)
    (e : VirtualConsciousnessEngine.t)
    (q : string) (obs : option (gmap string Placement)) (uip : bool)
    (rng rng' : RngState) (resp : VirtualConsciousnessResponse)
    (e' : VirtualConsciousnessEngine.t) :
  VirtualConsciousnessEngine.__init__ ps pretrained rng0 = Ok (e, rng1) ->
  query e q obs uip rng = Ok ((resp, e'), rng') ->
  well_formed_response resp /\
  forall q2 obs2 uip2 rng2 resp2 e2 rng2',
    query e' q2 obs2 uip2 rng2 = Ok ((resp2, e2), rng2') ->
    well_formed_response resp2.
Proof.
  intros Hinit Hq. apply engine_init_fields_built in Hinit.
  destruct (query_shape _ _ _ _ _ _ _ _ Hinit Hq) as [Hwf Hb].
  split; [exact Hwf|]. intros q2 obs2 uip2 rng2 resp2 e2 rng2' Hq2.
  by destruct (query_shape _ _ _ _ _ _ _ _ Hb Hq2).
Qed.

End RangeFacts.

(** ** Overlays, history and evolution *)

Section AdjustableFurther.
Context `{rt : Runtime}.
Import Core VirtualConsciousnessEngine AdjustableConsciousness AdjustableConsciousness.

Lemma find_body_sun_app (l1 l2 : list Placement) :
  _find_body_sun (l1 ++ l2)
  = match _find_body_sun l1 with
    | Some s => Some s
    | None => _find_body_sun l2
    end.
Proof.
  unfold _find_body_sun. induction l1 as [|p l1 IH]; [reflexivity|].
  cbn [app List.find]. by destruct (bool_decide (planet p = "Sun") && is_body (stream p)).
Qed.

(** The composite chart: the natal placements, then the overlays used. *)
Lemma composite_placements_app self ut up :
  _build_composite_placements self
    (ut && bool_decide (is_Some (current_transits self)))
    (up && bool_decide (is_Some (current_progressions self)))
  = natal_placements self ++ used_overlays self ut up.
Proof.
  unfold _build_composite_placements, used_overlays.
  destruct (current_transits self) as [[|p l]|], (current_progressions self) as [[|p' l']|],
    ut, up; cbn; rewrite ?app_nil_r, <- ?app_assoc; reflexivity.
Qed.

(** What a query of the adjustable consciousness does to its state, and
    where its response comes from. *)
Lemma run_query_inv self q ut up flag rng resp self' rng' :
  run_query self q ut up flag rng = Ok ((resp, self'), rng') ->
  exists temp_engine rng1 raw temp_engine',
    VirtualConsciousnessEngine.__init__
      (natal_placements self ++ used_overlays self ut up) None rng = Ok (temp_engine, rng1) /\
    VirtualConsciousnessEngine.query temp_engine q None flag rng1
      = Ok ((raw, temp_engine'), rng') /\
    resp = _apply_field_adjustments self (_apply_awareness_adjustments self raw) /\
    self' = AdjustableConsciousness.mk (natal_placements self) (birth_datetime self)
              (birth_location self) (config self) (base_engine self)
              (current_transits self) (current_progressions self)
              (query_history self ++ [mkEntry q resp (_export_current_config self)]).
Proof.
  unfold run_query. rewrite composite_placements_app. intros H.
  apply bind_Ok in H as (te & rng1 & Hinit & H).
  apply bind_Ok in H as ([raw te'] & rng2 & Hq & H).
  apply ret_Ok in H as [[= -> ->] ->].
  by exists te, rng1, raw, te'.
Qed.

(** X12 (the observer under overlays).  The observer context of a response
    of the adjustable consciousness is the gate and line of the first body
    Sun of the composite chart: the natal body Sun if the natal chart has
    one, otherwise the first body Sun among the transits and progressions
    used, otherwise none. *)
Theorem query_observer_under_overlays (self : AdjustableConsciousness.t) (q : string)
    (ut up : bool) (strength : R) (rng rng' : RngState)
    (resp : VirtualConsciousnessResponse) (self' : AdjustableConsciousness.t) :
  AdjustableConsciousness.query self q ut up strength rng = Ok ((resp, self'), rng') ->
  let sun := match _find_body_sun (natal_placements self) with
             | Some s => Some s
             | None => _find_body_sun (used_overlays self ut up)
             end in
  observer_context resp = (gate <$> sun, line <$> sun).
Proof.
  unfold AdjustableConsciousness.query. intros H. cbv zeta.
  apply run_query_inv in H as (te & rng1 & raw & te' & Hinit & Hq & -> & _).
  cbn [observer_context _apply_field_adjustments _apply_awareness_adjustments].
  apply engine_init_spec in Hinit as [Hps (_ & _ & Hsun & _)].
  unfold VirtualConsciousnessEngine.query in Hq.
  apply bind_Ok in Hq as (nf & rng2 & _ & Hq).
  apply bind_Ok in Hq as (sc & rng3 & _ & Hq).
  unfold observe in Hq.
  apply bind_Ok in Hq as (out & rng4 & _ & Hq).
  apply bind_Ok in Hq as (nb & rng5 & _ & Hq).
  apply bind_Ok in Hq as (states & rng6 & _ & Hq).
  apply ret_Ok in Hq as [[= -> _] _]. cbn [observer_context].
  rewrite Hsun, Hps, find_body_sun_app. reflexivity.
Qed.

Lemma config_key_inj i j : config_key i = config_key j -> i = j.
Proof.
  unfold config_key. intros H. apply (inj (String.append "config_")) in H.
  by apply (inj pretty) in H.
Qed.

(** [compare_configurations] from index [k] on. *)
Lemma compare_loop_history q (configs : list ConsciousnessConfiguration) :
  forall (k : nat) results0 self0 rng results self' rng',
    foldM (compare_step q) (results0, self0) (imap (fun i c => ((k + i)%nat, c)) configs) rng
      = Ok ((results, self'), rng') ->
    (forall key, key ∈ dict_keys results0 -> exists j, (j < k)%nat /\ key = config_key j) ->
    dict_keys results = dict_keys results0 ++ map config_key (seq k (length configs)) /\
    exists entries,
      query_history self' = query_history self0 ++ entries /\
      dict_values results = dict_values results0 ++ map h_response entries /\
      map h_config entries
        = map (fun c => _export_current_config (set_config c self0)) configs /\
      Forall (fun en => h_question en = q) entries /\
      natal_placements self' = natal_placements self0 /\
      current_transits self' = current_transits self0 /\
      current_progressions self' = current_progressions self0.
Proof.
  induction configs as [|c configs IH]; intros k results0 self0 rng results self' rng' Hrun Hkeys.
  - cbn in Hrun. injection Hrun as <- <- <-. rewrite !app_nil_r. split; [reflexivity|].
    exists []. rewrite !app_nil_r. by repeat split.
  - cbn [imap foldM] in Hrun.
    apply bind_Ok in Hrun as ([results1 self1] & rng1 & Hstep & Hrun).
    unfold compare_step in Hstep. cbn [fst snd] in Hstep.
    apply bind_Ok in Hstep as ([resp s1] & rng2 & Hq & Hstep).
    apply ret_Ok in Hstep as [[= -> ->] ->].
    unfold AdjustableConsciousness.query in Hq.
    apply run_query_inv in Hq as (te & rngt & raw & te' & _ & _ & _ & Hs1).
    rewrite Nat.add_0_r in Hrun.
    assert (Hfresh : config_key k ∉ dict_keys results0).
    { intros Hin. destruct (Hkeys _ Hin) as (j & Hj & Heq).
      apply config_key_inj in Heq. lia. }
    assert (Hk1 : dict_keys (dict_set (config_key k) resp results0)
                  = dict_keys results0 ++ [config_key k]).
    { rewrite dict_keys_set. by rewrite bool_decide_eq_false_2. }
    assert (Hv1 : dict_values (dict_set (config_key k) resp results0)
                  = dict_values results0 ++ [resp]).
    { clear -Hfresh. unfold dict_values, dict_keys in *.
      induction results0 as [|[k0 v0] d IHd]; cbn; [reflexivity|].
      cbn in Hfresh. apply not_elem_of_cons in Hfresh as [Hne Hfresh].
      rewrite bool_decide_eq_false_2 by exact Hne. cbn. by rewrite IHd. }
    assert (Himap : imap ((fun i c0 => ((k + i)%nat, c0)) ∘ S) configs
                    = imap (fun i c0 => ((S k + i)%nat, c0)) configs).
    { apply imap_ext. intros i x _. cbn. f_equal. lia. }
    rewrite Himap in Hrun.
    change ("config_" +:+ pretty k) with (config_key k) in Hrun.
    destruct (IH (S k) _ _ _ _ _ _ Hrun) as (Hkeys' & entries & Hhist & Hvals & Hcfg & Hqs & Hn & Ht & Hp).
    { intros key Hin. rewrite Hk1 in Hin. apply elem_of_app in Hin as [Hin|Hin].
      - destruct (Hkeys _ Hin) as (j & Hj & ->). exists j. split; [lia | reflexivity].
      - apply list_elem_of_singleton in Hin as ->. exists k. split; [lia | reflexivity]. }
    subst s1. cbn [query_history natal_placements current_transits current_progressions
                   set_config config] in *.
    split.
    + rewrite Hkeys', Hk1, <- app_assoc. reflexivity.
    + eexists (_ :: entries). split; [by rewrite Hhist, <- app_assoc|].
      split; [by rewrite Hvals, Hv1, <- app_assoc|].
      split; [cbn [map h_config]; f_equal; exact Hcfg|].
      split; [by constructor|]. by repeat split.
Qed.

(** X13 (the history of a sweep).  [compare_configurations] stores its
    responses under the keys config_0, config_1, ... in order, and appends
    to the query history one entry per configuration, in order: the
    question, the response stored for that configuration, and the export
    of that configuration (not of the one restored at the end). *)
Theorem compare_configurations_history (self : AdjustableConsciousness.t) (q : string)
    (configs : list ConsciousnessConfiguration) (rng rng' : RngState)
    (results : list (string * VirtualConsciousnessResponse))
    (self' : AdjustableConsciousness.t) :
  compare_configurations self q configs rng = Ok ((results, self'), rng') ->
  dict_keys results = map (fun i : nat => "config_" +:+ pretty i) (seq 0 (length configs)) /\
  exists entries,
    query_history self' = query_history self ++ entries /\
    map h_response entries = dict_values results /\
    map h_config entries = map (fun c => _export_current_config (set_config c self)) configs /\
    Forall (fun en => h_question en = q) entries.
Proof.
  unfold compare_configurations. intros H.
  apply bind_Ok in H as ([results1 self1] & rng1 & Hloop & H).
  apply ret_Ok in H as [[= -> ->] ->].
  destruct (compare_loop_history q configs 0 [] self rng results1 self1 rng1 Hloop)
    as (Hkeys & entries & Hhist & Hvals & Hcfg & Hqs & _).
  { intros key Hin. by apply elem_of_nil in Hin. }
  split; [exact Hkeys|]. exists entries. cbn [query_history set_config].
  by repeat split.
Qed.

(** The step of [evolve_over_time] reads neither the time point nor the
    transits set before. *)
Lemma evolve_step_ignores q responses self time_point time_point' dt ts :
  evolve_step q (responses, add_transits self dt ts) time_point
  = evolve_step q (responses, remove_transits self) time_point'.
Proof. reflexivity. Qed.

Lemma evolve_loop_ignores q (tps tps' : list Z) :
  length tps = length tps' ->
  forall acc rng, foldM (evolve_step q) acc tps rng = foldM (evolve_step q) acc tps' rng.
Proof.
  revert tps'. induction tps as [|tp tps IH]; intros [|tp' tps'] Hlen acc rng;
    try discriminate; [reflexivity|].
  cbn [foldM]. destruct acc as [responses self]. apply bind_ext; [reflexivity|].
  intros acc1 rng1. apply IH. by injection Hlen.
Qed.

Lemma evolve_loop_state q (tps : list Z) :
  forall responses0 self0 rng responses self' rng',
    foldM (evolve_step q) (responses0, self0) tps rng = Ok ((responses, self'), rng') ->
    length responses = (length responses0 + length tps)%nat /\
    length (query_history self') = (length (query_history self0) + length tps)%nat /\
    config self' = config self0 /\
    natal_placements self' = natal_placements self0 /\
    current_progressions self' = current_progressions self0 /\
    current_transits self' = match tps with [] => current_transits self0 | _ => None end.
Proof.
  induction tps as [|tp tps IH]; intros responses0 self0 rng responses self' rng' Hrun.
  - injection Hrun as <- <- <-. rewrite !Nat.add_0_r. by repeat split.
  - cbn [foldM] in Hrun. apply bind_Ok in Hrun as ([responses1 self1] & rng1 & Hstep & Hrun).
    unfold evolve_step in Hstep.
    apply bind_Ok in Hstep as ([resp s1] & rng2 & Hq & Hstep).
    apply ret_Ok in Hstep as [[= -> ->] ->].
    unfold AdjustableConsciousness.query in Hq.
    apply run_query_inv in Hq as (te & rngt & raw & te' & _ & _ & _ & ->).
    apply IH in Hrun as (Hlen & Hhist & Hcfg & Hn & Hp & Ht).
    cbn [remove_transits add_transits query_history config natal_placements
         current_progressions current_transits] in *.
    rewrite length_app in Hlen, Hhist. cbn [length] in *.
    split; [lia|]. split; [lia|]. split; [exact Hcfg|]. split; [exact Hn|].
    split; [exact Hp|]. by destruct tps.
Qed.

(** X14 (evolution over time).  [evolve_over_time] reads neither the values
    of the time points nor the transits set before the call: with at least
    one time point, two runs over equally many time points give the same
    result, whatever transits were set; the run gives one response per time
    point, appends one history entry per time point, and leaves the
    consciousness without transits. *)
Theorem evolve_over_time_ignores_times (self : AdjustableConsciousness.t) (q : string)
    (dt : Z) (ts : list Placement) (tps tps' : list Z) (rng : RngState) :
  tps <> [] -> length tps = length tps' ->
  evolve_over_time (add_transits self dt ts) q tps rng
    = evolve_over_time (remove_transits self) q tps' rng /\
  forall responses self' rng',
    evolve_over_time (add_transits self dt ts) q tps rng = Ok ((responses, self'), rng') ->
    length responses = length tps /\
    length (query_history self') = (length (query_history self) + length tps)%nat /\
    current_transits self' = None.
Proof.
  intros Hne Hlen. split.
  - unfold evolve_over_time. destruct tps as [|tp tps]; [done|].
    destruct tps' as [|tp' tps']; [discriminate|]. cbn [foldM].
    apply bind_ext; [by rewrite (evolve_step_ignores q [] self tp tp' dt ts)|].
    intros acc1 rng1. apply evolve_loop_ignores. by injection Hlen.
  - intros responses self' rng' Hrun. unfold evolve_over_time in Hrun.
    apply evolve_loop_state in Hrun as (Hl & Hh & _ & _ & _ & Ht).
    cbn [add_transits query_history length] in *. split; [exact Hl|]. split; [exact Hh|].
    by destruct tps.
Qed.

(** X15 (adjusting a sensitivity).  [adjust_awareness_sensitivity] never
    adds a key: for a system that the configuration does not list it
    changes nothing.  For a listed system it stores the sensitivity as
    given, so that the next adjustment of a response multiplies that
    system's score by it and clamps the product to [0, 1]; the scores of
    the other systems are adjusted as before. *)
Theorem adjust_awareness_sensitivity_applied (self : AdjustableConsciousness.t)
    (system : string) (sensitivity : R) (response : VirtualConsciousnessResponse) :
  let self' := adjust_awareness_sensitivity self system sensitivity in
  dom (awareness_sensitivity (config self')) = dom (awareness_sensitivity (config self)) /\
  (awareness_sensitivity (config self) !! system = None -> self' = self) /\
  (is_Some (awareness_sensitivity (config self) !! system) ->
   forall score, awareness_scores response !! system = Some score ->
     awareness_scores (_apply_awareness_adjustments self' response) !! system
       = Some (Rmin 1 (Rmax 0 (score * sensitivity)))) /\
  (forall other, other <> system ->
     awareness_scores (_apply_awareness_adjustments self' response) !! other
       = awareness_scores (_apply_awareness_adjustments self response) !! other).
Proof.
  intros self'. unfold self', adjust_awareness_sensitivity.
  destruct (decide (is_Some (awareness_sensitivity (config self) !! system))) as [Hs|Hs].
  - rewrite (bool_decide_eq_true_2 _ Hs). cbn [config set_config awareness_sensitivity].
    split; [|split; [|split]].
    + rewrite dom_insert_L. apply subseteq_union_1_L, singleton_subseteq_l, elem_of_dom.
      exact Hs.
    + intros Hnone. rewrite Hnone in Hs. by destruct Hs.
    + intros _ score Hscore. unfold _apply_awareness_adjustments.
      cbn [awareness_scores]. rewrite map_lookup_imap, Hscore. cbn.
      unfold adjusted_score. cbn [config set_config awareness_sensitivity].
      by rewrite lookup_insert_eq, py_min_Rmin, py_max_Rmax.
    + intros other Hne. unfold _apply_awareness_adjustments. cbn [awareness_scores].
      rewrite !map_lookup_imap. destruct (awareness_scores response !! other); [|reflexivity].
      cbn. unfold adjusted_score. cbn [config set_config awareness_sensitivity].
      by rewrite lookup_insert_ne by congruence.
  - rewrite (bool_decide_eq_false_2 _ Hs). split; [reflexivity|].
    split; [reflexivity|]. split; [intros H; contradiction|]. reflexivity.
Qed.

End AdjustableFurther.

(** ** The simplified response *)

Section Sorting.
Context {A : Type} (key : A -> R).

Lemma insert_reverse_perm (x : A) (l : list A) :
  Permutation (insert_reverse key x l) (x :: l).
Proof.
  induction l as [|y l IH]; simpl; [reflexivity|].
  destruct (Rle_dec (key y) (key x)); [reflexivity|].
  rewrite IH. apply perm_swap.
Qed.

Lemma sorted_reverse_perm (l : list A) : Permutation (sorted_reverse key l) l.
Proof.
  induction l as [|x l IH]; simpl; [reflexivity|].
  rewrite insert_reverse_perm. by constructor.
Qed.

(** Sorting a list whose elements come in increasing position: each element
    of the result has a larger key than the ones after it, or the same key
    and a smaller position. *)
Lemma sorted_reverse_ranked (pos : A -> Z) (l : list A) :
  StronglySorted (fun x y => (pos x < pos y)%Z) l ->
  StronglySorted (fun x y => key y < key x \/ (key y = key x /\ (pos x < pos y)%Z))
                 (sorted_reverse key l).
Proof.
  set (R' := fun x y => key y < key x \/ (key y = key x /\ (pos x < pos y)%Z)).
  assert (Hins : forall x l0,
             Forall (fun y => (pos x < pos y)%Z) l0 ->
             StronglySorted R' l0 -> StronglySorted R' (insert_reverse key x l0)).
  { intros x l0. induction l0 as [|y l0 IH]; intros Hpos Hs; simpl.
    - repeat constructor.
    - apply Forall_cons in Hpos as [Hxy Hpos].
      apply StronglySorted_inv in Hs as [Hs Hy].
      destruct (Rle_dec (key y) (key x)) as [Hle|Hgt].
      + constructor; [by constructor|]. constructor.
        * unfold R'. destruct Hle as [?|Heq]; [by left | right; by split].
        * rewrite Forall_forall in Hy, Hpos. apply Forall_forall. intros z Hz.
          specialize (Hy _ Hz). specialize (Hpos _ Hz). unfold R' in *.
          destruct Hy as [?|[? _]]; destruct Hle as [?|?]; first [left; lra | right; split; [lra | lia]].
      + constructor; [by apply IH|].
        rewrite insert_reverse_perm. constructor; [|exact Hy]. unfold R'. left. lra. }
  induction 1 as [|x l0 Hs IH Hx]; simpl; [constructor|].
  apply Hins; [|exact IH]. by rewrite sorted_reverse_perm.
Qed.

Lemma strongly_sorted_app (R' : A -> A -> Prop) (l1 l2 : list A) :
  StronglySorted R' (l1 ++ l2) ->
  StronglySorted R' l1 /\ forall x y, x ∈ l1 -> y ∈ l2 -> R' x y.
Proof.
  induction l1 as [|a l1 IH]; cbn [app]; intros Hs.
  - split; [constructor|]. intros x y Hx. by apply elem_of_nil in Hx.
  - apply StronglySorted_inv in Hs as [Hs Ha]. destruct (IH Hs) as [Hs1 Hcross].
    apply Forall_app in Ha as [Ha1 Ha2]. split; [by constructor|].
    intros x y Hx Hy. apply elem_of_cons in Hx as [->|Hx]; [|by apply Hcross].
    rewrite Forall_forall in Ha2. by apply Ha2.
Qed.

Lemma max_by_spec (x : A) (l : list A) :
  let b := foldl (fun best y => if Rlt_dec (key best) (key y) then y else best) x l in
  exists i, (x :: l) !! i = Some b /\
    forall j y, (x :: l) !! j = Some y ->
      key y <= key b /\ ((j < i)%nat -> key y < key b).
Proof.
  induction l as [|z l IH] using rev_ind; cbn zeta.
  - cbn [foldl]. exists 0%nat. split; [reflexivity|]. intros [|j] y Hy; [|done].
    injection Hy as <-. split; [lra | lia].
  - rewrite foldl_app. cbn [foldl].
    destruct IH as (i & Hi & Hmax). cbv zeta in Hi, Hmax.
    set (b := foldl _ x l) in *.
    assert (Hilt : (i < length (x :: l))%nat) by (by eapply lookup_lt_Some).
    destruct (Rlt_dec (key b) (key z)) as [Hlt|Hge].
    + exists (length (x :: l)). split.
      { change (x :: l ++ [z]) with ((x :: l) ++ [z]).
        rewrite lookup_app_r by lia. by rewrite Nat.sub_diag. }
      intros j y Hy. change (x :: l ++ [z]) with ((x :: l) ++ [z]) in Hy.
      apply lookup_app_Some in Hy as [Hy|[Hj Hy]].
      * destruct (Hmax _ _ Hy) as [Hle _]. split; [lra | intros _; lra].
      * apply list_lookup_singleton_Some in Hy as [_ <-]. split; [lra | lia].
    + exists i. split.
      { change (x :: l ++ [z]) with ((x :: l) ++ [z]). by rewrite lookup_app_l by lia. }
      intros j y Hy. change (x :: l ++ [z]) with ((x :: l) ++ [z]) in Hy.
      apply lookup_app_Some in Hy as [Hy|[Hj Hy]].
      * by apply Hmax.
      * apply list_lookup_singleton_Some in Hy as [_ <-]. split; [lra | lia].
Qed.

End Sorting.

Section SimplifyFacts.
Import Core VirtualConsciousnessEngine VirtualConsciousnessAPI.

Lemma seqZ_sorted (m : Z) (n : nat) (l : list (Z * R)) :
  l.*1 = seqZ m (Z.of_nat n) ->
  StronglySorted (fun x y : Z * R => (x.1 < y.1)%Z) l.
Proof.
  revert m l. induction n as [|n IH]; intros m l Hl.
  - destruct l; [constructor | discriminate].
  - rewrite Nat2Z.inj_succ, seqZ_cons in Hl by lia.
    destruct l as [|p l]; [discriminate|]. injection Hl as Hp Hl.
    replace (Z.pred (Z.succ (Z.of_nat n))) with (Z.of_nat n) in Hl by lia.
    constructor; [by eapply IH|].
    apply Forall_forall. intros q Hq.
    assert (Hq1 : q.1 ∈ seqZ (Z.succ m) (Z.of_nat n)).
    { rewrite <- Hl. apply list_elem_of_fmap. by exists q. }
    apply elem_of_seqZ in Hq1. lia.
Qed.

(** X16 (top gates).  For a response that lists its gates in increasing
    order (as the engine does), [_simplify_response] keeps the
    min(5, n) gates with the highest scores, the higher score first and,
    among equal scores, the lower gate number first; every gate left out
    ranks after every gate kept. *)
Theorem simplify_response_top_gates (response : VirtualConsciousnessResponse)
    (s : SimpleResponse) :
  (codon_activations response).*1
    = seqZ 1 (Z.of_nat (length (codon_activations response))) ->
  _simplify_response response = Return s ->
  length (top_gates s) = Nat.min 5 (length (codon_activations response)) /\
  StronglySorted ranked_before (top_gates s) /\
  (forall p, p ∈ top_gates s -> p ∈ codon_activations response) /\
  (forall p q, p ∈ top_gates s -> q ∈ codon_activations response ->
               q ∉ top_gates s -> ranked_before p q).
Proof.
  intros Hgates. unfold _simplify_response.
  destruct (max_by _ (field_states response)) as [best|];
    cbn [from_option mbind outcome_bind]; [|discriminate].
  intros [= <-]. cbn [top_gates].
  set (sorted := sorted_reverse (fun x : Z * R => x.2) (codon_activations response)).
  pose proof (sorted_reverse_perm (fun x : Z * R => x.2) (codon_activations response)) as Hperm.
  fold sorted in Hperm.
  assert (Hsorted : StronglySorted ranked_before sorted).
  { apply (sorted_reverse_ranked (fun x : Z * R => x.2) (fun x : Z * R => x.1)).
    by eapply seqZ_sorted. }
  split; [|split; [|split]].
  - rewrite length_take, (Permutation_length Hperm). lia.
  - rewrite <- (take_drop 5 sorted) in Hsorted.
    by apply strongly_sorted_app in Hsorted as [Hsorted _].
  - intros p Hp. rewrite <- Hperm. apply elem_of_take in Hp as (i & Hi & _).
    by eapply list_elem_of_lookup_2.
  - intros p q Hp Hq Hnot. rewrite <- Hperm, <- (take_drop 5 sorted) in Hq.
    apply elem_of_app in Hq as [Hq|Hq]; [contradiction|].
    rewrite <- (take_drop 5 sorted) in Hsorted.
    apply strongly_sorted_app in Hsorted as [_ Hcross]. by apply Hcross.
Qed.

(** X17 (dominant field and confidence).  [_simplify_response] raises
    [ValueError] exactly when the response has no field states.  Otherwise
    the dominant field is the first of the fields with the highest
    activation, and the confidence is 'high' for a coherence level above
    0.75, 'medium' above 0.5 and up to 0.75, and 'low' up to 0.5. *)
Theorem simplify_response_dominant_field (response : VirtualConsciousnessResponse) :
  match _simplify_response response with
  | Throw e => e = ValueError /\ field_states response = []
  | Return s =>
      (exists i st,
          field_states response !! i = Some (dominant_field s, st) /\
          forall j n st', field_states response !! j = Some (n, st') ->
            activation st' <= activation st /\ ((j < i)%nat -> activation st' < activation st)) /\
      (0.75 < coherence_level response -> confidence s = "high") /\
      (0.5 < coherence_level response <= 0.75 -> confidence s = "medium") /\
      (coherence_level response <= 0.5 -> confidence s = "low")
  end.
Proof.
  unfold _simplify_response, max_by.
  destruct (field_states response) as [|x l] eqn:Hfs; cbn; [by split|].
  split.
  - destruct (max_by_spec (fun x : string * ConsciousnessState => activation x.2) x l)
      as (i & Hi & Hmax).
    cbv zeta in Hi, Hmax.
    set (b := foldl _ x l) in *. exists i, b.2. split; [by destruct b|].
    intros j n st' Hj. exact (Hmax j (n, st') Hj).
  - repeat split; intros Hc.
    + destruct (Rlt_dec 0.75 (coherence_level response)); [reflexivity | lra].
    + destruct (Rlt_dec 0.75 (coherence_level response)); [lra|].
      destruct (Rlt_dec 0.50 (coherence_level response)); [reflexivity | lra].
    + destruct (Rlt_dec 0.75 (coherence_level response)); [lra|].
      destruct (Rlt_dec 0.50 (coherence_level response)); [lra | reflexivity].
Qed.

End SimplifyFacts.

(** ** The optimal configuration *)

Section ProgramFacts.
Context `{rt : Runtime}.

Lemma program_bind_Return {A B} (m : Program A) (k : A -> Program B) rng b rng' :
  (m ≫= k) rng = Return (b, rng') ->
  exists a rng1, m rng = Return (a, rng1) /\ k a rng1 = Return (b, rng').
Proof.
  unfold mbind, Program_bind. destruct (m rng) as [[a rng1]|e]; [|discriminate].
  intros H. by exists a, rng1.
Qed.

Lemma run_Return {A} (m : Torch A) rng a rng' :
  run m rng = Return (a, rng') <-> m rng = Ok (a, rng').
Proof.
  unfold run, of_result. destruct (m rng) as [[a0 rng0]|e]; split; intros H; try discriminate.
  - by injection H as -> ->.
  - by injection H as -> ->.
Qed.

Lemma step_Return {A} (m : outcome A) rng a rng' :
  step m rng = Return (a, rng') <-> m = Return a /\ rng' = rng.
Proof.
  unfold step. destruct m as [a0|e]; split; intros H; try discriminate.
  - by injection H as -> ->.
  - destruct H as [[= ->] ->]. reflexivity.
  - by destruct H.
Qed.

End ProgramFacts.

Section OptimalFacts.
Context `{rt : Runtime}.
Import Core VirtualConsciousnessEngine AdjustableConsciousness
       AdjustableConsciousness.

(** A key of a sweep over six configurations gives back its index. *)
Lemma config_key_round_trip (i : nat) :
  (i < 6)%nat ->
  tensor_get (split "_"%char (config_key i)) 1 = Ok (pretty i) /\
  int_of_string (pretty i) = Some (Z.of_nat i).
Proof.
  intros Hi. do 6 (destruct i as [|i]; [split; vm_compute; reflexivity|]). lia.
Qed.

Lemma dict_keys_lookup {V : Type} (d : list (string * V)) (i : nat) (k : string) (v : V) :
  d !! i = Some (k, v) -> dict_keys d !! i = Some k.
Proof. intros H. unfold dict_keys. change (map ?f ?l) with (f <$> l). by rewrite list_lookup_fmap, H. Qed.

(** The best response of a sweep over the six test configurations. *)
Lemma sweep_best (self : AdjustableConsciousness.t) (q metric : string)
    (rng rng' : RngState) (results : list (string * VirtualConsciousnessResponse))
    (self' : AdjustableConsciousness.t) :
  compare_configurations self q (_generate_test_configurations self) rng
    = Ok ((results, self'), rng') ->
  exists i resp,
    max_by (metric_value metric) results = Some (config_key i, resp) /\
    (i < 6)%nat /\
    results !! i = Some (config_key i, resp) /\
    (forall j k r, results !! j = Some (k, r) ->
       metric_value metric (k, r) <= metric_value metric (config_key i, resp) /\
       ((j < i)%nat ->
        metric_value metric (k, r) < metric_value metric (config_key i, resp))) /\
    config self' = config self /\
    length (query_history self') = (length (query_history self) + 6)%nat.
Proof.
  intros Hsweep. unfold compare_configurations in Hsweep.
  apply bind_Ok in Hsweep as ([results1 s0] & rng0 & Hloop & Hcmp).
  apply ret_Ok in Hcmp as [[= <- ->] <-].
  destruct (compare_loop_history q (_generate_test_configurations self) 0 [] self
              rng results s0 rng' Hloop)
    as (Hkeys & entries & Hhist & Hvals & Hcfgs & _).
  { intros key Hin. by apply elem_of_nil in Hin. }
  cbn [app dict_keys map] in Hkeys.
  destruct results as [|x l]; [discriminate Hkeys|]. cbn [max_by].
  destruct (max_by_spec (metric_value metric) x l) as (i & Hi & Hmax).
  cbv zeta in Hi, Hmax.
  set (best := foldl _ x l) in *. destruct best as [bk resp] eqn:Hbest.
  assert (Hbk : bk = config_key i /\ (i < 6)%nat).
  { pose proof (dict_keys_lookup _ _ _ _ Hi) as Hk. unfold dict_keys in Hkeys, Hk.
    rewrite Hkeys in Hk. change (map ?f ?l) with (f <$> l) in Hk.
    rewrite list_lookup_fmap in Hk.
    destruct (seq 0 (length (_generate_test_configurations self)) !! i) as [i'|] eqn:Hseq;
      [|discriminate].
    apply lookup_seq in Hseq as [-> Hlt]. cbn in Hk. injection Hk as <-.
    split; [reflexivity | exact Hlt]. }
  destruct Hbk as [-> Hi6].
  exists i, resp. split; [reflexivity|]. split; [exact Hi6|]. split; [exact Hi|].
  split.
  { intros j k r Hj. exact (Hmax j (k, r) Hj). }
  split; [reflexivity|]. cbn [query_history set_config]. rewrite Hhist, length_app.
  f_equal. rewrite <- (length_map h_config), Hcfgs, length_map. reflexivity.
Qed.

(** After a sweep that returned, reading the index back and fetching the
    configuration raise nothing. *)
Lemma get_optimal_configuration_after_sweep (self : AdjustableConsciousness.t)
    (q metric : string) (rng rng' : RngState)
    (results : list (string * VirtualConsciousnessResponse))
    (self' : AdjustableConsciousness.t) :
  compare_configurations self q (_generate_test_configurations self) rng
    = Ok ((results, self'), rng') ->
  exists i resp cfg,
    max_by (metric_value metric) results = Some (config_key i, resp) /\
    _generate_test_configurations self !! i = Some cfg /\
    get_optimal_configuration self q metric rng = Return ((cfg, self'), rng').
Proof.
  intros Hsweep.
  destruct (sweep_best self q metric rng rng' results self' Hsweep)
    as (i & resp & Hbest & Hi6 & _).
  destruct (config_key_round_trip i Hi6) as [Hsplit Hint].
  destruct (lookup_lt_is_Some_2 (_generate_test_configurations self) i) as [cfg Hcfg];
    [exact Hi6|].
  exists i, resp, cfg. split; [exact Hbest|]. split; [exact Hcfg|].
  unfold get_optimal_configuration, mbind, Program_bind, run.
  rewrite Hsweep. cbn [of_result]. unfold step at 1. rewrite Hbest. cbn [from_option fst].
  unfold step at 1. rewrite Hsplit. cbn [of_result].
  unfold step at 1. rewrite Hint. cbn [from_option].
  unfold step at 1. apply tensor_get_nat in Hcfg. rewrite Hcfg. reflexivity.
Qed.

(** X18 (the optimal configuration).  When [get_optimal_configuration]
    returns, it returns the test configuration number i for which the
    sweep over the six test configurations stored, under the key config_i,
    the first of the responses with the highest value of the metric (the
    coherence level for an unknown metric); the index is read back from
    the key without loss.  The configuration of the consciousness is the
    one it had before, and the history has grown by six entries. *)
Theorem get_optimal_configuration_is_best (self : AdjustableConsciousness.t)
    (q metric : string) (rng rng' : RngState)
    (cfg : ConsciousnessConfiguration) (self' : AdjustableConsciousness.t) :
  get_optimal_configuration self q metric rng = Return ((cfg, self'), rng') ->
  exists results i resp,
    compare_configurations self q (_generate_test_configurations self) rng
      = Ok ((results, self'), rng') /\
    results !! i = Some ("config_" +:+ pretty i, resp) /\
    _generate_test_configurations self !! i = Some cfg /\
    (forall j k r, results !! j = Some (k, r) ->
       metric_value metric (k, r) <= metric_value metric ("config_" +:+ pretty i, resp) /\
       ((j < i)%nat ->
        metric_value metric (k, r) < metric_value metric ("config_" +:+ pretty i, resp))) /\
    config self' = config self /\
    length (query_history self') = (length (query_history self) + 6)%nat.
Proof.
  intros H. pose proof H as Hrun. unfold get_optimal_configuration in H.
  apply program_bind_Return in H as ([results s1] & rng1 & Hsweep & H).
  apply run_Return in Hsweep.
  destruct (sweep_best self q metric rng rng1 results s1 Hsweep)
    as (i & resp & Hbest & Hi6 & Hi & Hmax & Hcfg & Hhist).
  destruct (get_optimal_configuration_after_sweep self q metric rng rng1 results s1 Hsweep)
    as (i' & resp' & cfg' & Hbest' & Hcfg' & Hrun').
  rewrite Hrun in Hrun'. injection Hrun' as <- <- <-.
  rewrite Hbest in Hbest'. apply (inj Some) in Hbest'.
  pose proof (f_equal fst Hbest') as Hkey. pose proof (f_equal snd Hbest') as Hresp.
  cbn [fst snd] in Hkey, Hresp. apply config_key_inj in Hkey. subst i' resp'.
  exists results, i, resp. unfold config_key in *.
  split; [exact Hsweep|]. split; [exact Hi|]. split; [exact Hcfg'|].
  split; [exact Hmax|]. split; [exact Hcfg | exact Hhist].
Qed.

End OptimalFacts.

(** ** The API *)

Section ApiFacts.
Context `{rt : Runtime}.
Import Core VirtualConsciousnessEngine AdjustableConsciousness
       VirtualConsciousnessAPI.

Lemma api_query_inv api sq rng simple api' rng' :
  VirtualConsciousnessAPI.query api sq rng = Return ((simple, api'), rng') ->
  let api1 := charted (focused api sq) sq in
  exists response c',
    AdjustableConsciousness.query (consciousness api1) (VirtualConsciousnessAPI.question sq)
      (include_transits sq) true 1 rng = Ok ((response, c'), rng') /\
    _simplify_response response = Return simple /\
    api' = VirtualConsciousnessAPI.mk c' (focus_presets api1) (alias api1).
Proof.
  unfold VirtualConsciousnessAPI.query. fold (focused api sq).
  fold (charted (focused api sq) sq). intros H. cbv zeta.
  apply program_bind_Return in H as ([response c'] & rng1 & Hq & H).
  apply run_Return in Hq.
  apply program_bind_Return in H as (s & rng2 & Hs & H).
  apply step_Return in Hs as [Hs ->].
  injection H as -> <- ->. by exists response, c'.
Qed.

Lemma adjustable_query_config self q ut up strength rng resp self' rng' :
  AdjustableConsciousness.query self q ut up strength rng = Ok ((resp, self'), rng') ->
  config self' = config self /\
  query_history self'
    = query_history self ++ [mkEntry q resp (_export_current_config self)].
Proof.
  unfold AdjustableConsciousness.query. intros H.
  apply run_query_inv in H as (te & rng1 & raw & te' & _ & _ & _ & ->). by split.
Qed.

Lemma charted_sensitivity api sq :
  awareness_sensitivity (config (consciousness (charted api sq)))
    = awareness_sensitivity (config (consciousness api)).
Proof.
  unfold charted. by destruct (dict_get _ chart_system_map).
Qed.

Lemma focused_preset api q f it cs preset :
  f <> "" -> dict_get f (focus_presets api) = Some preset ->
  focused api (mkQuery q (Some f) it cs) = use_preset api f preset.
Proof.
  intros Hf Hpreset. unfold focused. cbn [focus].
  by rewrite bool_decide_eq_false_2, Hpreset by exact Hf.
Qed.

(** The sensitivities under which a query runs and which it leaves in
    force: those in force before, unless a focus names a preset. *)
Lemma api_query_sensitivity api sq rng simple api' rng' :
  VirtualConsciousnessAPI.query api sq rng = Return ((simple, api'), rng') ->
  awareness_sensitivity (config (consciousness api'))
    = awareness_sensitivity (config (consciousness (focused api sq))) /\
  exists en,
    last (query_history (consciousness api')) = Some en /\
    h_question en = VirtualConsciousnessAPI.question sq /\
    x_awareness_sensitivity (h_config en)
      = awareness_sensitivity (config (consciousness (focused api sq))).
Proof.
  intros Hq. apply api_query_inv in Hq as (resp & c' & Hrun & _ & ->). cbv zeta in Hrun.
  apply adjustable_query_config in Hrun as [Hcfg Hhist].
  change (consciousness (VirtualConsciousnessAPI.mk c' _ _)) with c'.
  rewrite Hcfg, Hhist, charted_sensitivity. split; [reflexivity|].
  eexists. rewrite last_snoc. split; [reflexivity|]. split; [reflexivity|].
  cbn [h_config _export_current_config x_awareness_sensitivity].
  apply charted_sensitivity.
Qed.

(** X19 (the focus persists).  A query with a focus that names a preset
    runs under the sensitivities of that preset, and so does every later
    query without a focus: leaving the focus out does not go back to the
    configuration that was in force before.  The history records it. *)
Theorem api_focus_persists (api : VirtualConsciousnessAPI.t)
    (q1 f cs1 : string) (it1 : bool) (preset : ConsciousnessConfiguration)
    (rng rng1 : RngState) (r1 : SimpleResponse) (api1 : VirtualConsciousnessAPI.t) :
  f <> "" ->
  dict_get f (focus_presets api) = Some preset ->
  VirtualConsciousnessAPI.query api (mkQuery q1 (Some f) it1 cs1) rng
    = Return ((r1, api1), rng1) ->
  awareness_sensitivity (config (consciousness api1)) = awareness_sensitivity preset /\
  forall q2 cs2 it2 rng2 r2 api2 rng3,
    VirtualConsciousnessAPI.query api1 (mkQuery q2 None it2 cs2) rng2
      = Return ((r2, api2), rng3) ->
    awareness_sensitivity (config (consciousness api2)) = awareness_sensitivity preset /\
    exists en,
      last (query_history (consciousness api2)) = Some en /\
      h_question en = q2 /\
      x_awareness_sensitivity (h_config en) = awareness_sensitivity preset.
Proof.
  intros Hf Hpreset Hq1.
  apply api_query_sensitivity in Hq1 as [Hs1 _].
  rewrite (focused_preset api q1 f it1 cs1 preset Hf Hpreset) in Hs1.
  change (config (consciousness (use_preset api f preset))) with preset in Hs1.
  split; [exact Hs1|].
  intros q2 cs2 it2 rng2 r2 api2 rng3 Hq2.
  apply api_query_sensitivity in Hq2 as [Hs2 (en & Hlast & Hqn & Hsn)].
  change (focused api1 (mkQuery q2 None it2 cs2)) with api1 in Hs2, Hsn.
  split; [by rewrite Hs2|]. exists en. split; [exact Hlast|]. split; [exact Hqn|].
  by rewrite Hsn.
Qed.

(** X20 (a preset is changed in place).  The configuration that a focus
    puts in force is the preset object itself, and setting the chart
    system writes to that object: after a query with a focus and a chart
    system that the API knows, the preset stored under that focus has the
    chart system of the query, with its sensitivities as before. *)
Theorem api_query_changes_preset (api : VirtualConsciousnessAPI.t)
    (q f cs : string) (it : bool) (preset : ConsciousnessConfiguration)
    (system : ChartSystem) (rng rng1 : RngState) (r : SimpleResponse)
    (api1 : VirtualConsciousnessAPI.t) :
  f <> "" ->
  dict_get f (focus_presets api) = Some preset ->
  dict_get cs chart_system_map = Some system ->
  VirtualConsciousnessAPI.query api (mkQuery q (Some f) it cs) rng
    = Return ((r, api1), rng1) ->
  exists preset',
    dict_get f (focus_presets api1) = Some preset' /\
    primary_chart_system preset' = system /\
    awareness_sensitivity preset' = awareness_sensitivity preset /\
    config (consciousness api1) = preset'.
Proof.
  intros Hf Hpreset Hcs Hq.
  apply api_query_inv in Hq as (resp & c1 & Hrun & _ & ->). cbv zeta in Hrun.
  apply adjustable_query_config in Hrun as [Hcfg _].
  rewrite (focused_preset api q f it cs preset Hf Hpreset) in *.
  unfold charted in *. cbn [VirtualConsciousnessAPI.chart_system] in *. rewrite Hcs in *.
  cbn [VirtualConsciousnessAPI.set_chart_system use_preset alias consciousness
       focus_presets] in *.
  eexists. split; [apply dict_get_set_eq|].
  split; [reflexivity|]. split; [reflexivity|]. exact Hcfg.
Qed.

End ApiFacts.

Section ApiTotal.
Context `{rt : Runtime}.
Import Core VirtualConsciousnessEngine AdjustableConsciousness
       VirtualConsciousnessAPI.

Lemma returns_inv {A} (m : Torch A) (P : A -> Prop) rng a rng' :
  returns m P -> m rng = Ok (a, rng') -> P a.
Proof.
  intros Hm Hrun. destruct (Hm rng) as (a0 & rng0 & Hrun0 & Ha).
  rewrite Hrun in Hrun0. by injection Hrun0 as -> ->.
Qed.

(** A freshly built engine over placements within range scores 64 gates. *)
Lemma query_returns_gates e q uip :
  topk_contract -> randn_contract ->
  engine_ready e -> Forall wf_placement (birth_placements e) ->
  returns (VirtualConsciousnessEngine.query e q None uip)
          (fun r => length (codon_activations r.1) = 64%nat).
Proof.
  intros Htopk Hrandn (Heven & Hmasks & Hsun & Heval & Hinit & Hnb) Hwf.
  unfold VirtualConsciousnessEngine.query.
  eapply returns_bind; [by apply intention_features_returns|]. intros nf Hnf.
  assert (Hsc : exists sc, observer_sun_context e None = Ok sc).
  { unfold observer_sun_context. cbn [mbind option_bind].
    destruct (body_sun e) as [sun|] eqn:Hbs; [|by eexists].
    apply encode_sun_context_ok.
    rewrite Forall_forall in Hwf. apply Hwf.
    apply find_body_sun_elem_of. congruence. }
  destruct Hsc as [sc Hsc].
  eapply returns_bind; [eapply returns_lift with (P := fun _ => True); [exact Hsc | exact I]|].
  intros sc' _. unfold observe.
  eapply returns_bind; [by apply forward_ok|]. intros out [Hscores Hemb].
  rewrite Hinit, Hnb.
  destruct (initialize_ok (QuantumHDNet.node_embeddings out)) as (nb & Hnb' & Hflds);
    [congruence|].
  eapply returns_bind;
    [exact (returns_lift _ _
              (fun nb => forall n fld,
                   (n, fld) ∈ NineBodyConsciousness.fields nb -> field_ok fld)
              Hnb' Hflds)|].
  intros nb' Hflds'.
  destruct (collapse_all_fields_ok nb' (QuantumHDNet.codon_scores out)
              (QuantumHDNet.awareness out) (QuantumHDNet.awareness_vectors out)
              Htopk Hflds') as [states Hstates]; [congruence|].
  eapply returns_bind; [eapply returns_lift with (P := fun _ => True);
                        [exact Hstates | exact I]|].
  intros fs _. apply returns_ret. cbn [fst codon_activations].
  rewrite length_imap. congruence.
Qed.

Lemma used_overlays_wf self ut up :
  adjustable_ready self -> Forall wf_placement (natal_placements self ++ used_overlays self ut up).
Proof.
  intros (Hn & Ht & Hp). unfold used_overlays.
  apply Forall_app. split; [exact Hn|]. apply Forall_app. split.
  - destruct ut; [|constructor]. destruct (current_transits self) as [l|]; [by apply Ht | constructor].
  - destruct up; [|constructor].
    destruct (current_progressions self) as [l|]; [by apply Hp | constructor].
Qed.

Lemma adjusted_fields_keys self (response : VirtualConsciousnessResponse) :
  dict_keys (field_states (_apply_field_adjustments self response))
  = dict_keys (field_states response).
Proof.
  unfold _apply_field_adjustments, dict_keys. cbn [field_states].
  rewrite map_map. apply map_ext. intros [n st].
  by destruct (field_emphasis (config self) !! n).
Qed.

(** The response of a query of the adjustable consciousness over
    placements within range. *)
Lemma adjustable_query_shape self q ut up strength rng resp self' rng' :
  topk_contract -> randn_contract -> adjustable_ready self ->
  AdjustableConsciousness.query self q ut up strength rng = Ok ((resp, self'), rng') ->
  length (codon_activations resp) = 64%nat /\
  dict_keys (field_states resp) = dict_keys CONSCIOUSNESS_FIELDS /\
  dict_keys (narrative_seeds resp) = ["spleen"; "ajna"; "solar"; "core"] /\
  map_Forall (fun _ v => 0 <= v <= 1) (awareness_scores resp) /\
  0 < coherence_level resp <= 1.
Proof.
  intros Htopk Hrandn Hready Hq. unfold AdjustableConsciousness.query in Hq.
  apply run_query_inv in Hq as (te & rng1 & raw & te' & Hinit & Hraw & -> & _).
  pose proof (engine_init_fields_built _ _ _ _ _ Hinit) as Hbuilt.
  apply engine_init_spec in Hinit as [Hps Hte].
  destruct (query_shape _ _ _ _ _ _ _ _ Hbuilt Hraw)
    as [(_ & _ & _ & Haw & Hkeys & _ & Hseeds & Hcoh) _].
  assert (Hlen : length (codon_activations raw) = 64%nat).
  { apply (returns_inv _ _ _ _ _ (query_returns_gates te q _ Htopk Hrandn Hte
             ltac:(rewrite Hps; by apply used_overlays_wf)) Hraw). }
  split; [exact Hlen|]. split; [by rewrite adjusted_fields_keys|].
  split; [exact Hseeds|]. split; [|exact Hcoh].
  cbn [awareness_scores _apply_field_adjustments _apply_awareness_adjustments].
  intros k v Hkv. rewrite map_lookup_imap in Hkv.
  destruct (awareness_scores raw !! k) as [s|] eqn:Hs; [|discriminate].
  cbn in Hkv. injection Hkv as <-. unfold adjusted_score.
  destruct (awareness_sensitivity (config self) !! k).
  - rewrite py_min_Rmin, py_max_Rmax. apply clamp_bounds.
  - exact (Haw _ _ Hs).
Qed.

Lemma api_query_unfold api sq :
  VirtualConsciousnessAPI.query api sq
  = ('(response, c) ←
        run (AdjustableConsciousness.query (consciousness (charted (focused api sq) sq))
               (VirtualConsciousnessAPI.question sq) (include_transits sq) true 1);
     simple ← step (_simplify_response response);
     mret (simple, VirtualConsciousnessAPI.mk c
                     (focus_presets (charted (focused api sq) sq))
                     (alias (charted (focused api sq) sq)))).
Proof. reflexivity. Qed.

Lemma charted_focused_ready api sq :
  adjustable_ready (consciousness api) ->
  adjustable_ready (consciousness (charted (focused api sq) sq)).
Proof.
  intros Hready. unfold charted, focused.
  destruct (dict_get _ chart_system_map); destruct (focus sq) as [f|];
    try case_bool_decide; try destruct (dict_get f (focus_presets api)); exact Hready.
Qed.

(** X21 (a query through the API).  On a runtime that keeps the contracts
    of [topk] and [randn], for a consciousness whose placements are within
    the documented ranges, every query through the API returns: it raises
    nothing, and its response has exactly five top gates, one of the nine
    fields as dominant field, the four answer seeds, awareness scores in
    [0, 1] and a coherence in (0, 1]. *)
Theorem api_query_returns (api : VirtualConsciousnessAPI.t) (sq : SimpleQuery)
    (rng : RngState) :
  topk_contract -> randn_contract ->
  adjustable_ready (consciousness api) ->
  exists simple api' rng',
    VirtualConsciousnessAPI.query api sq rng = Return ((simple, api'), rng') /\
    length (top_gates simple) = 5%nat /\
    dominant_field simple ∈ dict_keys CONSCIOUSNESS_FIELDS /\
    dict_keys (answer_seeds simple) = ["spleen"; "ajna"; "solar"; "core"] /\
    map_Forall (fun _ v => 0 <= v <= 1) (VirtualConsciousnessAPI.awareness simple) /\
    0 < VirtualConsciousnessAPI.coherence simple <= 1.
Proof.
  intros Htopk Hrandn Hready.
  pose proof (charted_focused_ready api sq Hready) as Hready1.
  set (api1 := charted (focused api sq) sq) in *.
  assert (Hstrength : AdjustableConsciousness.query (consciousness api1)
                        (VirtualConsciousnessAPI.question sq) (include_transits sq) true 1
                      = run_query (consciousness api1) (VirtualConsciousnessAPI.question sq)
                          (include_transits sq) true true).
  { unfold AdjustableConsciousness.query. destruct (Rlt_dec 0 1); [reflexivity | lra]. }
  destruct (run_query_returns (consciousness api1) (VirtualConsciousnessAPI.question sq)
              (include_transits sq) true true Htopk Hrandn Hready1 rng)
    as ([resp c'] & rng' & Hrun & _).
  rewrite <- Hstrength in Hrun.
  destruct (adjustable_query_shape _ _ _ _ _ _ _ _ _ Htopk Hrandn Hready1 Hrun)
    as (Hlen & Hkeys & Hseeds & Haw & Hcoh).
  destruct (max_by (fun x : string * ConsciousnessState => activation x.2)
                   (field_states resp)) as [best|] eqn:Hbest.
  2: { unfold max_by in Hbest. destruct (field_states resp); [discriminate Hkeys | discriminate]. }
  eexists _, (VirtualConsciousnessAPI.mk c' (focus_presets api1) (alias api1)), rng'.
  split.
  { rewrite api_query_unfold. fold api1.
    unfold mbind, Program_bind, run. rewrite Hrun. cbn [of_result].
    unfold step, _simplify_response. rewrite Hbest. cbn [from_option mbind outcome_bind].
    reflexivity. }
  cbn [top_gates dominant_field answer_seeds VirtualConsciousnessAPI.awareness
       VirtualConsciousnessAPI.coherence].
  split.
  { rewrite length_take,
      (Permutation_length (sorted_reverse_perm (fun x : Z * R => x.2) (codon_activations resp))),
      Hlen. reflexivity. }
  split.
  { rewrite <- Hkeys. unfold max_by in Hbest.
    destruct (field_states resp) as [|x l] eqn:Hfs; [discriminate|]. injection Hbest as Hbest.
    destruct (max_by_spec (fun x : string * ConsciousnessState => activation x.2) x l)
      as (i & Hi & _).
    cbv zeta in Hi. rewrite Hbest in Hi. unfold dict_keys.
    change (map ?f ?l) with (f <$> l). apply list_elem_of_fmap. exists best.
    split; [reflexivity | by eapply list_elem_of_lookup_2]. }
  split; [exact Hseeds|]. split; [exact Haw | exact Hcoh].
Qed.

(** A query through the API returns and leaves the placements as they
    were. *)
Lemma api_query_total_state (api : VirtualConsciousnessAPI.t) (sq : SimpleQuery)
    (rng : RngState) :
  topk_contract -> randn_contract ->
  adjustable_ready (consciousness api) ->
  exists simple api' rng',
    VirtualConsciousnessAPI.query api sq rng = Return ((simple, api'), rng') /\
    adjustable_ready (consciousness api').
Proof.
  intros Htopk Hrandn Hready.
  pose proof (charted_focused_ready api sq Hready) as Hready1.
  set (api1 := charted (focused api sq) sq) in *.
  assert (Hstrength : AdjustableConsciousness.query (consciousness api1)
                        (VirtualConsciousnessAPI.question sq) (include_transits sq) true 1
                      = run_query (consciousness api1) (VirtualConsciousnessAPI.question sq)
                          (include_transits sq) true true).
  { unfold AdjustableConsciousness.query. destruct (Rlt_dec 0 1); [reflexivity | lra]. }
  destruct (run_query_returns (consciousness api1) (VirtualConsciousnessAPI.question sq)
              (include_transits sq) true true Htopk Hrandn Hready1 rng)
    as ([resp c'] & rng' & Hrun & _ & Hn & Ht & Hp).
  rewrite <- Hstrength in Hrun. cbn [snd] in Hn, Ht, Hp.
  destruct (adjustable_query_shape _ _ _ _ _ _ _ _ _ Htopk Hrandn Hready1 Hrun)
    as (_ & Hkeys & _).
  destruct (max_by (fun x : string * ConsciousnessState => activation x.2)
                   (field_states resp)) as [best|] eqn:Hbest.
  2: { unfold max_by in Hbest. destruct (field_states resp); [discriminate Hkeys | discriminate]. }
  eexists _, (VirtualConsciousnessAPI.mk c' (focus_presets api1) (alias api1)), rng'.
  split.
  { rewrite api_query_unfold. fold api1.
    unfold mbind, Program_bind, run. rewrite Hrun. cbn [of_result].
    unfold step, _simplify_response. rewrite Hbest. cbn [from_option mbind outcome_bind].
    reflexivity. }
  cbn [consciousness]. destruct Hready1 as (H1 & H2 & H3).
  unfold adjustable_ready. rewrite Hn, Ht, Hp. by repeat split.
Qed.

End ApiTotal.

(** ** The further theorems at the example data *)

Lemma no_body_sun_wf : Forall wf_placement Examples.no_body_sun.
Proof. repeat constructor; simpl; lia. Qed.

Lemma sun_wf : wf_placement Examples.sun.
Proof. split; simpl; lia. Qed.

Lemma evolve_over_time_returns `{rt : Runtime} self q tps :
  topk_contract -> randn_contract -> adjustable_ready self ->
  returns (AdjustableConsciousness.evolve_over_time self q tps) (fun _ => True).
Proof.
  intros Htopk Hrandn Hready. unfold AdjustableConsciousness.evolve_over_time.
  eapply returns_weaken with
    (P := fun acc : list VirtualConsciousnessEngine.VirtualConsciousnessResponse
                    * AdjustableConsciousness.t =>
            Forall wf_placement (AdjustableConsciousness.natal_placements acc.2) /\
            forall l, AdjustableConsciousness.current_progressions acc.2 = Some l ->
                      Forall wf_placement l); [|done].
  apply returns_foldM; [|destruct Hready as (Hn & _ & Hp); by split].
  intros [responses s] tp [Hn Hp]. cbn [snd] in Hn, Hp.
  unfold AdjustableConsciousness.evolve_step.
  assert (Hs : adjustable_ready
                 (AdjustableConsciousness.add_transits s tp
                    (AdjustableConsciousness._calculate_transits_for_time s tp))).
  { split; [exact Hn|]. split; [|exact Hp]. intros l [= <-]. constructor. }
  assert (Hstrength : forall s0,
             AdjustableConsciousness.query s0 q true true 1
             = AdjustableConsciousness.run_query s0 q true true true).
  { intros s0. unfold AdjustableConsciousness.query. destruct (Rlt_dec 0 1); [reflexivity | lra]. }
  rewrite Hstrength.
  eapply returns_bind; [by apply run_query_returns|].
  intros [resp s'] (_ & Hn' & _ & Hp'). apply returns_ret. cbn [snd fst] in *.
  cbn [AdjustableConsciousness.remove_transits AdjustableConsciousness.natal_placements
       AdjustableConsciousness.current_progressions].
  rewrite Hn', Hp'. by split.
Qed.

Lemma adjustable_init_default_returns `{rt : Runtime} (natal : list Core.Placement) (dt : Z)
    (loc : R * R) :
  returns (AdjustableConsciousness.__init__ natal dt loc None)
          (fun self => AdjustableConsciousness.natal_placements self = natal
                       /\ AdjustableConsciousness.current_transits self = None
                       /\ AdjustableConsciousness.current_progressions self = None).
Proof.
  unfold AdjustableConsciousness.__init__.
  eapply returns_bind; [apply engine_init_returns|]. intros e _.
  by apply returns_ret.
Qed.

Lemma api_init_returns `{rt : Runtime} (natal : list Core.Placement) (dt : Z) (loc : R * R) :
  returns (VirtualConsciousnessAPI.__init__ dt loc natal)
          (fun api =>
             AdjustableConsciousness.natal_placements (VirtualConsciousnessAPI.consciousness api)
               = natal
             /\ AdjustableConsciousness.current_transits
                  (VirtualConsciousnessAPI.consciousness api) = None
             /\ AdjustableConsciousness.current_progressions
                  (VirtualConsciousnessAPI.consciousness api) = None
             /\ dict_keys (VirtualConsciousnessAPI.focus_presets api)
                = ["survival"; "mental"; "emotional"; "balanced"]).
Proof.
  unfold VirtualConsciousnessAPI.__init__.
  eapply returns_bind; [apply adjustable_init_default_returns|]. intros c (Hn & Ht & Hp).
  apply returns_ret. cbn [VirtualConsciousnessAPI.consciousness
                          VirtualConsciousnessAPI.focus_presets].
  by repeat split.
Qed.

(** X11 at the reference runtime: the docstring's chart, queried with the
    intention perturbation on. *)
Lemma query_response_well_formed_witness :
  exists e rng1 resp e' rng',
    VirtualConsciousnessEngine.__init__ (rt := Reference.runtime)
      Examples.natal None 0%nat = Ok (e, rng1)
    /\ VirtualConsciousnessEngine.query e "test" None true rng1 = Ok ((resp, e'), rng')
    /\ well_formed_response resp.
Proof.
  destruct (@engine_init_returns Reference.runtime Examples.natal None 0%nat)
    as (e & rng1 & Hinit & Hps & Hready).
  assert (Hwf : Forall wf_placement (VirtualConsciousnessEngine.birth_placements e)).
  { rewrite Hps. exact natal_wf. }
  destruct (@query_returns Reference.runtime e "test" true
              topk_stable_contract reference_randn_contract Hready Hwf rng1)
    as ([resp e'] & rng' & Hrun & _).
  exists e, rng1, resp, e', rng'. split; [exact Hinit|]. split; [exact Hrun|].
  exact (proj1 (@query_response_well_formed Reference.runtime Examples.natal None 0%nat rng1
                  e "test" None true rng1 rng' resp e' Hinit Hrun)).
Defined.

(** X12 at the reference runtime: a natal chart without a body Sun, under a
    transit of the Sun at gate 46, line 3. *)
Lemma query_observer_under_overlays_witness :
  exists self rng resp self' rng',
    AdjustableConsciousness.__init__ (rt := Reference.runtime)
      Examples.no_body_sun 0%Z (0, 0) (Some Examples.amplified) 0%nat = Ok (self, rng)
    /\ AdjustableConsciousness.query
         (AdjustableConsciousness.add_transits self 0 [Examples.sun]) "test" true true 1 rng
       = Ok ((resp, self'), rng')
    /\ VirtualConsciousnessEngine.observer_context resp = (Some 46%Z, Some 3%Z).
Proof.
  destruct (@adjustable_init_returns Reference.runtime Examples.no_body_sun 0%Z (0, 0)
              Examples.amplified 0%nat) as (self & rng & Hinit & _ & Hn & Ht & Hp).
  set (self1 := AdjustableConsciousness.add_transits self 0 [Examples.sun]).
  assert (Hready : adjustable_ready self1).
  { split; [cbn; rewrite Hn; exact no_body_sun_wf|]. split.
    - intros l [= <-]. constructor; [exact sun_wf | constructor].
    - intros l Hl. cbn in Hl. congruence. }
  destruct (@run_query_returns Reference.runtime self1 "test" true true true
              topk_stable_contract reference_randn_contract Hready rng)
    as ([resp self'] & rng' & Hrun & _).
  assert (Hq : AdjustableConsciousness.query self1 "test" true true 1 rng
               = Ok ((resp, self'), rng')).
  { unfold AdjustableConsciousness.query. destruct (Rlt_dec 0 1); [exact Hrun | lra]. }
  exists self, rng, resp, self', rng'. split; [exact Hinit|]. split; [exact Hq|].
  rewrite (@query_observer_under_overlays Reference.runtime self1 "test" true true 1
             rng rng' resp self' Hq).
  unfold self1, used_overlays.
  cbn [AdjustableConsciousness.add_transits AdjustableConsciousness.natal_placements
       AdjustableConsciousness.current_transits AdjustableConsciousness.current_progressions].
  rewrite Hn, Hp. reflexivity.
Defined.

(** X13 at the reference runtime: a sweep over two configurations. *)
Lemma compare_configurations_history_witness :
  exists self rng results self' rng',
    AdjustableConsciousness.__init__ (rt := Reference.runtime)
      Examples.natal 0%Z (0, 0) (Some Examples.amplified) 0%nat = Ok (self, rng)
    /\ AdjustableConsciousness.compare_configurations self "test"
         [Examples.muted; Examples.amplified] rng = Ok ((results, self'), rng')
    /\ dict_keys results = ["config_0"; "config_1"]
    /\ map (fun en => AdjustableConsciousness.x_chart_system
                        (AdjustableConsciousness.h_config en))
           (AdjustableConsciousness.query_history self')
       = ["tropical"; "sidereal"].
Proof.
  destruct (@adjustable_init_returns Reference.runtime Examples.natal 0%Z (0, 0)
              Examples.amplified 0%nat) as (self & rng & Hinit & _ & Hn & Ht & Hp).
  assert (Hready : adjustable_ready self).
  { split; [rewrite Hn; exact natal_wf|]. split; intros l Hl; congruence. }
  destruct (@compare_configurations_returns Reference.runtime self "test"
              [Examples.muted; Examples.amplified]
              topk_stable_contract reference_randn_contract Hready rng)
    as ([results self'] & rng' & Hrun & _).
  exists self, rng, results, self', rng'.
  split; [exact Hinit|]. split; [exact Hrun|].
  destruct (@compare_configurations_history Reference.runtime self "test"
              [Examples.muted; Examples.amplified] rng rng' results self' Hrun)
    as (Hkeys & entries & Hhist & _ & Hcfg & _).
  split; [exact Hkeys|].
  assert (Hempty : AdjustableConsciousness.query_history self = []).
  { unfold AdjustableConsciousness.__init__ in Hinit.
    apply bind_Ok in Hinit as (e & rng1 & _ & Hinit).
    apply ret_Ok in Hinit as [-> _]. reflexivity. }
  rewrite Hhist, Hempty, app_nil_l.
  rewrite <- (map_map AdjustableConsciousness.h_config
               AdjustableConsciousness.x_chart_system), Hcfg.
  reflexivity.
Defined.

(** X14 at the reference runtime: two time points, after a transit was
    set. *)
Lemma evolve_over_time_ignores_times_witness :
  exists self rng responses self' rng',
    AdjustableConsciousness.__init__ (rt := Reference.runtime)
      Examples.natal 0%Z (0, 0) (Some Examples.amplified) 0%nat = Ok (self, rng)
    /\ AdjustableConsciousness.evolve_over_time
         (AdjustableConsciousness.add_transits self 0 Examples.transit) "test" [1; 2]%Z rng
       = Ok ((responses, self'), rng')
    /\ AdjustableConsciousness.evolve_over_time
         (AdjustableConsciousness.remove_transits self) "test" [5; 7]%Z rng
       = Ok ((responses, self'), rng')
    /\ length responses = 2%nat
    /\ AdjustableConsciousness.current_transits self' = None.
Proof.
  destruct (@adjustable_init_returns Reference.runtime Examples.natal 0%Z (0, 0)
              Examples.amplified 0%nat) as (self & rng & Hinit & _ & Hn & Ht & Hp).
  set (self1 := AdjustableConsciousness.add_transits self 0 Examples.transit).
  assert (Hready : adjustable_ready self1).
  { split; [cbn; rewrite Hn; exact natal_wf|]. split.
    - intros l [= <-]. repeat constructor; simpl; lia.
    - intros l Hl. cbn in Hl. congruence. }
  destruct (@evolve_over_time_returns Reference.runtime self1 "test" [1; 2]%Z
              topk_stable_contract reference_randn_contract Hready rng)
    as ([responses self'] & rng' & Hrun & _).
  destruct (@evolve_over_time_ignores_times Reference.runtime self "test" 0%Z
              Examples.transit [1; 2]%Z [5; 7]%Z rng ltac:(discriminate) eq_refl)
    as [Heq Hstate].
  destruct (Hstate responses self' rng' Hrun) as (Hlen & _ & Hnone).
  exists self, rng, responses, self', rng'.
  split; [exact Hinit|]. split; [exact Hrun|]. split; [by rewrite <- Heq|].
  split; [exact Hlen | exact Hnone].
Defined.

(** X16 at a response with gates 1 and 3 at the same score: gate 2 comes
    first, then gate 1 before gate 3. *)
Lemma simplify_response_top_gates_witness :
  exists s,
    VirtualConsciousnessAPI._simplify_response Examples.tied_response = Return s
    /\ length (VirtualConsciousnessAPI.top_gates s) = 3%nat
    /\ StronglySorted ranked_before (VirtualConsciousnessAPI.top_gates s).
Proof.
  eexists. split; [reflexivity|].
  destruct (simplify_response_top_gates Examples.tied_response _ eq_refl eq_refl)
    as (Hlen & Hsorted & _).
  split; [exact Hlen | exact Hsorted].
Defined.

(** X18 at the reference runtime: the configuration with the highest
    coherence. *)
Lemma get_optimal_configuration_is_best_witness :
  exists self rng cfg self' rng',
    AdjustableConsciousness.__init__ (rt := Reference.runtime)
      Examples.natal 0%Z (0, 0) (Some Examples.amplified) 0%nat = Ok (self, rng)
    /\ AdjustableConsciousness.get_optimal_configuration self "test" "coherence" rng
       = Return ((cfg, self'), rng')
    /\ cfg ∈ AdjustableConsciousness._generate_test_configurations self
    /\ AdjustableConsciousness.config self' = Examples.amplified.
Proof.
  destruct (@adjustable_init_returns Reference.runtime Examples.natal 0%Z (0, 0)
              Examples.amplified 0%nat) as (self & rng & Hinit & Hcfg & Hn & Ht & Hp).
  assert (Hready : adjustable_ready self).
  { split; [rewrite Hn; exact natal_wf|]. split; intros l Hl; congruence. }
  destruct (@compare_configurations_returns Reference.runtime self "test"
              (AdjustableConsciousness._generate_test_configurations self)
              topk_stable_contract reference_randn_contract Hready rng)
    as ([results self'] & rng' & Hsweep & _).
  destruct (@get_optimal_configuration_after_sweep Reference.runtime self "test" "coherence"
              rng rng' results self' Hsweep) as (i & resp & cfg & _ & _ & Hrun).
  destruct (@get_optimal_configuration_is_best Reference.runtime self "test" "coherence"
              rng rng' cfg self' Hrun) as (results' & i' & resp' & _ & _ & Hget & _ & Hsame & _).
  exists self, rng, cfg, self', rng'.
  split; [exact Hinit|]. split; [exact Hrun|].
  split; [by eapply list_elem_of_lookup_2 | by rewrite Hsame].
Defined.

(** X21 at the reference runtime: the docstring's chart, asked with the
    focus on survival. *)
Lemma api_query_returns_witness :
  exists api rng simple api' rng',
    VirtualConsciousnessAPI.__init__ (rt := Reference.runtime) 0%Z (0, 0) Examples.natal 0%nat
      = Ok (api, rng)
    /\ VirtualConsciousnessAPI.query api
         (VirtualConsciousnessAPI.mkQuery "test" (Some "survival") false "tropical") rng
       = Return ((simple, api'), rng')
    /\ length (VirtualConsciousnessAPI.top_gates simple) = 5%nat.
Proof.
  destruct (@api_init_returns Reference.runtime Examples.natal 0%Z (0, 0) 0%nat)
    as (api & rng & Hinit & Hn & Ht & Hp & _).
  assert (Hready : adjustable_ready (VirtualConsciousnessAPI.consciousness api)).
  { split; [rewrite Hn; exact natal_wf|]. split; intros l Hl; congruence. }
  destruct (@api_query_returns Reference.runtime api
              (VirtualConsciousnessAPI.mkQuery "test" (Some "survival") false "tropical") rng
              topk_stable_contract reference_randn_contract Hready)
    as (simple & api' & rng' & Hrun & Hlen & _).
  by exists api, rng, simple, api', rng'.
Defined.

(** The presets that the constructor of the API stores. *)
Lemma api_init_survival `{rt : Runtime} dt loc natal rng api rng' :
  VirtualConsciousnessAPI.__init__ dt loc natal rng = Ok (api, rng') ->
  exists preset,
    dict_get "survival" (VirtualConsciousnessAPI.focus_presets api) = Some preset /\
    AdjustableConsciousness.awareness_sensitivity preset !! "spleen" = Some 1.5.
Proof.
  unfold VirtualConsciousnessAPI.__init__. intros H.
  apply bind_Ok in H as (c & rng1 & _ & H). apply ret_Ok in H as [-> _].
  eexists. split; [reflexivity|]. reflexivity.
Qed.

(** X19 at the reference runtime: a survival query, then one without a
    focus. *)
Lemma api_focus_persists_witness :
  exists api rng r1 api1 rng1 r2 api2 rng2,
    VirtualConsciousnessAPI.__init__ (rt := Reference.runtime) 0%Z (0, 0) Examples.natal 0%nat
      = Ok (api, rng)
    /\ VirtualConsciousnessAPI.query api
         (VirtualConsciousnessAPI.mkQuery "first" (Some "survival") false "sidereal") rng
       = Return ((r1, api1), rng1)
    /\ VirtualConsciousnessAPI.query api1
         (VirtualConsciousnessAPI.mkQuery "second" None false "sidereal") rng1
       = Return ((r2, api2), rng2)
    /\ AdjustableConsciousness.awareness_sensitivity
         (AdjustableConsciousness.config (VirtualConsciousnessAPI.consciousness api2))
       !! "spleen" = Some 1.5.
Proof.
  destruct (@api_init_returns Reference.runtime Examples.natal 0%Z (0, 0) 0%nat)
    as (api & rng & Hinit & Hn & Ht & Hp & _).
  destruct (@api_init_survival Reference.runtime _ _ _ _ _ _ Hinit) as (preset & Hpreset & Hs).
  assert (Hready : adjustable_ready (VirtualConsciousnessAPI.consciousness api)).
  { split; [rewrite Hn; exact natal_wf|]. split; intros l Hl; congruence. }
  destruct (@api_query_total_state Reference.runtime api
              (VirtualConsciousnessAPI.mkQuery "first" (Some "survival") false "sidereal") rng
              topk_stable_contract reference_randn_contract Hready)
    as (r1 & api1 & rng1 & Hq1 & Hready1).
  destruct (@api_query_total_state Reference.runtime api1
              (VirtualConsciousnessAPI.mkQuery "second" None false "sidereal") rng1
              topk_stable_contract reference_randn_contract Hready1)
    as (r2 & api2 & rng2 & Hq2 & _).
  destruct (@api_focus_persists Reference.runtime api "first" "survival" "sidereal" false
              preset rng rng1 r1 api1 ltac:(discriminate) Hpreset Hq1) as [_ Hlater].
  destruct (Hlater "second" "sidereal" false rng1 r2 api2 rng2 Hq2) as [Hsens _].
  exists api, rng, r1, api1, rng1, r2, api2, rng2.
  split; [exact Hinit|]. split; [exact Hq1|]. split; [exact Hq2|]. by rewrite Hsens.
Defined.

(** X20 at the reference runtime: a survival query in the tropical
    system. *)
Lemma api_query_changes_preset_witness :
  exists api rng r api1 rng1 preset',
    VirtualConsciousnessAPI.__init__ (rt := Reference.runtime) 0%Z (0, 0) Examples.natal 0%nat
      = Ok (api, rng)
    /\ VirtualConsciousnessAPI.query api
         (VirtualConsciousnessAPI.mkQuery "test" (Some "survival") false "tropical") rng
       = Return ((r, api1), rng1)
    /\ dict_get "survival" (VirtualConsciousnessAPI.focus_presets api1) = Some preset'
    /\ AdjustableConsciousness.primary_chart_system preset' = Core.TROPICAL.
Proof.
  destruct (@api_init_returns Reference.runtime Examples.natal 0%Z (0, 0) 0%nat)
    as (api & rng & Hinit & Hn & Ht & Hp & _).
  destruct (@api_init_survival Reference.runtime _ _ _ _ _ _ Hinit) as (preset & Hpreset & _).
  assert (Hready : adjustable_ready (VirtualConsciousnessAPI.consciousness api)).
  { split; [rewrite Hn; exact natal_wf|]. split; intros l Hl; congruence. }
  destruct (@api_query_total_state Reference.runtime api
              (VirtualConsciousnessAPI.mkQuery "test" (Some "survival") false "tropical") rng
              topk_stable_contract reference_randn_contract Hready)
    as (r & api1 & rng1 & Hq & _).
  destruct (@api_query_changes_preset Reference.runtime api "test" "survival" "tropical" false
              preset Core.TROPICAL rng rng1 r api1 ltac:(discriminate) Hpreset eq_refl Hq)
    as (preset' & Hget & Hsys & _).
  by exists api, rng, r, api1, rng1, preset'.
Defined.

(** ** The node features *)

Section FeatureFacts.
Import Core QuantumFieldEncoder.

Lemma planet_known (name : string) :
  is_Some (dict_get name planet_to_idx) <-> name ∈ PLANETS.
Proof. rewrite dict_get_is_Some. reflexivity. Qed.

(** [t[i]] succeeds exactly for an index from -len to len - 1, and reads
    the slot [i mod len]. *)
Lemma tensor_get_result {A : Type} (t : list A) (i : Z) :
  tensor_get t i =
    if bool_decide (- Z.of_nat (length t) <= i < Z.of_nat (length t))%Z
    then from_option Ok (Raise IndexError) (t !! Z.to_nat (i mod Z.of_nat (length t)))
    else Raise IndexError.
Proof.
  unfold tensor_get, py_index.
  destruct (decide (0 <= i < Z.of_nat (length t))%Z) as [H1|H1].
  - rewrite !bool_decide_eq_true_2 by lia. cbn [mbind result_bind].
    rewrite Z.mod_small by lia. by destruct (t !! Z.to_nat i).
  - rewrite (bool_decide_eq_false_2 _ H1).
    destruct (decide (- Z.of_nat (length t) <= i < 0)%Z) as [H2|H2].
    + rewrite !bool_decide_eq_true_2 by lia. cbn [mbind result_bind].
      replace (i mod Z.of_nat (length t))%Z with (Z.of_nat (length t) + i)%Z
        by (apply (Z.mod_unique_pos _ _ (-1)); lia).
      by destruct (t !! Z.to_nat (Z.of_nat (length t) + i)).
    + rewrite !bool_decide_eq_false_2 by lia. reflexivity.
Qed.

Lemma tsum_nonneg (l : list R) : Forall (fun x => 0 <= x) l -> 0 <= tsum l.
Proof.
  induction 1 as [|x l Hx Hl IH]; [unfold tsum; simpl; lra|].
  change (tsum (x :: l)) with (x + tsum l). lra.
Qed.

Lemma tsum_ge_elem (l : list R) (x : R) :
  Forall (fun y => 0 <= y) l -> x ∈ l -> x <= tsum l.
Proof.
  induction 1 as [|y l Hy Hl IH]; intros Hx; [by apply elem_of_nil in Hx|].
  change (tsum (y :: l)) with (y + tsum l). pose proof (tsum_nonneg l Hl).
  apply elem_of_cons in Hx as [->|Hx]; [lra|]. specialize (IH Hx). lra.
Qed.

Lemma tsum_app (l1 l2 : list R) : tsum (l1 ++ l2) = tsum l1 + tsum l2.
Proof.
  induction l1 as [|x l1 IH]; [unfold tsum; simpl; lra|].
  change (tsum ((x :: l1) ++ l2)) with (x + tsum (l1 ++ l2)).
  change (tsum (x :: l1)) with (x + tsum l1). lra.
Qed.

Lemma gate_loop_inv_iff (P Q : Prop) acc :
  (P <-> Q) -> gate_loop_inv P acc -> gate_loop_inv Q acc.
Proof.
  intros HPQ (H1 & H2 & H3 & H4 & H5 & H6). unfold gate_loop_inv. tauto.
Qed.

Lemma placement_step_result (seen : Prop) acc p :
  gate_loop_inv seen acc ->
  match placement_step acc p with
  | Ok acc' =>
      (planet p ∈ PLANETS -> (-5 <= line p <= 6)%Z) /\
      gate_loop_inv (seen \/ planet p ∈ PLANETS) acc'
  | Raise e => e = IndexError /\ planet p ∈ PLANETS /\ ~ (-5 <= line p <= 6)%Z
  end.
Proof.
  destruct acc as [pv lv]. intros (Hpv & Hlv & Hflags & Hcounts & Hseen & Hnone).
  cbn [fst snd] in *. unfold placement_step.
  destruct (dict_get (planet p) planet_to_idx) as [idx|] eqn:Hidx.
  - assert (Hknown : planet p ∈ PLANETS) by (apply planet_known; by eexists).
    apply planet_idx_range in Hidx.
    rewrite tensor_set_result, Hpv, bool_decide_eq_true_2 by lia.
    cbn [mbind result_bind]. rewrite tensor_get_result, Hlv.
    destruct (decide (-5 <= line p <= 6)%Z) as [Hline|Hline].
    + rewrite bool_decide_eq_true_2 by lia.
      set (j := Z.to_nat ((line p - 1) mod Z.of_nat 6)).
      assert (Hj : (j < 6)%nat).
      { unfold j. pose proof (Z.mod_pos_bound (line p - 1) 6). lia. }
      destruct (lookup_lt_is_Some_2 lv j) as [old Hold]; [lia|].
      rewrite Hold. cbn [from_option mbind result_bind].
      rewrite tensor_set_result, Hlv, bool_decide_eq_true_2 by lia.
      cbn [mbind result_bind]. fold j. split; [done|].
      set (i := Z.to_nat (idx mod Z.of_nat 13)).
      assert (Hi : (i < 13)%nat).
      { unfold i. pose proof (Z.mod_pos_bound idx 13). lia. }
      unfold gate_loop_inv. cbn [fst snd]. rewrite !length_insert.
      split; [exact Hpv|]. split; [exact Hlv|]. split.
      { apply Forall_insert; [exact Hflags | by right]. }
      split.
      { apply Forall_insert; [exact Hcounts|].
        rewrite Forall_forall in Hcounts.
        pose proof (Hcounts old (list_elem_of_lookup_2 _ _ _ Hold)). lra. }
      split.
      { intros _. apply list_elem_of_lookup. exists i. apply list_lookup_insert_eq. lia. }
      intros Hno. tauto.
    + rewrite bool_decide_eq_false_2 by lia. cbn [mbind result_bind]. by repeat split.
  - assert (Hunknown : planet p ∉ PLANETS).
    { intros Hin. apply planet_known in Hin. rewrite Hidx in Hin. by destruct Hin. }
    split; [tauto|]. unfold gate_loop_inv. cbn [fst snd].
    split; [exact Hpv|]. split; [exact Hlv|]. split; [exact Hflags|].
    split; [exact Hcounts|]. split; [tauto|]. intros Hno. apply Hnone. tauto.
Qed.

Lemma gate_loop_result (l : list Placement) :
  forall (seen : Prop) acc,
    gate_loop_inv seen acc ->
    match foldM placement_step acc l with
    | Ok acc' =>
        Forall (fun p => planet p ∈ PLANETS -> (-5 <= line p <= 6)%Z) l /\
        gate_loop_inv (seen \/ Exists (fun p => planet p ∈ PLANETS) l) acc'
    | Raise e =>
        e = IndexError /\
        Exists (fun p => planet p ∈ PLANETS /\ ~ (-5 <= line p <= 6)%Z) l
    end.
Proof.
  induction l as [|p l IH]; intros seen acc Hinv.
  - cbn. split; [constructor|]. eapply gate_loop_inv_iff; [|exact Hinv].
    rewrite Exists_nil. tauto.
  - cbn [foldM]. pose proof (placement_step_result seen acc p Hinv) as Hstep.
    destruct (placement_step acc p) as [acc1|e]; cbn [mbind result_bind].
    + destruct Hstep as [Hline Hinv1]. specialize (IH _ _ Hinv1).
      destruct (foldM placement_step acc1 l) as [acc'|e].
      * destruct IH as [Hlines Hinv']. split; [by constructor|].
        eapply gate_loop_inv_iff; [|exact Hinv']. rewrite Exists_cons. tauto.
      * destruct IH as [-> Hex]. split; [reflexivity | by apply Exists_cons_tl].
    + destruct Hstep as (-> & Hk & Hline). split; [reflexivity|]. by apply Exists_cons_hd.
Qed.

(** The features of one gate and stream. *)
Lemma encode_gate_placements_result (self : QuantumFieldEncoder.t) (l : list Placement) :
  match _encode_gate_placements self l with
  | Ok feat =>
      Forall (fun p => planet p ∈ PLANETS -> (-5 <= line p <= 6)%Z) l /\
      length feat = (embedding_dim self / 2)%nat /\
      Forall (fun x => 0 <= x <= 1) feat /\
      (~ Exists (fun p => planet p ∈ PLANETS) l -> tsum feat = 0) /\
      (Exists (fun p => planet p ∈ PLANETS) l -> (13 <= embedding_dim self / 2)%nat ->
       0 < tsum feat)
  | Raise e =>
      e = IndexError /\
      Exists (fun p => planet p ∈ PLANETS /\ ~ (-5 <= line p <= 6)%Z) l
  end.
Proof.
  unfold _encode_gate_placements. set (half := (embedding_dim self / 2)%nat).
  destruct l as [|p0 l0] eqn:El.
  { split; [constructor|]. split; [apply length_replicate|]. split.
    - apply Forall_forall. intros x Hx. unfold zeros in Hx.
      apply elem_of_replicate in Hx as [-> _]. lra.
    - split; [intros _; apply tsum_zeros|]. intros Hex. by apply Exists_nil in Hex. }
  rewrite <- El. clear El p0 l0.
  pose proof (gate_loop_result l False (zeros num_planets, zeros 6)) as Hloop.
  destruct (foldM placement_step (zeros num_planets, zeros 6) l) as [[pv lv]|e];
    cbn [mbind result_bind].
  2: { apply Hloop. unfold gate_loop_inv. cbn [fst snd]. unfold zeros.
       rewrite !length_replicate. repeat split; try reflexivity; try tauto.
       - apply Forall_forall. intros x Hx. apply elem_of_replicate in Hx as [-> _]. by left.
       - apply Forall_forall. intros x Hx. apply elem_of_replicate in Hx as [-> _]. lra. }
  destruct Hloop as [Hlines (Hpv & Hlv & Hflags & Hcounts & Hseen & Hnone)].
  { unfold gate_loop_inv. cbn [fst snd]. unfold zeros.
    rewrite !length_replicate. repeat split; try reflexivity; try tauto.
    - apply Forall_forall. intros x Hx. apply elem_of_replicate in Hx as [-> _]. by left.
    - apply Forall_forall. intros x Hx. apply elem_of_replicate in Hx as [-> _]. lra. }
  cbn [fst snd] in *.
  set (lv' := if Rlt_dec 0 (tsum lv) then map (fun x => x / tsum lv) lv else lv).
  assert (Hlv' : length lv' = 6%nat).
  { unfold lv'. destruct (Rlt_dec 0 (tsum lv)); [by rewrite length_map | exact Hlv]. }
  assert (Hrange' : Forall (fun x => 0 <= x <= 1) lv').
  { unfold lv'. destruct (Rlt_dec 0 (tsum lv)) as [Hpos|Hzero].
    - apply Forall_forall. intros y Hy. change (map ?f ?l) with (f <$> l) in Hy.
      apply list_elem_of_fmap in Hy as (x & -> & Hx).
      pose proof (tsum_ge_elem lv x Hcounts Hx) as Hle.
      rewrite Forall_forall in Hcounts. specialize (Hcounts _ Hx). split.
      + apply Rmult_le_pos; [exact Hcounts|]. left. by apply Rinv_0_lt_compat.
      + apply (Rmult_le_reg_r (tsum lv)); [exact Hpos|].
        unfold Rdiv. rewrite Rmult_assoc, Rinv_l; lra.
    - apply Forall_forall. intros x Hx.
      pose proof (tsum_ge_elem lv x Hcounts Hx) as Hle.
      rewrite Forall_forall in Hcounts. specialize (Hcounts _ Hx). lra. }
  assert (Hprange : Forall (fun x => 0 <= x <= 1) pv).
  { eapply Forall_impl; [exact Hflags|]. intros x [-> | ->]; lra. }
  set (padded := if bool_decide (0 < Z.of_nat half - Z.of_nat (length (pv ++ lv')))%Z
                 then (pv ++ lv') ++ zeros (Z.to_nat (Z.of_nat half - Z.of_nat (length (pv ++ lv'))))
                 else pv ++ lv').
  assert (Hpad : exists n, padded = pv ++ lv' ++ zeros n /\ (half <= 19 + n)%nat).
  { unfold padded. rewrite length_app, Hpv, Hlv'. case_bool_decide as Hp.
    - eexists. rewrite <- app_assoc. split; [reflexivity | lia].
    - exists 0%nat. unfold zeros. cbn [replicate]. rewrite app_nil_r. split; [reflexivity | lia]. }
  destruct Hpad as (n & Hpadded & Hn). fold padded. rewrite Hpadded. clearbody padded.
  assert (Hzrange : Forall (fun x => 0 <= x <= 1) (zeros n)).
  { apply Forall_forall. intros x Hx. unfold zeros in Hx.
    apply elem_of_replicate in Hx as [-> _]. lra. }
  split; [exact Hlines|]. split.
  { rewrite length_take, !length_app, Hpv, Hlv'. unfold zeros. rewrite length_replicate. lia. }
  split.
  { apply Forall_take. by repeat (apply Forall_app; split). }
  split.
  - intros Hno.
    assert (Heq : (pv, lv) = (zeros num_planets, zeros 6)) by (apply Hnone; tauto).
    injection Heq as -> ->.
    assert (Hz : lv' = zeros 6).
    { unfold lv'. destruct (Rlt_dec 0 (tsum (zeros 6))) as [Hpos|_]; [|reflexivity].
      rewrite tsum_zeros in Hpos. lra. }
    rewrite Hz. unfold num_planets, zeros. cbn [PLANETS length].
    rewrite <- !replicate_add, take_replicate. apply (tsum_zeros _).
  - intros Hex Hhalf. assert (H1 : 1 ∈ pv) by tauto.
    assert (Htake : take half (pv ++ lv' ++ zeros n) = pv ++ take (half - 13) (lv' ++ zeros n)).
    { rewrite take_app, Hpv. rewrite take_ge by lia. reflexivity. }
    rewrite Htake, tsum_app.
    assert (Hp1 : 1 <= tsum pv).
    { apply tsum_ge_elem; [|exact H1]. eapply Forall_impl; [exact Hprange|].
      intros x Hx. cbv beta in Hx. lra. }
    assert (Hrest : 0 <= tsum (take (half - 13) (lv' ++ zeros n))).
    { apply tsum_nonneg, Forall_take. apply Forall_app. split.
      - eapply Forall_impl; [exact Hrange'|]. intros x Hx. cbv beta in Hx. lra.
      - eapply Forall_impl; [exact Hzrange|]. intros x Hx. cbv beta in Hx. lra. }
    lra.
Qed.

Lemma empty_buckets_lookup (g : Z) :
  empty_buckets !! g = if bool_decide (1 <= g <= 64)%Z then Some [] else None.
Proof.
  assert (Hfst : (map (fun i : Z => (i, @nil Placement)) (seqZ 1 64)).*1 = seqZ 1 64).
  { apply list_eq. intros i. change (map ?f ?l) with (f <$> l).
    rewrite !list_lookup_fmap. by destruct (seqZ 1 64 !! i). }
  unfold empty_buckets. case_bool_decide as Hg.
  - apply elem_of_list_to_map_1; [rewrite Hfst; apply NoDup_seqZ|].
    change (map ?f ?l) with (f <$> l). apply list_elem_of_fmap. exists g.
    split; [reflexivity|]. apply elem_of_seqZ. lia.
  - apply not_elem_of_list_to_map_1. rewrite Hfst. rewrite elem_of_seqZ. lia.
Qed.

Lemma bucket_step_eq (b d : gmap Z (list Placement)) (p : Placement) :
  bucket_step (b, d) p
  = if is_body (stream p)
    then match b !! gate p with
         | Some l => Ok (<[gate p := l ++ [p]]> b, d)
         | None => Raise KeyError
         end
    else match d !! gate p with
         | Some l => Ok (b, <[gate p := l ++ [p]]> d)
         | None => Raise KeyError
         end.
Proof. reflexivity. Qed.

(** The loop that sorts the placements into the buckets of their gates:
    it raises [KeyError] at a gate outside 1..64, and otherwise appends to
    each bucket the placements of its gate and stream, in order. *)
Lemma bucket_loop_result (ps : list Placement) :
  forall b d,
    (forall g, is_Some (b !! g) <-> (1 <= g <= 64)%Z) ->
    (forall g, is_Some (d !! g) <-> (1 <= g <= 64)%Z) ->
    match foldM bucket_step (b, d) ps with
    | Ok (b', d') =>
        Forall (fun p => (1 <= gate p <= 64)%Z) ps /\
        (forall g, b' !! g
           = (fun l => l ++ filter (fun p => is_body (stream p) = true /\ gate p = g) ps)
               <$> b !! g) /\
        (forall g, d' !! g
           = (fun l => l ++ filter (fun p => is_body (stream p) = false /\ gate p = g) ps)
               <$> d !! g)
    | Raise e => e = KeyError /\ Exists (fun p => ~ (1 <= gate p <= 64)%Z) ps
    end.
Proof.
  induction ps as [|p ps IH]; intros b d Hb Hd.
  - cbn. split; [constructor|]. split; intros g.
    + destruct (b !! g); cbn; by rewrite ?app_nil_r.
    + destruct (d !! g); cbn; by rewrite ?app_nil_r.
  - assert (Hins : forall (m : gmap Z (list Placement)) l,
               (forall g, is_Some (m !! g) <-> (1 <= g <= 64)%Z) ->
               is_Some (m !! gate p) ->
               forall g, is_Some (<[gate p := l]> m !! g) <-> (1 <= g <= 64)%Z).
    { intros m l Hm Hp g. destruct (decide (gate p = g)) as [<-|Hne].
      - rewrite lookup_insert_eq. split; [intros _; by apply Hm | by eexists].
      - rewrite lookup_insert_ne by exact Hne. apply Hm. }
    cbn [foldM]. rewrite bucket_step_eq.
    destruct (is_body (stream p)) eqn:Hbody.
    + destruct (b !! gate p) as [l|] eqn:Hl; cbn [mbind result_bind].
      * assert (Hg : (1 <= gate p <= 64)%Z) by (apply Hb; by eexists).
        specialize (IH (<[gate p := l ++ [p]]> b) d
                      (Hins b (l ++ [p]) Hb ltac:(by eexists)) Hd).
        destruct (foldM bucket_step (<[gate p := l ++ [p]]> b, d) ps) as [[b' d']|e].
        -- destruct IH as (Hall & Hb' & Hd').
           split; [by constructor|]. split; intros g.
           ++ rewrite Hb'. destruct (decide (gate p = g)) as [<-|Hne].
              ** rewrite lookup_insert_eq, Hl. cbn [fmap option_fmap option_map].
                 rewrite filter_cons_True by done. by rewrite <- app_assoc.
              ** rewrite lookup_insert_ne by exact Hne.
                 rewrite filter_cons_False by tauto. reflexivity.
           ++ rewrite Hd'. rewrite filter_cons_False; [reflexivity|].
              intros [Hf _]. congruence.
        -- destruct IH as [-> Hex]. split; [reflexivity | by apply Exists_cons_tl].
      * split; [reflexivity|]. apply Exists_cons_hd. intros Hg. apply Hb in Hg.
        rewrite Hl in Hg. by destruct Hg.
    + destruct (d !! gate p) as [l|] eqn:Hl; cbn [mbind result_bind].
      * assert (Hg : (1 <= gate p <= 64)%Z) by (apply Hd; by eexists).
        specialize (IH b (<[gate p := l ++ [p]]> d) Hb
                      (Hins d (l ++ [p]) Hd ltac:(by eexists))).
        destruct (foldM bucket_step (b, <[gate p := l ++ [p]]> d) ps) as [[b' d']|e].
        -- destruct IH as (Hall & Hb' & Hd').
           split; [by constructor|]. split; intros g.
           ++ rewrite Hb'. rewrite filter_cons_False; [reflexivity|].
              intros [Hf _]. congruence.
           ++ rewrite Hd'. destruct (decide (gate p = g)) as [<-|Hne].
              ** rewrite lookup_insert_eq, Hl. cbn [fmap option_fmap option_map].
                 rewrite filter_cons_True by done. by rewrite <- app_assoc.
              ** rewrite lookup_insert_ne by exact Hne.
                 rewrite filter_cons_False by tauto. reflexivity.
        -- destruct IH as [-> Hex]. split; [reflexivity | by apply Exists_cons_tl].
      * split; [reflexivity|]. apply Exists_cons_hd. intros Hg. apply Hd in Hg.
        rewrite Hl in Hg. by destruct Hg.
Qed.

Lemma mapM_Raise {A B : Type} (f : A -> result B) (l : list A) (e : PyError) :
  mapM f l = Raise e -> exists x, x ∈ l /\ f x = Raise e.
Proof.
  induction l as [|x l IH]; simpl; [discriminate|].
  destruct (f x) as [y|e'] eqn:Hx; simpl.
  - destruct (mapM f l) as [ys|e'']; simpl; [discriminate|].
    intros [= ->]. destruct IH as (z & Hz & Hfz); [reflexivity|].
    exists z. split; [by right | exact Hfz].
  - intros [= ->]. exists x. split; [by left | exact Hx].
Qed.

Lemma even_halves (n : nat) : Nat.even n = true -> (n / 2 + n / 2 = n)%nat.
Proof.
  intros He. apply Nat.even_spec in He as [m ->].
  rewrite (Nat.mul_comm 2 m), Nat.div_mul by lia. lia.
Qed.

(** What [encode_placements] returns or raises, for an encoder of even
    width. *)
Lemma encode_placements_result (self : QuantumFieldEncoder.t) (ps : list Placement) :
  Nat.even (embedding_dim self) = true ->
  match encode_placements self ps with
  | Ok rows =>
      Forall (fun p => (1 <= gate p <= 64)%Z) ps /\
      Forall (fun p => planet p ∈ PLANETS -> (-5 <= line p <= 6)%Z) ps /\
      length rows = 64%nat /\
      forall g, (1 <= g <= 64)%Z ->
        exists row,
          rows !! Z.to_nat (g - 1) = Some row /\
          length row = embedding_dim self /\
          Forall (fun x => 0 <= x <= 1) row /\
          (~ Exists (known_at g) ps -> tsum row = 0) /\
          (Exists (known_at g) ps -> (13 <= embedding_dim self / 2)%nat -> 0 < tsum row)
  | Raise e =>
      (e = KeyError /\ Exists (fun p => ~ (1 <= gate p <= 64)%Z) ps) \/
      (e = IndexError /\ Forall (fun p => (1 <= gate p <= 64)%Z) ps /\
       Exists (fun p => planet p ∈ PLANETS /\ ~ (-5 <= line p <= 6)%Z) ps)
  end.
Proof.
  intros Heven. unfold encode_placements.
  assert (Hdom : forall g, is_Some (empty_buckets !! g) <-> (1 <= g <= 64)%Z).
  { intros g. rewrite empty_buckets_lookup.
    case_bool_decide as Hg; split; intros H;
      first [contradiction | exact Hg | by destruct H | by exists []]. }
  pose proof (bucket_loop_result ps empty_buckets empty_buckets Hdom Hdom) as Hloop.
  destruct (foldM bucket_step (empty_buckets, empty_buckets) ps) as [[b d]|e];
    cbn [mbind result_bind]; [|left; exact Hloop].
  destruct Hloop as (Hgates & Hb & Hd).
  set (body g := filter (fun p => is_body (stream p) = true /\ gate p = g) ps).
  set (design g := filter (fun p => is_body (stream p) = false /\ gate p = g) ps).
  assert (Hbg : forall g, (1 <= g <= 64)%Z -> b !! g = Some (body g)).
  { intros g Hg. rewrite Hb, empty_buckets_lookup, bool_decide_eq_true_2 by exact Hg.
    reflexivity. }
  assert (Hdg : forall g, (1 <= g <= 64)%Z -> d !! g = Some (design g)).
  { intros g Hg. rewrite Hd, empty_buckets_lookup, bool_decide_eq_true_2 by exact Hg.
    reflexivity. }
  assert (Hgate : forall g, (1 <= g <= 64)%Z ->
             encode_gate self b d g
             = (body_feat ← _encode_gate_placements self (body g);
                design_feat ← _encode_gate_placements self (design g);
                Ok (body_feat ++ design_feat))).
  { intros g Hg. unfold encode_gate. rewrite (Hbg g Hg), (Hdg g Hg), Heven.
    cbn [from_option mbind result_bind].
    destruct (_encode_gate_placements self (body g)); cbn [mbind result_bind]; [|reflexivity].
    reflexivity. }
  assert (Hknown : forall g, Exists (known_at g) ps <->
             Exists (fun p => planet p ∈ PLANETS) (body g)
             \/ Exists (fun p => planet p ∈ PLANETS) (design g)).
  { intros g. unfold body, design, known_at. rewrite !Exists_exists. split.
    - intros (p & Hp & <- & Hk). destruct (is_body (stream p)) eqn:Hs.
      + left. exists p. split; [|exact Hk]. apply list_elem_of_filter. by repeat split.
      + right. exists p. split; [|exact Hk]. apply list_elem_of_filter. by repeat split.
    - intros [(p & Hp & Hk)|(p & Hp & Hk)]; apply list_elem_of_filter in Hp as [[_ Hg] Hp];
        by exists p. }
  destruct (mapM (encode_gate self b d) (seqZ 1 64)) as [rows|e] eqn:Hrows.
  - apply mapM_Ok in Hrows.
    assert (Hrow : forall g, (1 <= g <= 64)%Z ->
               exists row, rows !! Z.to_nat (g - 1) = Some row /\ encode_gate self b d g = Ok row).
    { intros g Hg.
      assert (Hseq : seqZ 1 64 !! Z.to_nat (g - 1) = Some g).
      { rewrite lookup_seqZ_lt by lia. f_equal. lia. }
      destruct (Forall2_lookup_l _ _ _ _ _ Hrows Hseq) as (row & Hr & Henc). by exists row. }
    split; [exact Hgates|]. split.
    { apply Forall_forall. intros p Hp Hk.
      rewrite Forall_forall in Hgates. pose proof (Hgates _ Hp) as Hg.
      destruct (Hrow _ Hg) as (row & _ & Henc). rewrite (Hgate _ Hg) in Henc.
      pose proof (encode_gate_placements_result self (body (gate p))) as Hbf.
      pose proof (encode_gate_placements_result self (design (gate p))) as Hdf.
      destruct (_encode_gate_placements self (body (gate p))) as [bf|];
        cbn [mbind result_bind] in Henc; [|discriminate].
      destruct (_encode_gate_placements self (design (gate p))) as [df|];
        cbn [mbind result_bind] in Henc; [|discriminate].
      destruct Hbf as (Hbl & _), Hdf as (Hdl & _).
      rewrite Forall_forall in Hbl, Hdl.
      destruct (is_body (stream p)) eqn:Hs.
      - apply Hbl; [|exact Hk]. apply list_elem_of_filter. by repeat split.
      - apply Hdl; [|exact Hk]. apply list_elem_of_filter. by repeat split. }
    split; [by rewrite <- (Forall2_length _ _ _ Hrows), length_seqZ|].
    intros g Hg. destruct (Hrow _ Hg) as (row & Hr & Henc). exists row.
    split; [exact Hr|]. rewrite (Hgate _ Hg) in Henc.
    pose proof (encode_gate_placements_result self (body g)) as Hbf.
    pose proof (encode_gate_placements_result self (design g)) as Hdf.
    destruct (_encode_gate_placements self (body g)) as [bf|];
      cbn [mbind result_bind] in Henc; [|discriminate].
    destruct (_encode_gate_placements self (design g)) as [df|];
      cbn [mbind result_bind] in Henc; [|discriminate].
    injection Henc as <-.
    destruct Hbf as (_ & Hbl & Hbr & Hb0 & Hb1), Hdf as (_ & Hdl & Hdr & Hd0 & Hd1).
    split; [rewrite length_app, Hbl, Hdl; by apply even_halves|].
    split; [by apply Forall_app|]. rewrite tsum_app. split.
    + intros Hno. rewrite Hb0, Hd0; [lra| |]; intros Hex; apply Hno, Hknown; tauto.
    + intros Hex Hhalf. apply Hknown in Hex.
      assert (0 <= tsum bf).
      { apply tsum_nonneg. eapply Forall_impl; [exact Hbr|]. intros x Hx. cbv beta in Hx. lra. }
      assert (0 <= tsum df).
      { apply tsum_nonneg. eapply Forall_impl; [exact Hdr|]. intros x Hx. cbv beta in Hx. lra. }
      destruct Hex as [Hex|Hex]; [specialize (Hb1 Hex Hhalf) | specialize (Hd1 Hex Hhalf)]; lra.
  - right. apply mapM_Raise in Hrows as (g & Hg & Henc). apply elem_of_seqZ in Hg.
    rewrite (Hgate g ltac:(lia)) in Henc.
    pose proof (encode_gate_placements_result self (body g)) as Hbf.
    pose proof (encode_gate_placements_result self (design g)) as Hdf.
    assert (Hsub : forall l, (l = body g \/ l = design g) ->
               Exists (fun p => planet p ∈ PLANETS /\ ~ (-5 <= line p <= 6)%Z) l ->
               Exists (fun p => planet p ∈ PLANETS /\ ~ (-5 <= line p <= 6)%Z) ps).
    { intros l Hl Hex. apply Exists_exists in Hex as (p & Hp & Hbad).
      apply Exists_exists. exists p. split; [|exact Hbad].
      destruct Hl as [-> | ->]; by apply list_elem_of_filter in Hp as [_ Hp]. }
    destruct (_encode_gate_placements self (body g)) as [bf|e1];
      cbn [mbind result_bind] in Henc.
    + destruct (_encode_gate_placements self (design g)) as [df|e2];
        cbn [mbind result_bind] in Henc; [discriminate|].
      injection Henc as ->. destruct Hdf as [-> Hex].
      split; [reflexivity|]. split; [exact Hgates|]. apply (Hsub (design g)); tauto.
    + injection Henc as ->. destruct Hbf as [-> Hex].
      split; [reflexivity|]. split; [exact Hgates|]. apply (Hsub (body g)); tauto.
Qed.

(** X22 (node features).  For an encoder of even width and placements
    within the documented ranges, [encode_placements] returns 64 rows of
    [embedding_dim] entries each, every entry in [0, 1]. *)
Theorem node_features_in_range (self : QuantumFieldEncoder.t) (ps : list Placement) :
  Nat.even (embedding_dim self) = true ->
  Forall wf_placement ps ->
  exists rows,
    encode_placements self ps = Ok rows /\
    length rows = 64%nat /\
    Forall (fun row => length row = embedding_dim self /\
                       Forall (fun x => 0 <= x <= 1) row) rows.
Proof.
  intros Heven Hwf. pose proof (encode_placements_result self ps Heven) as Hres.
  destruct (encode_placements self ps) as [rows|e].
  - destruct Hres as (_ & _ & Hlen & Hrows). exists rows. split; [reflexivity|].
    split; [exact Hlen|]. apply Forall_forall. intros row Hrow.
    apply list_elem_of_lookup in Hrow as [i Hi].
    assert (Hilt : (i < 64)%nat) by (rewrite <- Hlen; by eapply lookup_lt_Some).
    destruct (Hrows (Z.of_nat i + 1)%Z ltac:(lia)) as (row' & Hr & Hl & Hrange & _).
    replace (Z.to_nat (Z.of_nat i + 1 - 1)) with i in Hr by lia.
    rewrite Hi in Hr. injection Hr as <-. by split.
  - exfalso. rewrite Forall_forall in Hwf.
    destruct Hres as [[_ Hex]|(_ & _ & Hex)]; apply Exists_exists in Hex as (p & Hp & Hbad);
      destruct (Hwf _ Hp) as [Hg Hl]; [tauto|]. destruct Hbad as [_ Hbad]. apply Hbad. lia.
Qed.


End FeatureFacts.

(** ** The intention perturbation *)

Section PerturbationFacts.
Context `{rt : Runtime}.
Import Core QuantumFieldEncoder.

Lemma draw_Ok {A} (f : RngState -> A * RngState) rng a rng' :
  draw f rng = Ok (a, rng') -> f rng = (a, rng').
Proof. unfold draw. by intros [= ->]. Qed.

(** X24 (the intention perturbation).  When [create_intention_perturbation]
    returns, the perturbation of gate g is 0.1 times the g-th number drawn
    by [randn(64)], plus 0.3 if the base chart has, at gate g, a placement
    of a planet of [PLANETS] (in either stream), and plus nothing
    otherwise: a gate that holds placements of other planets only gets no
    boost.  The question is not read. *)
Theorem intention_perturbation_boost (question : string) (ps : list Placement)
    (rng rng' : RngState) (perturbation : list R) :
  randn_contract ->
  create_intention_perturbation question ps rng = Ok (perturbation, rng') ->
  length perturbation = 64%nat /\
  forall g, (1 <= g <= 64)%Z ->
    exists noise,
      (randn 64 rng).1 !! Z.to_nat (g - 1) = Some noise /\
      (Exists (known_at g) ps ->
         perturbation !! Z.to_nat (g - 1) = Some (noise * 0.1 + 0.3)) /\
      (~ Exists (known_at g) ps ->
         perturbation !! Z.to_nat (g - 1) = Some (noise * 0.1)).
Proof.
  intros Hrandn H. unfold create_intention_perturbation in H.
  apply bind_Ok in H as (noise & rng1 & Hnoise & H).
  apply bind_Ok in H as (enc & rng2 & Henc & H).
  apply bind_Ok in H as (rows & rng3 & Hrows & H).
  apply ret_Ok in H as [-> _]. apply lift_Ok in Hrows as [Hrows _].
  apply draw_Ok in Hnoise.
  pose proof (returns_inv _ _ _ _ _ (encoder_init_returns 64) Henc) as Hdim.
  cbv beta in Hdim.
  pose proof (encode_placements_result enc ps) as Hres. rewrite Hrows, Hdim in Hres.
  destruct Hres as (_ & _ & Hlen & Hrow); [reflexivity|].
  assert (Hnlen : length noise = 64%nat).
  { pose proof (Hrandn 64%nat rng) as Hl. by rewrite Hnoise in Hl. }
  split; [rewrite length_zip_with, !length_map; lia|].
  intros g Hg. destruct (Hrow g Hg) as (row & Hr & _ & _ & Hzero & Hpos).
  destruct (lookup_lt_is_Some_2 noise (Z.to_nat (g - 1))) as [n Hn]; [lia|].
  exists n. rewrite Hnoise. cbn [fst]. split; [exact Hn|].
  assert (Hlook : zip_with Rplus (map (fun x => x * 0.1) noise)
                    (map (fun row => (if Rlt_dec 0 (tsum row) then 1 else 0) * 0.3) rows)
                  !! Z.to_nat (g - 1)
                  = Some (n * 0.1 + (if Rlt_dec 0 (tsum row) then 1 else 0) * 0.3)).
  { rewrite lookup_zip_with. change (map ?f ?l) with (f <$> l).
    by rewrite !list_lookup_fmap, Hn, Hr. }
  rewrite Hlook. split.
  - intros Hex. specialize (Hpos Hex ltac:(cbn; lia)).
    destruct (Rlt_dec 0 (tsum row)); [|contradiction]. f_equal. lra.
  - intros Hno. specialize (Hzero Hno).
    destruct (Rlt_dec 0 (tsum row)); [lra|]. f_equal. lra.
Qed.

End PerturbationFacts.

Lemma create_intention_perturbation_returns `{rt : Runtime} (q : string)
    (ps : list Core.Placement) :
  randn_contract -> Forall wf_placement ps ->
  returns (QuantumFieldEncoder.create_intention_perturbation q ps) (fun _ => True).
Proof.
  intros Hrandn Hwf. unfold QuantumFieldEncoder.create_intention_perturbation.
  eapply returns_bind; [by apply returns_randn|]. intros noise _.
  eapply returns_bind; [apply encoder_init_returns|]. intros enc Henc.
  destruct (encode_placements_ok enc ps) as (base & Hbase & _);
    [by rewrite Henc | exact Hwf|].
  eapply returns_bind; [exact (returns_lift _ _ (fun _ => True) Hbase I)|].
  intros base' _. by apply returns_ret.
Qed.

(** X22 at the example data: the docstring's chart. *)
Lemma node_features_in_range_witness :
  exists rows,
    QuantumFieldEncoder.encode_placements Examples.encoder64 Examples.natal = Ok rows
    /\ length rows = 64%nat
    /\ Forall (fun row => length row = 64%nat /\ Forall (fun x => 0 <= x <= 1) row) rows.
Proof.
  exact (node_features_in_range Examples.encoder64 Examples.natal eq_refl natal_wf).
Defined.


(** X24 at the reference runtime: the Sun at gate 46 and Chiron alone at
    gate 7; the reference generator numbers its draws from the counter. *)
Lemma intention_perturbation_boost_witness :
  exists pert rng',
    QuantumFieldEncoder.create_intention_perturbation (rt := Reference.runtime) "test"
      Examples.sun_and_chiron 0%nat = Ok (pert, rng')
    /\ pert !! 45%nat = Some (INR 45 * 0.1 + 0.3)
    /\ pert !! 6%nat = Some (INR 6 * 0.1).
Proof.
  assert (Hwf : Forall wf_placement Examples.sun_and_chiron).
  { repeat constructor; simpl; lia. }
  destruct (@create_intention_perturbation_returns Reference.runtime "test"
              Examples.sun_and_chiron reference_randn_contract Hwf 0%nat)
    as (pert & rng' & Hrun & _).
  destruct (@intention_perturbation_boost Reference.runtime "test" Examples.sun_and_chiron
              0%nat rng' pert reference_randn_contract Hrun) as [_ Hboost].
  exists pert, rng'. split; [exact Hrun|]. split.
  - destruct (Hboost 46%Z ltac:(lia)) as (noise & Hnoise & Hyes & _).
    injection Hnoise as <-. apply Hyes. apply Exists_cons_hd. split; [reflexivity|].
    apply (bool_decide_unpack _). vm_compute. reflexivity.
  - destruct (Hboost 7%Z ltac:(lia)) as (noise & Hnoise & _ & Hno).
    injection Hnoise as <-. apply Hno. intros Hex.
    apply Exists_cons in Hex as [[Hg _]|Hex]; [discriminate Hg|].
    apply Exists_cons in Hex as [[_ Hk]|Hex]; [|by apply Exists_nil in Hex].
    revert Hk. apply (bool_decide_unpack _). vm_compute. reflexivity.
Defined.

(** ** The observer context and the pooling *)

Section SunContextFacts.
Import Core QuantumFieldEncoder.

(** X25 (the observer context).  For a Sun placement within the documented
    ranges, [encode_sun_context] returns 80 numbers: a 1 at index gate - 1,
    a 1 at index 64 + line - 1, the degree over 360 at index 70 (0 without
    a degree), and 0 everywhere else. *)
Theorem sun_context_layout (self : QuantumFieldEncoder.t) (p : Placement) :
  wf_placement p ->
  exists v,
    encode_sun_context self p = Ok v /\
    length v = 80%nat /\
    v !! Z.to_nat (gate p - 1) = Some 1 /\
    v !! Z.to_nat (64 + (line p - 1)) = Some 1 /\
    v !! 70%nat = Some (match degree p with Some d => d / 360 | None => 0 end) /\
    forall j, (j < 80)%nat ->
      j <> Z.to_nat (gate p - 1) -> j <> Z.to_nat (64 + (line p - 1)) -> j <> 70%nat ->
      v !! j = Some 0.
Proof.
  intros [Hg Hl]. unfold encode_sun_context.
  assert (Hz : forall n, length (zeros n) = n) by (intros n; apply length_replicate).
  rewrite !tensor_set_result, !Hz.
  rewrite !bool_decide_eq_true_2 by lia. cbn [mbind result_bind].
  rewrite !Z.mod_small by lia.
  set (gi := Z.to_nat (gate p - 1)). set (li := Z.to_nat (line p - 1)).
  assert (Hgi : (gi < 64)%nat) by (unfold gi; lia).
  assert (Hli : (li < 6)%nat) by (unfold li; lia).
  replace (Z.to_nat (64 + (line p - 1))) with (64 + li)%nat by (unfold li; lia).
  set (dv := match degree p with
             | Some d => if Req_EM_T d 0 then 0 else d / 360
             | None => 0
             end).
  assert (Hdv : dv = match degree p with Some d => d / 360 | None => 0 end).
  { unfold dv. destruct (degree p) as [d|]; [|reflexivity].
    destruct (Req_EM_T d 0) as [->|_]; [lra | reflexivity]. }
  set (gv := <[gi := 1]> (zeros 64)). set (lv := <[li := 1]> (zeros 6)).
  assert (Hgv : length gv = 64%nat) by (unfold gv, zeros; by rewrite length_insert, length_replicate).
  assert (Hlv : length lv = 6%nat) by (unfold lv, zeros; by rewrite length_insert, length_replicate).
  eexists. split; [reflexivity|]. split.
  { rewrite !length_app, Hgv, Hlv. unfold zeros. rewrite length_replicate. reflexivity. }
  split.
  { rewrite lookup_app_l by lia. unfold gv. apply list_lookup_insert_eq.
    unfold zeros. rewrite length_replicate. lia. }
  split.
  { rewrite lookup_app_r by lia. rewrite Hgv.
    replace (64 + li - 64)%nat with li by lia.
    rewrite lookup_app_l by lia. unfold lv. apply list_lookup_insert_eq.
    unfold zeros. rewrite length_replicate. lia. }
  split.
  { rewrite lookup_app_r by lia. rewrite Hgv.
    rewrite lookup_app_r by (rewrite Hlv; lia). rewrite Hlv. cbn. by rewrite Hdv. }
  intros j Hj Hjg Hjl Hj70.
  destruct (decide (j < 64)%nat) as [H64|H64].
  { rewrite lookup_app_l by lia. unfold gv. rewrite list_lookup_insert_ne by congruence.
    by apply zeros_lookup. }
  rewrite lookup_app_r by lia. rewrite Hgv.
  destruct (decide (j < 70)%nat) as [H70|H70].
  { rewrite lookup_app_l by lia. unfold lv. rewrite list_lookup_insert_ne by lia.
    apply zeros_lookup. lia. }
  rewrite lookup_app_r by lia. rewrite Hlv.
  destruct (j - 64 - 6)%nat as [|k] eqn:Hk; [lia|].
  change (([match degree p with Some d => if Req_EM_T d 0 then 0 else d / 360 | None => 0 end]
           ++ zeros 9) !! S k) with (zeros 9 !! k).
  apply zeros_lookup. lia.
Qed.

End SunContextFacts.

Section PoolingFacts.

Lemma tsum_map_div (f : R -> R) (s : R) (l : list R) :
  tsum (map (fun x => f x / s) l) = tsum (map f l) / s.
Proof.
  induction l as [|x l IH]; [unfold tsum; simpl; lra|].
  cbn [map]. change (tsum (?a :: ?b)) with (a + tsum b). rewrite IH. lra.
Qed.

(** The weights of [softmax] are positive and sum to 1. *)
Lemma softmax_weights (v : list R) :
  v <> [] ->
  Forall (fun w => 0 < w) (softmax v) /\ tsum (softmax v) = 1.
Proof.
  intros Hne. unfold softmax.
  assert (Hpos : 0 < tsum (map exp v)).
  { apply tsum_pos; [by destruct v|]. apply Forall_forall. intros y Hy.
    change (map ?f ?l) with (f <$> l) in Hy. apply list_elem_of_fmap in Hy as (x & -> & _).
    apply exp_pos. }
  split.
  - apply Forall_forall. intros w Hw. change (map ?f ?l) with (f <$> l) in Hw.
    apply list_elem_of_fmap in Hw as (x & -> & _).
    apply Rdiv_lt_0_compat; [apply exp_pos | exact Hpos].
  - rewrite (tsum_map_div exp). unfold Rdiv. rewrite Rinv_r; lra.
Qed.

(** A sum of rows weighted by non-negative weights: every component lies
    between the bounds of the rows times the sum of the weights. *)
Lemma weighted_sum_bounds (d : nat) (lo hi : R) (rows : list (list R)) :
  Forall (fun row => length row = d /\ Forall (fun x => lo <= x <= hi) row) rows ->
  forall ws, length ws = length rows -> Forall (fun w => 0 <= w) ws ->
    let pooled := foldr (zip_with Rplus) (zeros d)
                        (zip_with (fun row w => map (fun x => x * w) row) rows ws) in
    length pooled = d /\
    Forall (fun x => lo * tsum ws <= x <= hi * tsum ws) pooled.
Proof.
  induction 1 as [|row rows [Hlen Hrow] Hrows IH]; intros ws Hws Hpos; cbv zeta.
  - destruct ws; [|discriminate]. cbn. unfold zeros. rewrite length_replicate.
    split; [reflexivity|]. apply Forall_forall. intros x Hx.
    apply elem_of_replicate in Hx as [-> _]. unfold tsum. simpl. lra.
  - destruct ws as [|w ws]; [discriminate|]. injection Hws as Hws.
    apply Forall_cons in Hpos as [Hw Hpos].
    destruct (IH ws Hws Hpos) as [Hplen Hprange]. cbv zeta in Hplen, Hprange.
    cbn [zip_with foldr].
    set (rest := foldr (zip_with Rplus) (zeros d) _) in *.
    split; [rewrite length_zip_with, length_map; lia|].
    change (tsum (w :: ws)) with (w + tsum ws).
    apply Forall_forall. intros y Hy.
    apply list_elem_of_lookup in Hy as [j Hj].
    apply lookup_zip_with_Some in Hj as (a & b & -> & Ha & Hb).
    change (map ?f ?l) with (f <$> l) in Ha. rewrite list_lookup_fmap in Ha.
    destruct (row !! j) as [x|] eqn:Hx; [|discriminate]. injection Ha as <-.
    rewrite Forall_forall in Hrow, Hprange.
    pose proof (Hrow x (list_elem_of_lookup_2 _ _ _ Hx)) as Hxr.
    pose proof (Hprange b (list_elem_of_lookup_2 _ _ _ Hb)) as Hbr.
    cbv beta in Hbr. split; nra.
Qed.

(** X26 (awareness pooling).  Over a mask that selects no gate the pooled
    vector is all zeros.  Otherwise it is a weighted mean of the selected
    rows, with positive weights that sum to 1: if the selected rows have d
    entries, each between lo and hi, then so has the pooled vector. *)
Theorem awareness_pooling_within_rows (self : AwarenessPooling.t)
    (node_features : list (list R)) (mask : list bool) (d : nat) (lo hi : R) :
  let selected := map fst (filter (fun rm : list R * bool => rm.2 = true)
                                  (zip node_features mask)) in
  (selected = [] ->
   AwarenessPooling.forward self node_features mask
   = zeros (length (default [] (head node_features)))) /\
  (selected <> [] ->
   Forall (fun row => length row = d /\ Forall (fun x => lo <= x <= hi) row) selected ->
   length (AwarenessPooling.forward self node_features mask) = d /\
   Forall (fun x => lo <= x <= hi) (AwarenessPooling.forward self node_features mask)).
Proof.
  intros selected. unfold AwarenessPooling.forward. fold selected. split.
  - intros ->. reflexivity.
  - intros Hne Hrows. destruct selected as [|row0 rest] eqn:Hsel; [done|].
    rewrite <- Hsel in *. clear Hne.
    set (logits := map (fun row => item (Linear (AwarenessPooling.attention self) row))
                       selected).
    assert (Hlne : logits <> []) by (unfold logits; rewrite Hsel; discriminate).
    destruct (softmax_weights logits Hlne) as [Hpos Hsum].
    assert (Hd : length (default [] (head selected)) = d).
    { rewrite Hsel. cbn. rewrite Hsel in Hrows. apply Forall_cons in Hrows as [[Hl _] _].
      exact Hl. }
    rewrite Hd.
    destruct (weighted_sum_bounds d lo hi selected Hrows (softmax logits)) as [Hlen Hrange].
    { unfold softmax, logits. by rewrite !length_map. }
    { eapply Forall_impl; [exact Hpos|]. intros w Hw. cbv beta in Hw. lra. }
    cbv zeta in Hlen, Hrange. split; [exact Hlen|].
    rewrite Hsum, !Rmult_1_r in Hrange. exact Hrange.
Qed.

End PoolingFacts.

(** X25 at the example data: the Sun at gate 46, line 3, 135.5 degrees. *)
Lemma sun_context_layout_witness :
  exists v,
    QuantumFieldEncoder.encode_sun_context Examples.encoder64 Examples.sun = Ok v
    /\ length v = 80%nat
    /\ v !! 45%nat = Some 1
    /\ v !! 66%nat = Some 1
    /\ v !! 70%nat = Some (135.5 / 360).
Proof.
  destruct (sun_context_layout Examples.encoder64 Examples.sun sun_wf)
    as (v & Hrun & Hlen & Hg & Hl & Hd & _).
  exists v. by repeat split.
Defined.

(** X26 at the example data: the rows [1; 2] and [3; 4] are selected, and
    the row [9; 9] is not. *)
Lemma awareness_pooling_within_rows_witness :
  length (AwarenessPooling.forward Examples.pool Examples.pool_rows Examples.pool_mask)
    = 2%nat /\
  Forall (fun x => 1 <= x <= 4)
         (AwarenessPooling.forward Examples.pool Examples.pool_rows Examples.pool_mask).
Proof.
  apply (proj2 (awareness_pooling_within_rows Examples.pool Examples.pool_rows
                  Examples.pool_mask 2 1 4)).
  - discriminate.
  - repeat constructor; lra.
Defined.
